(** * Attendance grid, student loading and payment recording

    A shallow embedding of the TypeScript components of the repository
    (AttendanceGrid, AttendanceManager, PaymentTracker) and of the ECMAScript
    built-ins they call, followed by the properties of the specification.

    Conventions.
    - A JavaScript [Date] is its time value: milliseconds since the epoch in
      UTC, or the invalid date.
    - A JavaScript [Map<string, boolean>] and an object used as a record with
      dynamic keys are finite maps keyed by strings.
    - A remote call is an input of the model: what the collaborator answers is
      a variable of the section that uses it.
    - A thrown exception is an explicit outcome ([None], or [Thrown]). *)

From Stdlib Require Import ZArith Lia Bool List String Ascii QArith.
From Stdlib Require Import Sorting.Sorted OrderedTypeEx.
From stdpp Require Import gmap strings list pretty.

Close Scope Q_scope.
Open Scope Z_scope.

(** ** ECMAScript time values (ECMA-262, Date objects) *)

Module Calendar.

Definition msPerDay : Z := 86400000.

Definition Day (t : Z) : Z := t / msPerDay.

Definition TimeWithinDay (t : Z) : Z := t mod msPerDay.

Definition DaysInYear (y : Z) : Z :=
  if negb (y mod 4 =? 0) then 365
  else if negb (y mod 100 =? 0) then 366
  else if negb (y mod 400 =? 0) then 365
  else 366.

Definition DayFromYear (y : Z) : Z :=
  365 * (y - 1970) + (y - 1969) / 4 - (y - 1901) / 100 + (y - 1601) / 400.

(** The largest year whose first day is not after day [d]: an estimate from
    the mean year length, corrected by at most one year. *)
Definition YearFromDay (d : Z) : Z :=
  let y0 := 1970 + (400 * d) / 146097 in
  if d <? DayFromYear y0 then y0 - 1
  else if DayFromYear (y0 + 1) <=? d then y0 + 1
  else y0.

Definition InLeapYear (y : Z) : Z := if DaysInYear y =? 366 then 1 else 0.

(** Day within the year on which month [m] (0 = January) starts; month 12 is
    the first day of the next year. *)
Definition monthStart (leap m : Z) : Z :=
  match m with
  | 0 => 0
  | 1 => 31
  | 2 => 59 + leap
  | 3 => 90 + leap
  | 4 => 120 + leap
  | 5 => 151 + leap
  | 6 => 181 + leap
  | 7 => 212 + leap
  | 8 => 243 + leap
  | 9 => 273 + leap
  | 10 => 304 + leap
  | 11 => 334 + leap
  | _ => 365 + leap
  end.

Definition DayWithinYear (d : Z) : Z := d - DayFromYear (YearFromDay d).

Definition MonthFromDay (d : Z) : Z :=
  let leap := InLeapYear (YearFromDay d) in
  let diy := DayWithinYear d in
  if diy <? monthStart leap 1 then 0
  else if diy <? monthStart leap 2 then 1
  else if diy <? monthStart leap 3 then 2
  else if diy <? monthStart leap 4 then 3
  else if diy <? monthStart leap 5 then 4
  else if diy <? monthStart leap 6 then 5
  else if diy <? monthStart leap 7 then 6
  else if diy <? monthStart leap 8 then 7
  else if diy <? monthStart leap 9 then 8
  else if diy <? monthStart leap 10 then 9
  else if diy <? monthStart leap 11 then 10
  else 11.

Definition DateFromDay (d : Z) : Z :=
  DayWithinYear d - monthStart (InLeapYear (YearFromDay d)) (MonthFromDay d) + 1.

(** [MakeDay]: months outside 0..11 carry into the year, and the date may be
    any integer (date 0 is the last day of the month before). *)
Definition MakeDay (year month date : Z) : Z :=
  let ym := year + month / 12 in
  let mn := month mod 12 in
  DayFromYear ym + monthStart (InLeapYear ym) mn + date - 1.

Definition DaysInMonth (year month : Z) : Z :=
  monthStart (InLeapYear year) (month + 1) - monthStart (InLeapYear year) month.

End Calendar.

Import Calendar.

(** A [Date] object: its time value. *)
Inductive Date : Type :=
  | InvalidDate
  | TimeValue (t : Z).

#[global] Instance Date_eq_dec : EqDecision Date.
Proof. solve_decision. Defined.

Definition TimeClip (t : Z) : Date :=
  if Z.abs t <=? 8640000000000000 then TimeValue t else InvalidDate.

(** Two-digit years of the multi-argument constructor mean 1900 + year. *)
Definition MakeFullYear (year : Z) : Z :=
  if (0 <=? year) && (year <=? 99) then 1900 + year else year.

(** [new Date(year, monthIndex, date)]: local time, with [LocalTZA] the offset
    of local time from UTC in milliseconds. *)
Definition Date_local (LocalTZA : Z -> Z) (year monthIndex date : Z) : Date :=
  let t := MakeDay (MakeFullYear year) monthIndex date * msPerDay in
  TimeClip (t - LocalTZA t).

(** [new Date(Date.UTC(...))]-style value: UTC midnight of a calendar day. *)
Definition Date_utc (year monthIndex date : Z) : Date :=
  TimeClip (MakeDay year monthIndex date * msPerDay).

(** *** Decimal digits *)

Definition digit (n : Z) : ascii := ascii_of_nat (48 + Z.to_nat (n mod 10)).

Definition digitValue (c : ascii) : option Z :=
  let n := Z.of_nat (nat_of_ascii c) in
  if (48 <=? n) && (n <=? 57) then Some (n - 48) else None.

Definition pad2 (n : Z) : string :=
  String (digit (n / 10)) (String (digit n) EmptyString).

Definition pad3 (n : Z) : string := String (digit (n / 100)) (pad2 n).

Definition pad4 (n : Z) : string := String (digit (n / 1000)) (pad3 n).

Definition pad6 (n : Z) : string :=
  String (digit (n / 100000)) (String (digit (n / 10000)) (pad4 n)).

(** [Date.prototype.toISOString]: [None] is the RangeError thrown for an
    invalid date. Years outside 0..9999 use the signed six-digit form. *)
Definition toISOString (d : Date) : option string :=
  match d with
  | InvalidDate => None
  | TimeValue t =>
      let day := Day t in
      let y := YearFromDay day in
      let ms := TimeWithinDay t in
      let yearStr :=
        if (0 <=? y) && (y <=? 9999) then pad4 y
        else String (if 0 <=? y then "+"%char else "-"%char) (pad6 (Z.abs y)) in
      Some (yearStr +:+ "-" +:+ pad2 (MonthFromDay day + 1)
            +:+ "-" +:+ pad2 (DateFromDay day)
            +:+ "T" +:+ pad2 (ms / 3600000)
            +:+ ":" +:+ pad2 (ms / 60000 mod 60)
            +:+ ":" +:+ pad2 (ms / 1000 mod 60)
            +:+ "." +:+ pad3 (ms mod 1000) +:+ "Z")
  end.

(** [s.slice(0, 10)] *)
Definition slice10 (s : string) : string := substring 0 10 s.

(** [d.toISOString().slice(0, 10)], the key the grid uses for a day. *)
Definition isoKey (d : Date) : option string := slice10 <$> toISOString d.

(** [new Date(s)] for the date-only form "YYYY-MM-DD" of the ECMAScript date
    string format, which is UTC midnight of that day. Every other string is
    read as the invalid date: the other forms of the format do not occur in
    the lesson-date lists, and strings outside the format are parsed in an
    implementation-defined way. *)
Definition parseIsoDate (s : string) : option (Z * Z * Z) :=
  match list_ascii_of_string s with
  | [y1; y2; y3; y4; sep1; m1; m2; sep2; d1; d2] =>
      if bool_decide (sep1 = "-"%char /\ sep2 = "-"%char) then
        a ← digitValue y1; b ← digitValue y2; c ← digitValue y3; e ← digitValue y4;
        f ← digitValue m1; g ← digitValue m2; h ← digitValue d1; i ← digitValue d2;
        Some (1000 * a + 100 * b + 10 * c + e, 10 * f + g, 10 * h + i)
      else None
  | _ => None
  end.

Definition Date_parse (s : string) : Date :=
  match parseIsoDate s with
  | Some (y, m, d) =>
      if (1 <=? m) && (m <=? 12) && (1 <=? d) && (d <=? DaysInMonth y (m - 1))
      then Date_utc y (m - 1) d
      else InvalidDate
  | None => InvalidDate
  end.

(** ** Month labels *)

(** [label.split(' ')] *)
Fixpoint split_space (s : string) : list string :=
  match s with
  | EmptyString => [EmptyString]
  | String c s' =>
      if bool_decide (c = " "%char) then EmptyString :: split_space s'
      else match split_space s' with
           | h :: t => String c h :: t
           | [] => [String c EmptyString]
           end
  end.

(** Month index of [new Date(`${mon} 1, ${year}`).getMonth()] for the
    three-letter English month names of the labels. *)
Definition monthIndex (mon : string) : option Z :=
  if bool_decide (mon = "Jan") then Some 0
  else if bool_decide (mon = "Feb") then Some 1
  else if bool_decide (mon = "Mar") then Some 2
  else if bool_decide (mon = "Apr") then Some 3
  else if bool_decide (mon = "May") then Some 4
  else if bool_decide (mon = "Jun") then Some 5
  else if bool_decide (mon = "Jul") then Some 6
  else if bool_decide (mon = "Aug") then Some 7
  else if bool_decide (mon = "Sep") then Some 8
  else if bool_decide (mon = "Oct") then Some 9
  else if bool_decide (mon = "Nov") then Some 10
  else if bool_decide (mon = "Dec") then Some 11
  else None.

Definition monthName (m : Z) : string :=
  match m with
  | 0 => "Jan" | 1 => "Feb" | 2 => "Mar" | 3 => "Apr" | 4 => "May" | 5 => "Jun"
  | 6 => "Jul" | 7 => "Aug" | 8 => "Sep" | 9 => "Oct" | 10 => "Nov" | _ => "Dec"
  end.

(** [Number(yearStr)] on a non-empty string of decimal digits. *)
Fixpoint digitsValue (acc : Z) (s : string) : option Z :=
  match s with
  | EmptyString => Some acc
  | String c s' =>
      match digitValue c with
      | Some v => digitsValue (10 * acc + v) s'
      | None => None
      end
  end.

Definition Number_of (s : string) : option Z :=
  match s with
  | EmptyString => None
  | _ => digitsValue 0 s
  end.

(** ** Data model (src/types/index.ts) *)

(** A JavaScript number: a double is a rational, an infinity or NaN. Only
    comparisons are made on numbers here, and they are exact on rationals. *)
Inductive number : Type :=
  | NaN
  | NegInfinity
  | Finite (q : Q)
  | PosInfinity.

Inductive PaymentStatus : Type := paid | pending | overdue.

Record Student : Type := mkStudent {
  student_id : string;
  student_name : string;
  parent_email : option string;
  payment_status : option PaymentStatus;
  last_payment_date : option string;
  invoice_amount : option number
}.

Record Class : Type := mkClass {
  class_id : string;
  class_name : string
}.

(** A field of an [AttendanceRecord]: [boolean | string]. *)
Inductive FieldValue : Type :=
  | FString (s : string)
  | FBool (b : bool).

#[global] Instance FieldValue_eq_dec : EqDecision FieldValue.
Proof. solve_decision. Defined.

Module AttendanceData.
Record t : Type := mk {
  class_id : string;
  class_name : string;
  month : string;
  lesson_dates : list string;
  data : list (gmap string FieldValue)
}.
End AttendanceData.

Module AttendanceResponse.
Record t : Type := mk {
  ok : bool;
  updated : Z;
  month : string
}.
End AttendanceResponse.

(** The [{ data, error }] answer of a query to the remote store. *)
Module Supabase.
Record Response (A : Type) : Type := mk {
  data : option (list A);
  error : option string
}.
Arguments mk {A} _ _.
Arguments data {A} _.
Arguments error {A} _.
End Supabase.

Inductive Variant : Type := default_variant | destructive.

Record Toast : Type := mkToast {
  title : string;
  description : string;
  variant : Variant
}.

(** ** AttendanceGrid *)

(** What [attendance.save(payload)] does: it resolves with a response or
    throws, with a message when the thrown value is an [Error]. *)
Inductive SaveOutcome : Type :=
  | Saved (res : AttendanceResponse.t)
  | SaveThrew (message : option string).

Record Props : Type := mkProps {
  selectedClass : Class;
  selectedMonth : string;
  customLessonDates : option (list Date);
  students : list Student
}.

(** The collaborators of the component. *)
Record Env : Type := mkEnv {
  LocalTZA : Z -> Z;
  (* lesson_schedules: lesson_date of a class between two ISO days *)
  lesson_dates_query : string -> string -> string -> Supabase.Response string;
  (* lesson_schedules: student_id of a class *)
  enrolled_query : string -> Supabase.Response string;
  attendance_save : AttendanceData.t -> SaveOutcome
}.

(** The state of the component, and the browser's local storage. An entry of
    the local storage under a "lesson_dates:" key is written only by
    [saveAttendance], as [JSON.stringify] of an array of ISO days, and read
    back with [JSON.parse]: the model keeps the array. *)
Record GridState : Type := mkGridState {
  attendanceData : gmap string bool;
  isSaving : bool;
  dbDatesIso : option (list string);
  enrolledIds : option (gset string);
  localStorage : gmap string (list string)
}.

Definition initialState (storage : gmap string (list string)) : GridState :=
  {| attendanceData := ∅; isSaving := false; dbDatesIso := None;
     enrolledIds := None; localStorage := storage |}.

Definition setAttendanceData (m : gmap string bool) (st : GridState) : GridState :=
  {| attendanceData := m; isSaving := isSaving st; dbDatesIso := dbDatesIso st;
     enrolledIds := enrolledIds st; localStorage := localStorage st |}.

Definition setIsSaving (b : bool) (st : GridState) : GridState :=
  {| attendanceData := attendanceData st; isSaving := b; dbDatesIso := dbDatesIso st;
     enrolledIds := enrolledIds st; localStorage := localStorage st |}.

Definition setDbDatesIso (v : option (list string)) (st : GridState) : GridState :=
  {| attendanceData := attendanceData st; isSaving := isSaving st; dbDatesIso := v;
     enrolledIds := enrolledIds st; localStorage := localStorage st |}.

Definition setEnrolledIds (v : option (gset string)) (st : GridState) : GridState :=
  {| attendanceData := attendanceData st; isSaving := isSaving st;
     dbDatesIso := dbDatesIso st; enrolledIds := v; localStorage := localStorage st |}.

Definition localStorage_setItem (k : string) (v : list string) (st : GridState) : GridState :=
  {| attendanceData := attendanceData st; isSaving := isSaving st;
     dbDatesIso := dbDatesIso st; enrolledIds := enrolledIds st;
     localStorage := <[k := v]> (localStorage st) |}.

Record MonthRange : Type := mkMonthRange {
  start : Date;
  end_ : Date;
  startISO : string;
  endISO : string
}.

(** [parseMonthLabel]: "Aug 2025" -> first and last day of the month. [None]
    when a date is invalid and [toISOString] throws. *)
Definition parseMonthLabel (tza : Z -> Z) (label : string) : option MonthRange :=
  match split_space label with
  | mon :: yearStr :: _ =>
      year ← Number_of yearStr;
      mi ← monthIndex mon;
      let start := Date_local tza year mi 1 in
      let end_ := Date_local tza year (mi + 1) 0 in
      startISO ← isoKey start;
      endISO ← isoKey end_;
      Some (mkMonthRange start end_ startISO endISO)
  | _ => None
  end.

(** [Array.from(new Set(xs))]: the distinct values, in order of first
    occurrence. *)
Fixpoint Set_values (xs : list string) : list string :=
  match xs with
  | [] => []
  | x :: xs' => x :: filter (fun y => y ≠ x) (Set_values xs')
  end.

(** [xs.sort()]: ascending in the order of code units. *)
Fixpoint sort_insert (x : string) (l : list string) : list string :=
  match l with
  | [] => [x]
  | y :: l' => if String.leb x y then x :: l else y :: sort_insert x l'
  end.

Definition Array_sort (xs : list string) : list string :=
  foldr sort_insert [] xs.

(** [x && x.length > 0] *)
Definition nonEmpty {A : Type} (x : option (list A)) : bool :=
  match x with
  | Some (_ :: _) => true
  | _ => false
  end.

Definition cacheKey (p : Props) : string :=
  "lesson_dates:" +:+ class_id (selectedClass p) +:+ ":" +:+ selectedMonth p.

(** [local ? JSON.parse(local) : null] *)
Definition localDates (p : Props) (st : GridState) : option (list string) :=
  localStorage st !! cacheKey p.

(** The effect that loads the planned dates of the class and month. *)
Definition loadPlannedDates (env : Env) (p : Props) (st : GridState) : GridState :=
  if nonEmpty (customLessonDates p) then setDbDatesIso None st
  else
    match parseMonthLabel (LocalTZA env) (selectedMonth p) with
    | None => st
    | Some range =>
        let res := lesson_dates_query env (class_id (selectedClass p))
                     (startISO range) (endISO range) in
        match Supabase.error res with
        | Some _ => setDbDatesIso (localDates p st) st
        | None =>
            let iso := Array_sort (Set_values (default [] (Supabase.data res))) in
            if bool_decide (iso ≠ []) then setDbDatesIso (Some iso) st
            else setDbDatesIso (localDates p st) st
        end
    end.

(** The effect that loads the students with a schedule row in the class. *)
Definition loadEnrolledIds (env : Env) (p : Props) (st : GridState) : GridState :=
  let res := enrolled_query env (class_id (selectedClass p)) in
  match Supabase.error res with
  | Some _ => setEnrolledIds None st
  | None => setEnrolledIds (Some (list_to_set (default [] (Supabase.data res)))) st
  end.

(** Modelled from the spec: [getDaysInMonth] of '@/lib/dateUtils', every
    calendar day of the month of the label, from the 1st through the last day,
    the last day being day 0 of the following month. *)
Definition getDaysInMonth (label : string) : list Date :=
  match split_space label with
  | mon :: yearStr :: _ =>
      match Number_of yearStr, monthIndex mon with
      | Some year, Some mi =>
          let last := DateFromDay (MakeDay year (mi + 1) 0) in
          (fun d => Date_utc year mi d) <$> seqZ 1 last
      | _, _ => []
      end
  | _ => []
  end.

(** Prefer custom dates; otherwise DB dates; otherwise full month. *)
Definition days (p : Props) (st : GridState) : list Date :=
  if nonEmpty (customLessonDates p) then default [] (customLessonDates p)
  else if nonEmpty (dbDatesIso st) then Date_parse <$> default [] (dbDatesIso st)
  else getDaysInMonth (selectedMonth p).

Definition plannedIsoDates (p : Props) (st : GridState) : option (list string) :=
  mapM isoKey (days p st).

(** Apply the membership filter if we have it. *)
Definition studentsForThisClass (p : Props) (st : GridState) : list Student :=
  match enrolledIds st with
  | Some ids => filter (fun s => student_id s ∈ ids) (students p)
  | None => students p
  end.

Definition keyFor (studentId isoDate : string) : string :=
  studentId +:+ "-" +:+ isoDate.

(** [!prev.get(key)]: a missing key reads [undefined], whose negation is true. *)
Definition toggleAttendance (studentId isoDate : string) (st : GridState) : GridState :=
  let key := keyFor studentId isoDate in
  let prev := attendanceData st in
  setAttendanceData
    (<[key := match prev !! key with Some b => negb b | None => true end]> prev) st.

(** [attendanceData.get(key) || false] *)
Definition getAttendanceStatus (st : GridState) (studentId isoDate : string) : bool :=
  match attendanceData st !! keyFor studentId isoDate with
  | Some b => b || false
  | None => false
  end.

(** [days.forEach(d => rec[iso] = getAttendanceStatus(id, iso))]: [None] when
    [toISOString] throws. *)
Fixpoint fillDays (st : GridState) (studentId : string) (ds : list Date)
    (rec : gmap string FieldValue) : option (gmap string FieldValue) :=
  match ds with
  | [] => Some rec
  | d :: ds' =>
      iso ← isoKey d;
      fillDays st studentId ds' (<[iso := FBool (getAttendanceStatus st studentId iso)]> rec)
  end.

(** [const rec = { student_id, student_name }] *)
Definition recordBase (student : Student) : gmap string FieldValue :=
  <["student_name" := FString (student_name student)]>
    (<["student_id" := FString (student_id student)]> ∅).

Definition buildRecord (p : Props) (st : GridState) (student : Student)
    : option (gmap string FieldValue) :=
  fillDays st (student_id student) (days p st) (recordBase student).

Inductive Effect : Type :=
  | ShowToast (t : Toast)
  | CallAttendanceSave (payload : AttendanceData.t).

(** [saveAttendance]: the new state and, in order, the toasts shown and the
    network calls made. *)
Definition saveAttendance (env : Env) (p : Props) (st : GridState)
    : GridState * list Effect :=
  if bool_decide (class_id (selectedClass p) = "") then
    (st, [ShowToast (mkToast "Create/select a class first"
            "Please create or select a class before saving attendance." destructive)])
  else if bool_decide (length (studentsForThisClass p st) = 0%nat) then
    (st, [ShowToast (mkToast "No students"
            "Add at least one student to this class to save attendance." destructive)])
  else
    let st1 := setIsSaving true st in
    match mapM (buildRecord p st) (studentsForThisClass p st), plannedIsoDates p st with
    | Some records, Some planned =>
        let payload :=
          AttendanceData.mk (class_id (selectedClass p)) (class_name (selectedClass p))
            (selectedMonth p) planned records in
        match attendance_save env payload with
        | Saved res =>
            (setIsSaving false (localStorage_setItem (cacheKey p) planned st1),
             [CallAttendanceSave payload;
              ShowToast (mkToast "Attendance saved"
                ("Updated " +:+ pretty (AttendanceResponse.updated res) +:+ " entries for "
                 +:+ AttendanceResponse.month res +:+ ".") default_variant)])
        | SaveThrew message =>
            (setIsSaving false st1,
             [CallAttendanceSave payload;
              ShowToast (mkToast "Save failed"
                (default "Failed to save attendance." message) destructive)])
        end
    | _, _ =>
        (setIsSaving false st1,
         [ShowToast (mkToast "Save failed" "Invalid time value" destructive)])
    end.

(** ** Exceptions and promises *)

(** How a [try] block ends: with a value, or with a thrown value, of which the
    message is kept when it is an [Error]. *)
Inductive Completion (A : Type) : Type :=
  | Returned (a : A)
  | Thrown (message : option string).
Arguments Returned {A} _.
Arguments Thrown {A} _.

(** A settled promise. *)
Inductive Awaited (A : Type) : Type :=
  | Resolved (a : A)
  | Rejected (message : option string).
Arguments Resolved {A} _.
Arguments Rejected {A} _.

(** A computation that makes observable calls and may throw: the calls made so
    far are kept when it throws. *)
Definition Action (E A : Type) : Type := (list E * Completion A)%type.

Definition act_ret {E A : Type} (a : A) : Action E A := ([], Returned a).

Definition act_bind {E A B : Type} (m : Action E A) (k : A -> Action E B) : Action E B :=
  match m with
  | (log, Returned a) => let '(log', r) := k a in (log ++ log', r)
  | (log, Thrown e) => (log, Thrown e)
  end.

Definition act_throw {E A : Type} (message : option string) : Action E A :=
  ([], Thrown message).

Definition act_emit {E : Type} (e : E) : Action E unit := ([e], Returned tt).

Definition act_await {E A : Type} (x : Awaited A) : Action E A :=
  match x with
  | Resolved a => ([], Returned a)
  | Rejected m => ([], Thrown m)
  end.

(** [try { body } catch (error) { handler(error) }] *)
Definition act_catch {E A : Type} (body : Action E A)
    (handler : option string -> Action E A) : Action E A :=
  match body with
  | (log, Returned a) => (log, Returned a)
  | (log, Thrown e) => let '(log', r) := handler e in (log ++ log', r)
  end.

Declare Scope action_scope.
Delimit Scope action_scope with act.
Notation "x <- m ;; k" := (act_bind m (fun x => k))
  (at level 100, m at next level, right associativity) : action_scope.
Notation "m ;;; k" := (act_bind m (fun _ => k))
  (at level 100, right associativity) : action_scope.

(** ** AttendanceManager *)

Module AttendanceManager.

Inductive Step : Type := select | attendance.

Record StudentRow : Type := mkRow {
  id : string;
  row_student_name : string;
  row_parent_email : option string;
  row_payment_status : option PaymentStatus;
  row_invoice_amount : option number;
  row_last_payment_date : option string
}.

Record Env : Type := mkEnv {
  (* supabase.auth.getUser(), read through userData?.user?.id *)
  auth_getUser : Awaited (option string);
  (* lesson_schedules: student_id of a class *)
  schedules_query : string -> Awaited (Supabase.Response string);
  (* students with an id in the list, of a teacher, by name *)
  students_query : list string -> string -> Awaited (Supabase.Response StudentRow)
}.

Record State : Type := mkState {
  currentStep : Step;
  selectedClass : option Class;
  selectedMonth : string;
  customLessonDates : option (list Date);
  studentList : list Student;
  isLoadingStudents : bool
}.

Inductive Event : Type :=
  | ConsoleError (message : option string)
  | ShowToast (t : Toast).

Definition toStudent (s : StudentRow) : Student :=
  {| student_id := id s;
     student_name := row_student_name s;
     parent_email := row_parent_email s;
     payment_status := row_payment_status s;
     invoice_amount := row_invoice_amount s;
     last_payment_date := row_last_payment_date s |}.

(** The body of the [try] of [loadStudentsForClass]. *)
Definition loadStudentsForClass_try (env : Env) (classId : string)
    : Action Event (list Student) :=
  (teacher <- act_await (auth_getUser env) ;;
   match teacher with
   | None => act_throw (Some "User not authenticated")
   | Some teacherId =>
       if bool_decide (teacherId = "") then act_throw (Some "User not authenticated")
       else
         schedules <- act_await (schedules_query env classId) ;;
         match Supabase.error schedules with
         | Some schedError => act_throw (Some schedError)
         | None =>
             let studentIds := Set_values (default [] (Supabase.data schedules)) in
             if bool_decide (length studentIds = 0%nat) then act_ret []
             else
               studentData <- act_await (students_query env studentIds teacherId) ;;
               match Supabase.error studentData with
               | Some studentError => act_throw (Some studentError)
               | None => act_ret (toStudent <$> default [] (Supabase.data studentData))
               end
         end
   end)%act.

Definition loadStudentsForClass (env : Env) (classId : string)
    : Action Event (list Student) :=
  act_catch (loadStudentsForClass_try env classId)
    (fun error => (act_emit (ConsoleError error) ;;; act_ret [])%act).

(** [handleClassSelection]: the state after [finally], and the events. *)
Definition handleClassSelection (env : Env) (classData : Class) (month : string)
    (customDates : option (list Date)) (st : State) : State * list Event :=
  let st1 := {| currentStep := currentStep st;
                selectedClass := Some classData;
                selectedMonth := month;
                customLessonDates := customDates;
                studentList := studentList st;
                isLoadingStudents := true |} in
  match loadStudentsForClass env (class_id classData) with
  | (log, Returned studentData) =>
      ({| currentStep := attendance;
          selectedClass := selectedClass st1;
          selectedMonth := selectedMonth st1;
          customLessonDates := customLessonDates st1;
          studentList := studentData;
          isLoadingStudents := false |}, log)
  | (log, Thrown error) =>
      ({| currentStep := currentStep st1;
          selectedClass := selectedClass st1;
          selectedMonth := selectedMonth st1;
          customLessonDates := customLessonDates st1;
          studentList := studentList st1;
          isLoadingStudents := false |},
       log ++ [ShowToast (mkToast "Error loading students"
                 (default "Failed to load students" error) destructive)])
  end.

End AttendanceManager.

(** ** PaymentTracker *)

Module PaymentTracker.

Record Invoice : Type := mkInvoice {
  id : string;
  invoice_number : string;
  student_name : string;
  total_amount : number;
  status : string;
  due_date : string;
  invoice_date : string;
  student_id : string
}.

Record PaymentRow : Type := mkPayment {
  invoice_id : string;
  payment_student_id : string;
  amount : number;
  payment_method : string;
  payment_reference : string;
  notes : string
}.

Record StudentUpdate : Type := mkStudentUpdate {
  payment_status : string;
  last_payment_date : string;
  invoice_amount : number
}.

(** The writes to the store, and what else the user can observe. *)
Inductive Event : Type :=
  | InsertPayment (row : PaymentRow)
  | UpdateInvoice (invoiceId : string) (newStatus : string)
  | UpdateStudent (studentId : string) (fields : StudentUpdate)
  | ShowToast (t : Toast)
  | LoadInvoices.

Definition isWrite (e : Event) : bool :=
  match e with
  | InsertPayment _ | UpdateInvoice _ _ | UpdateStudent _ _ => true
  | _ => false
  end.

(** Each write answers [{ error }]: [None] is a null error. *)
Record Env : Type := mkEnv {
  parseFloat : string -> number;
  toFixed2 : number -> string;
  Date_now : Z;
  payments_insert : PaymentRow -> Awaited (option string);
  invoices_update : string -> string -> Awaited (option string);
  students_update : string -> StudentUpdate -> Awaited (option string)
}.

Record State : Type := mkState {
  selectedInvoice : option Invoice;
  paymentAmount : string;
  paymentMethod : string;
  paymentNotes : string;
  isProcessing : bool;
  isDialogOpen : bool
}.

Definition isNaN (x : number) : bool :=
  match x with NaN => true | _ => false end.

(** [a <= b] on numbers: false as soon as one side is NaN. *)
Definition number_le (a b : number) : bool :=
  match a, b with
  | NaN, _ | _, NaN => false
  | NegInfinity, _ => true
  | _, PosInfinity => true
  | Finite x, Finite y => Qle_bool x y
  | _, _ => false
  end.

(** [s.split('T')[0]] *)
Fixpoint before_T (s : string) : string :=
  match s with
  | EmptyString => EmptyString
  | String c s' => if bool_decide (c = "T"%char) then EmptyString else String c (before_T s')
  end.

(** [new Date().toISOString().split('T')[0]] *)
Definition today (env : Env) : string :=
  default "" (before_T <$> toISOString (TimeValue (Date_now env))).

(** The body of the [try] of [processPayment] for the selected invoice. *)
Definition processPayment_try (env : Env) (st : State) (inv : Invoice)
    : Action Event unit :=
  (let amount := parseFloat env (paymentAmount st) in
   if isNaN amount || number_le amount (Finite 0) then
     act_throw (Some "Invalid payment amount")
   else
     let row := {| invoice_id := id inv;
                   payment_student_id := student_id inv;
                   amount := amount;
                   payment_method := paymentMethod st;
                   payment_reference := "PAY-" +:+ pretty (Date_now env);
                   notes := paymentNotes st |} in
     act_emit (InsertPayment row) ;;;
     paymentError <- act_await (payments_insert env row) ;;
     match paymentError with
     | Some e => act_throw (Some e)
     | None =>
         let newStatus :=
           if number_le (total_amount inv) amount then "paid" else "partial" in
         act_emit (UpdateInvoice (id inv) newStatus) ;;;
         invoiceError <- act_await (invoices_update env (id inv) newStatus) ;;
         match invoiceError with
         | Some e => act_throw (Some e)
         | None =>
             let fields :=
               {| payment_status :=
                    if bool_decide (newStatus = "paid") then "paid" else "pending";
                  last_payment_date := today env;
                  invoice_amount := total_amount inv |} in
             act_emit (UpdateStudent (student_id inv) fields) ;;;
             studentError <- act_await (students_update env (student_id inv) fields) ;;
             match studentError with
             | Some e => act_throw (Some e)
             | None =>
                 act_emit (ShowToast (mkToast "Payment processed"
                   ("Payment of $" +:+ toFixed2 env amount +:+ " recorded successfully")
                   default_variant)) ;;;
                 act_emit LoadInvoices
             end
         end
     end)%act.

(** [processPayment]: the state after [finally], and the events in order. *)
Definition processPayment (env : Env) (st : State) : State * list Event :=
  match selectedInvoice st with
  | None => (st, [])
  | Some inv =>
      match processPayment_try env st inv with
      | (log, Returned _) =>
          ({| selectedInvoice := None;
              paymentAmount := "";
              paymentMethod := paymentMethod st;
              paymentNotes := "";
              isProcessing := false;
              isDialogOpen := false |}, log)
      | (log, Thrown error) =>
          ({| selectedInvoice := selectedInvoice st;
              paymentAmount := paymentAmount st;
              paymentMethod := paymentMethod st;
              paymentNotes := paymentNotes st;
              isProcessing := false;
              isDialogOpen := isDialogOpen st |},
           log ++ [ShowToast (mkToast "Error processing payment"
                     (default "Failed to process payment" error) destructive)])
      end
  end.

End PaymentTracker.

(** ** Observations used by the statements *)

(** The grid after a sequence of clicks, each a (student, ISO day) pair. *)
Definition toggles (clicks : list (string * string)) (st : GridState) : GridState :=
  foldl (fun s click => toggleAttendance click.1 click.2 s) st clicks.

(** The network calls among the effects of a save. *)
Definition networkCalls (effects : list Effect) : list AttendanceData.t :=
  omap (fun e => match e with CallAttendanceSave payload => Some payload | _ => None end)
       effects.

Definition toastsShown (effects : list Effect) : list Toast :=
  omap (fun e => match e with ShowToast t => Some t | _ => None end) effects.

(** The boolean fields of a record, which are its date fields. *)
Definition isBoolField (v : FieldValue) : bool :=
  match v with FBool _ => true | FString _ => false end.

Definition booleanFields (rec : gmap string FieldValue) : gmap string FieldValue :=
  filter (fun kv => isBoolField kv.2 = true) rec.

Definition countBooleanFields (records : list (gmap string FieldValue)) : nat :=
  sum_list (size ∘ booleanFields <$> records).

(** One step of the loop that fills a record: [rec[iso] = ...]. *)
Definition putDay (st : GridState) (studentId : string)
    (rec : gmap string FieldValue) (iso : string) : gmap string FieldValue :=
  <[iso := FBool (getAttendanceStatus st studentId iso)]> rec.

(** A date list is strictly increasing when the ISO days of its dates are, in
    the order of strings, which is the order of the calendar on ISO days. *)
Definition strictlyIncreasing (isoDays : list string) : Prop :=
  StronglySorted (strict String.le) isoDays.

Definition toastsOfManager (events : list AttendanceManager.Event) : list Toast :=
  omap (fun e => match e with AttendanceManager.ShowToast t => Some t | _ => None end)
       events.

(** A remote query fails when its promise rejects or its answer has an error. *)
Definition queryFailed {A : Type} (x : Awaited (Supabase.Response A)) : Prop :=
  match x with
  | Rejected _ => True
  | Resolved r => is_Some (Supabase.error r)
  end.

(** The authentication check fails when the call rejects or gives no user id. *)
Definition authFailed (x : Awaited (option string)) : Prop :=
  match x with
  | Rejected _ => True
  | Resolved None => True
  | Resolved (Some teacherId) => teacherId = ""
  end.

Definition invoiceStatusesWritten (events : list PaymentTracker.Event) : list string :=
  omap (fun e => match e with
                 | PaymentTracker.UpdateInvoice _ s => Some s
                 | _ => None
                 end) events.

Definition studentStatusesWritten (events : list PaymentTracker.Event) : list string :=
  omap (fun e => match e with
                 | PaymentTracker.UpdateStudent _ f => Some (PaymentTracker.payment_status f)
                 | _ => None
                 end) events.

Definition writesOf (events : list PaymentTracker.Event) : list PaymentTracker.Event :=
  filter (fun e => PaymentTracker.isWrite e = true) events.

(** The ISO 8601 form "YYYY-MM-DD" of a calendar day, with the month counted
    from 1. *)
Definition isoDay (year month date : Z) : string :=
  pad4 year +:+ "-" +:+ pad2 month +:+ "-" +:+ pad2 date.

(** The Gregorian calendar: leap years, and the number of days of a month
    (0 = January). *)
Definition isLeapYear (year : Z) : bool :=
  (year mod 4 =? 0) && (negb (year mod 100 =? 0) || (year mod 400 =? 0)).

Definition calendarDays (year month : Z) : Z :=
  match month with
  | 1 => if isLeapYear year then 29 else 28
  | 3 | 5 | 8 | 10 => 30
  | _ => 31
  end.

(** A month label "<Mon> <YYYY>". *)
Definition monthLabel (month year : Z) : string :=
  monthName month +:+ " " +:+ pad4 year.

(** ** Further built-ins *)

(** A [.single()] answer of the store: exactly one of the row and the error
    is non-null. *)
Inductive Single (A : Type) : Type :=
  | SingleRow (row : A)
  | SingleError (message : string).
Arguments SingleRow {A} _.
Arguments SingleError {A} _.

(** [String.prototype.trim], on the white space of ASCII: tab, line feed,
    vertical tab, form feed, carriage return and space. *)
Fixpoint trimStart (s : string) : string :=
  match s with
  | EmptyString => EmptyString
  | String c s' => if Ascii.is_space c then trimStart s' else s
  end.

Definition trimEnd (s : string) : string := String.rev (trimStart (String.rev s)).

Definition trim (s : string) : string := trimEnd (trimStart s).

(** The local-time getters of a date, with [tza] the offset of local time
    from UTC, in milliseconds, at a UTC time; [None] is NaN. *)
Definition LocalDay (tza : Z -> Z) (t : Z) : Z := Day (t + tza t).

Definition getFullYear (tza : Z -> Z) (d : Date) : option Z :=
  match d with
  | InvalidDate => None
  | TimeValue t => Some (YearFromDay (LocalDay tza t))
  end.

Definition getMonth (tza : Z -> Z) (d : Date) : option Z :=
  match d with
  | InvalidDate => None
  | TimeValue t => Some (MonthFromDay (LocalDay tza t))
  end.

Definition getDate (tza : Z -> Z) (d : Date) : option Z :=
  match d with
  | InvalidDate => None
  | TimeValue t => Some (DateFromDay (LocalDay tza t))
  end.

(** [d.setDate(date)]: the day of the month is replaced in local time, the
    time within the day is kept, and the result is brought back to UTC with
    [tzaLocal], the offset at a local time. *)
Definition setDate (tza tzaLocal : Z -> Z) (d : Date) (date : Z) : Date :=
  match d with
  | InvalidDate => InvalidDate
  | TimeValue t =>
      let local := t + tza t in
      let day := Day local in
      let newLocal :=
        MakeDay (YearFromDay day) (MonthFromDay day) date * msPerDay + TimeWithinDay local in
      TimeClip (newLocal - tzaLocal newLocal)
  end.

(** ** ClassManager *)

Module ClassManager.

Record Class : Type := mkClass {
  id : string;
  class_name : string;
  subject : option string;
  hourly_rate : option number;
  student_count : option nat
}.

(** A row of lesson_schedules, as selected: class_id, student_id. *)
Record ScheduleRow : Type := mkScheduleRow {
  row_class_id : string;
  row_student_id : string
}.

(** The form of a new class. *)
Record NewClass : Type := mkNewClass {
  form_class_name : string;
  form_subject : string;
  form_hourly_rate : string
}.

(** The row given to the insert of a class. *)
Record ClassInsert : Type := mkClassInsert {
  insert_class_name : string;
  insert_subject : option string;
  insert_hourly_rate : option number;
  insert_teacher_id : string
}.

Record State : Type := mkState {
  classes : list Class;
  isAddingClass : bool;
  newClass : NewClass;
  isLoading : bool
}.

Record Env : Type := mkEnv {
  auth_getUser : Awaited (option string);
  (* classes of a teacher, by name *)
  classes_query : string -> Awaited (Supabase.Response Class);
  (* lesson_schedules of the classes with these ids *)
  schedules_query : list string -> Awaited (Supabase.Response ScheduleRow);
  classes_insert : ClassInsert -> Awaited (Single Class);
  classes_delete : string -> Awaited (option string);
  classes_update_name : string -> string -> Awaited (option string);
  classes_update_rate : string -> option number -> Awaited (option string);
  (* Number(text) *)
  toNumber : string -> number;
  (* prompt(message, default): None when the user cancels *)
  prompt : string -> string -> option string;
  (* String(number) *)
  numberToString : number -> string
}.

(** The calls to the store and the toasts, in order. *)
Inductive Event : Type :=
  | QueryClasses (teacherId : string)
  | QuerySchedules (classIds : list string)
  | InsertClass (row : ClassInsert)
  | DeleteClass (classId : string)
  | UpdateName (classId : string) (name : string)
  | UpdateRate (classId : string) (rate : option number)
  | ShowToast (t : Toast).

Definition isStoreCall (e : Event) : bool :=
  match e with ShowToast _ => false | _ => true end.

Definition isWrite (e : Event) : bool :=
  match e with
  | InsertClass _ | DeleteClass _ | UpdateName _ _ | UpdateRate _ _ => true
  | _ => false
  end.

(** [map.has(k) || map.set(k, new Set()); map.get(k).add(v)] for one row. *)
Definition addStudent (map : gmap string (gset string)) (r : ScheduleRow)
    : gmap string (gset string) :=
  let map1 := match map !! row_class_id r with
              | Some _ => map
              | None => <[row_class_id r := ∅]> map
              end in
  alter (fun students => {[row_student_id r]} ∪ students) (row_class_id r) map1.

Definition studentSets (rows : list ScheduleRow) : gmap string (gset string) :=
  foldl addStudent ∅ rows.

(** [Object.fromEntries([...map.entries()].map(([k, v]) => [k, v.size]))];
    the keys are the ids of classes, which are not names of properties that
    every object inherits. *)
Definition studentCounts (rows : list ScheduleRow) : gmap string nat :=
  size <$> studentSets rows.

(** [{ ...c, student_count: counts[c.id] ?? 0 }] *)
Definition withCount (counts : gmap string nat) (c : Class) : Class :=
  {| id := id c; class_name := class_name c; subject := subject c;
     hourly_rate := hourly_rate c;
     student_count := Some (default 0%nat (counts !! id c)) |}.

Definition setClasses (l : list Class) (st : State) : State :=
  {| classes := l; isAddingClass := isAddingClass st; newClass := newClass st;
     isLoading := isLoading st |}.

Definition setIsLoading (b : bool) (st : State) : State :=
  {| classes := classes st; isAddingClass := isAddingClass st; newClass := newClass st;
     isLoading := b |}.

Definition fail (title : string) (fallback : string) (error : option string) : Event :=
  ShowToast (mkToast title (default fallback error) destructive).

(** The body of the [try] of [loadClasses]. *)
Definition loadClasses_try (env : Env) : Action Event (list Class) :=
  (teacher <- act_await (auth_getUser env) ;;
   match teacher with
   | None => act_throw (Some "User not authenticated")
   | Some teacherId =>
       if bool_decide (teacherId = "") then act_throw (Some "User not authenticated")
       else
         act_emit (QueryClasses teacherId) ;;;
         cls <- act_await (classes_query env teacherId) ;;
         match Supabase.error cls with
         | Some clsErr => act_throw (Some clsErr)
         | None =>
             let classList := default [] (Supabase.data cls) in
             let classIds := id <$> classList in
             counts <- (if bool_decide (classIds = []) then act_ret ∅
                        else
                          act_emit (QuerySchedules classIds) ;;;
                          scheds <- act_await (schedules_query env classIds) ;;
                          match Supabase.error scheds with
                          | Some sErr => act_throw (Some sErr)
                          | None => act_ret (studentCounts (default [] (Supabase.data scheds)))
                          end) ;;
             act_ret (withCount counts <$> classList)
         end
   end)%act.

(** [loadClasses]: the state after [finally], and the events. *)
Definition loadClasses (env : Env) (st : State) : State * list Event :=
  match loadClasses_try env with
  | (log, Returned l) => (setIsLoading false (setClasses l st), log)
  | (log, Thrown error) =>
      (setIsLoading false st, log ++ [fail "Error loading classes" "Failed to load classes" error])
  end.

Definition emptyForm : NewClass := mkNewClass "" "" "".

(** The body of the [try] of [addClass], for the trimmed name. *)
Definition addClass_try (env : Env) (st : State) (name : string) : Action Event Class :=
  (teacher <- act_await (auth_getUser env) ;;
   match teacher with
   | None => act_throw (Some "User not authenticated")
   | Some teacherId =>
       if bool_decide (teacherId = "") then act_throw (Some "User not authenticated")
       else
         let subject :=
           if bool_decide (trim (form_subject (newClass st)) = "") then None
           else Some (trim (form_subject (newClass st))) in
         let rate :=
           if bool_decide (form_hourly_rate (newClass st) = "") then None
           else Some (toNumber env (form_hourly_rate (newClass st))) in
         let row := mkClassInsert name subject rate teacherId in
         act_emit (InsertClass row) ;;;
         answer <- act_await (classes_insert env row) ;;
         match answer with
         | SingleError error => act_throw (Some error)
         | SingleRow data =>
             act_emit (ShowToast (mkToast "Class added"
                         (name +:+ " has been added successfully") default_variant)) ;;;
             act_ret data
         end
   end)%act.

Definition addClass (env : Env) (st : State) : State * list Event :=
  let name := trim (form_class_name (newClass st)) in
  if bool_decide (name = "") then
    (st, [ShowToast (mkToast "Class name required" "Please enter a class name" destructive)])
  else
    match addClass_try env st name with
    | (log, Returned data) =>
        ({| classes := {| id := id data; class_name := class_name data;
                          subject := subject data; hourly_rate := hourly_rate data;
                          student_count := Some 0%nat |} :: classes st;
            isAddingClass := false;
            newClass := emptyForm;
            isLoading := isLoading st |}, log)
    | (log, Thrown error) =>
        (st, log ++ [fail "Error adding class" "Failed to add class" error])
    end.

Definition deleteClass (env : Env) (classId className : string) (st : State)
    : State * list Event :=
  match classes_delete env classId with
  | Resolved None =>
      (setClasses (filter (fun c => id c ≠ classId) (classes st)) st,
       [DeleteClass classId;
        ShowToast (mkToast "Class deleted" (className +:+ " has been deleted")
                     default_variant)])
  | Resolved (Some error) =>
      (st, [DeleteClass classId;
            fail "Error deleting class" "Failed to delete class" (Some error)])
  | Rejected error =>
      (st, [DeleteClass classId; fail "Error deleting class" "Failed to delete class" error])
  end.




Definition isNaN (x : number) : bool :=
  match x with NaN => true | _ => false end.


End ClassManager.

(** ** AttendanceManager: the other handlers *)

(** [today.toLocaleDateString('en-US', { month: 'short', year: 'numeric' })]
    on a reading of the clock whose local year has four digits: the short
    English name of the local month, a space, the local year ("Aug 2025"). *)
Definition toLocaleMonthYear (tza : Z -> Z) (now : Z) : string :=
  monthLabel (MonthFromDay (LocalDay tza now)) (YearFromDay (LocalDay tza now)).

(** [handleTakeAttendanceFromClassManager]: the current month, no custom
    dates ([customDates || null] of an absent argument). *)
Definition handleTakeAttendanceFromClassManager (env : AttendanceManager.Env)
    (tza : Z -> Z) (now : Z) (classData : Class) (st : AttendanceManager.State)
    : AttendanceManager.State * list AttendanceManager.Event :=
  AttendanceManager.handleClassSelection env classData (toLocaleMonthYear tza now) None st.

(** [handleBackToSelection]; the active tab, which is not part of the state
    of the model, is set to 'attendance'. *)
Definition handleBackToSelection (st : AttendanceManager.State) : AttendanceManager.State :=
  {| AttendanceManager.currentStep := AttendanceManager.select;
     AttendanceManager.selectedClass := None;
     AttendanceManager.selectedMonth := "";
     AttendanceManager.customLessonDates := None;
     AttendanceManager.studentList := [];
     AttendanceManager.isLoadingStudents := AttendanceManager.isLoadingStudents st |}.

(** ** PaymentTracker: the payment dialog and the status badge *)

(** [onOpenChange] of the dialog of an invoice; [toString] is
    [Number.prototype.toString]. *)
Definition onOpenChange (toString : number -> string) (invoice : PaymentTracker.Invoice)
    (open : bool) (st : PaymentTracker.State) : PaymentTracker.State :=
  if open then
    {| PaymentTracker.selectedInvoice := Some invoice;
       PaymentTracker.paymentAmount := toString (PaymentTracker.total_amount invoice);
       PaymentTracker.paymentMethod := PaymentTracker.paymentMethod st;
       PaymentTracker.paymentNotes := PaymentTracker.paymentNotes st;
       PaymentTracker.isProcessing := PaymentTracker.isProcessing st;
       PaymentTracker.isDialogOpen := true |}
  else
    {| PaymentTracker.selectedInvoice := None;
       PaymentTracker.paymentAmount := PaymentTracker.paymentAmount st;
       PaymentTracker.paymentMethod := PaymentTracker.paymentMethod st;
       PaymentTracker.paymentNotes := PaymentTracker.paymentNotes st;
       PaymentTracker.isProcessing := PaymentTracker.isProcessing st;
       PaymentTracker.isDialogOpen := false |}.

Definition getStatusVariant (status : string) : string :=
  if bool_decide (status = "paid") then "default"
  else if bool_decide (status = "partial") then "secondary"
  else "destructive".

(** The two actions of an invoice row: [invoice.status !== 'paid'] shows the
    payment dialog, [invoice.status === 'paid'] the receipt button. *)
Definition offersPayment (status : string) : bool := negb (bool_decide (status = "paid")).

Definition offersReceipt (status : string) : bool := bool_decide (status = "paid").

(** ** InvoiceGenerator *)

Module InvoiceGenerator.

Record Class : Type := mkClass {
  id : string;
  class_name : string;
  hourly_rate : option number
}.

Record AttendanceData : Type := mkAttendanceData {
  student_id : string;
  attended_sessions : nat;
  total_sessions : nat
}.

(** A row of lesson_schedules, as selected: id, lesson_date. *)
Record ScheduleRow : Type := mkScheduleRow {
  schedule_id : string;
  lesson_date : string
}.

(** A row of attendance_records, as selected; [attended] may be null. *)
Record AttendanceRow : Type := mkAttendanceRow {
  lesson_schedule_id : string;
  attended : option bool
}.

Record InvoiceInsert : Type := mkInvoiceInsert {
  insert_student_id : string;
  insert_teacher_id : string;
  insert_invoice_number : string;
  insert_total_amount : number;
  insert_due_date : string;
  insert_invoice_date : string;
  insert_status : string;
  insert_notes : string
}.

Record LineItem : Type := mkLineItem {
  item_invoice_id : string;
  item_description : string;
  item_quantity : nat;
  item_unit_price : number;
  item_total_price : number
}.

Record State : Type := mkState {
  classes : list Class;
  selectedClass : string;
  selectedStudent : string;
  selectedMonth : string;
  hourlyRate : string;
  attendanceData : option AttendanceData;
  isGenerating : bool
}.

Record Env : Type := mkEnv {
  (* offset of local time from UTC, at a UTC time and at a local time *)
  tza : Z -> Z;
  tzaLocal : Z -> Z;
  (* the n-th reading of the clock by [new Date()] in a handler *)
  clock : nat -> Z;
  auth_getUser : Awaited (option string);
  (* lesson_schedules of a class and student between two ISO days, by date *)
  schedules_query : string -> string -> string -> string
                    -> Awaited (Supabase.Response ScheduleRow);
  (* attendance_records of the schedules with these ids *)
  attendance_query : list string -> Awaited (Supabase.Response AttendanceRow);
  parseFloat : string -> number;
  (* the product of a count and a number, in double precision *)
  times : nat -> number -> number;
  toFixed2 : number -> string;
  numberToString : number -> string;
  (* supabase.rpc('generate_invoice_number'): data and error *)
  rpc_invoice_number : Awaited (option string * option string);
  (* Math.random().toString(36).slice(2, 8).toUpperCase() *)
  randomSuffix : string;
  (* the insert of an invoice answers the id of the new row *)
  invoices_insert : InvoiceInsert -> Awaited (Single string);
  line_items_insert : LineItem -> Awaited (option string)
}.

Inductive Event : Type :=
  | QuerySchedules (classId studentId startISO endISO : string)
  | QueryAttendance (scheduleIds : list string)
  | RpcInvoiceNumber
  | InsertInvoice (row : InvoiceInsert)
  | InsertLineItem (row : LineItem)
  | ShowToast (t : Toast).

Definition isWrite (e : Event) : bool :=
  match e with
  | InsertInvoice _ | InsertLineItem _ => true
  | _ => false
  end.

Definition setAttendanceData (v : option AttendanceData) (st : State) : State :=
  {| classes := classes st; selectedClass := selectedClass st;
     selectedStudent := selectedStudent st; selectedMonth := selectedMonth st;
     hourlyRate := hourlyRate st; attendanceData := v; isGenerating := isGenerating st |}.

(** [onValueChange] of the class select. *)
Definition selectClass (env : Env) (value : string) (st : State) : State :=
  {| classes := classes st;
     selectedClass := value;
     selectedStudent := "";
     selectedMonth := selectedMonth st;
     hourlyRate :=
       match find (fun c => bool_decide (id c = value)) (classes st) with
       | Some cls =>
           match hourly_rate cls with
           | Some rate => numberToString env rate
           | None => hourlyRate st
           end
       | None => hourlyRate st
       end;
     attendanceData := attendanceData st;
     isGenerating := isGenerating st |}.

(** The range of [loadAttendanceData] for a month "YYYY-MM": [None] when a
    date is invalid and [toISOString] throws. *)
Definition monthRange (env : Env) (month : string) : option (string * string) :=
  let startDate := Date_parse (month +:+ "-01") in
  let endDate :=
    match getFullYear (tza env) startDate, getMonth (tza env) startDate with
    | Some year, Some monthIndex => Date_local (tzaLocal env) year (monthIndex + 1) 0
    | _, _ => InvalidDate
    end in
  startISO ← isoKey startDate;
  endISO ← isoKey endDate;
  Some (startISO, endISO).

(** [a.attended] as a condition. *)
Definition truthy (b : option bool) : bool := default false b.

(** The body of the [try] of [loadAttendanceData]. *)
Definition loadAttendanceData_try (env : Env) (st : State) : Action Event AttendanceData :=
  (match monthRange env (selectedMonth st) with
   | None => act_throw (Some "Invalid time value")
   | Some (startISO, endISO) =>
       act_emit (QuerySchedules (selectedClass st) (selectedStudent st) startISO endISO) ;;;
       schedules <- act_await (schedules_query env (selectedClass st) (selectedStudent st)
                                 startISO endISO) ;;
       match Supabase.error schedules with
       | Some schedulesError => act_throw (Some schedulesError)
       | None =>
           let scheduleIds := schedule_id <$> default [] (Supabase.data schedules) in
           let totalSessions := length scheduleIds in
           if bool_decide (totalSessions = 0%nat) then
             act_ret (mkAttendanceData (selectedStudent st) 0 0)
           else
             act_emit (QueryAttendance scheduleIds) ;;;
             attendance <- act_await (attendance_query env scheduleIds) ;;
             match Supabase.error attendance with
             | Some attendanceError => act_throw (Some attendanceError)
             | None =>
                 let attendedSessions :=
                   length (filter (fun a => truthy (attended a) = true)
                             (default [] (Supabase.data attendance))) in
                 act_ret (mkAttendanceData (selectedStudent st) attendedSessions totalSessions)
             end
       end
   end)%act.

Definition loadAttendanceData (env : Env) (st : State) : State * list Event :=
  match loadAttendanceData_try env st with
  | (log, Returned summary) => (setAttendanceData (Some summary) st, log)
  | (log, Thrown error) =>
      (st, log ++ [ShowToast (mkToast "Error loading attendance"
                     (default "Failed to load attendance data" error) destructive)])
  end.

(** The effect on the selection: load when class, student and month are all
    chosen, clear the summary otherwise. *)
Definition attendanceEffect (env : Env) (st : State) : State * list Event :=
  if bool_decide (selectedClass st = "" \/ selectedStudent st = "" \/ selectedMonth st = "")
  then (setAttendanceData None st, [])
  else loadAttendanceData env st.

(** [due.setDate(due.getDate() + 30)] on a reading of the clock. *)
Definition dueDate (env : Env) : Date :=
  let due := TimeValue (clock env 1) in
  match getDate (tza env) due with
  | Some date => setDate (tza env) (tzaLocal env) due (date + 30)
  | None => InvalidDate
  end.

(** The invoice number: the answer of the store when there is one, and a
    local one otherwise, also when the call is rejected. *)
Definition invoiceNumber (env : Env) : string :=
  let fromStore :=
    match rpc_invoice_number env with
    | Resolved (Some invNum, None) => if bool_decide (invNum = "") then None else Some invNum
    | _ => None
    end in
  match fromStore with
  | Some invNum => invNum
  | None =>
      "INV-" +:+ from_option pretty "NaN" (getFullYear (tza env) (TimeValue (clock env 2)))
      +:+ "-" +:+ randomSuffix env
  end.

(** The body of the [try] of [generateInvoice], for the loaded attendance. *)
Definition generateInvoice_try (env : Env) (st : State) (summary : AttendanceData)
    : Action Event unit :=
  (teacher <- act_await (auth_getUser env) ;;
   match teacher with
   | None => act_throw (Some "User not authenticated")
   | Some teacherId =>
       if bool_decide (teacherId = "") then act_throw (Some "User not authenticated")
       else
         let rate := parseFloat env (if bool_decide (hourlyRate st = "") then "0"
                                     else hourlyRate st) in
         let totalAmount := times env (attended_sessions summary) rate in
         match isoKey (TimeValue (clock env 0)), isoKey (dueDate env) with
         | Some todayISO, Some dueISO =>
             let row :=
               {| insert_student_id := selectedStudent st;
                  insert_teacher_id := teacherId;
                  insert_invoice_number := invoiceNumber env;
                  insert_total_amount := totalAmount;
                  insert_due_date := dueISO;
                  insert_invoice_date := todayISO;
                  insert_status := "pending";
                  insert_notes :=
                    "Invoice for " +:+ selectedMonth st +:+ " — "
                    +:+ pretty (attended_sessions summary) +:+ "/"
                    +:+ pretty (total_sessions summary) +:+ " sessions attended" |} in
             act_emit RpcInvoiceNumber ;;;
             act_emit (InsertInvoice row) ;;;
             invoice <- act_await (invoices_insert env row) ;;
             match invoice with
             | SingleError invoiceError => act_throw (Some invoiceError)
             | SingleRow invoiceId =>
                 let item :=
                   {| item_invoice_id := invoiceId;
                      item_description := "Tutoring sessions for " +:+ selectedMonth st;
                      item_quantity := attended_sessions summary;
                      item_unit_price := rate;
                      item_total_price := totalAmount |} in
                 act_emit (InsertLineItem item) ;;;
                 lineItemError <- act_await (line_items_insert env item) ;;
                 match lineItemError with
                 | Some e => act_throw (Some e)
                 | None =>
                     act_emit (ShowToast (mkToast "Invoice generated"
                       ("Created for " +:+ pretty (attended_sessions summary)
                        +:+ " sessions — $" +:+ toFixed2 env totalAmount +:+ ".")
                       default_variant))
                 end
             end
         | _, _ => act_throw (Some "Invalid time value")
         end
   end)%act.

(** [generateInvoice]: the state after [finally], and the events. *)
Definition generateInvoice (env : Env) (st : State) : State * list Event :=
  match attendanceData st with
  | None => (st, [])
  | Some summary =>
      if bool_decide (selectedClass st = "" \/ selectedStudent st = ""
                      \/ selectedMonth st = "") then (st, [])
      else
        match generateInvoice_try env st summary with
        | (log, Returned _) =>
            ({| classes := classes st; selectedClass := selectedClass st;
                selectedStudent := ""; selectedMonth := selectedMonth st;
                hourlyRate := hourlyRate st; attendanceData := None;
                isGenerating := false |}, log)
        | (log, Thrown error) =>
            ({| classes := classes st; selectedClass := selectedClass st;
                selectedStudent := selectedStudent st; selectedMonth := selectedMonth st;
                hourlyRate := hourlyRate st; attendanceData := attendanceData st;
                isGenerating := false |},
             log ++ [ShowToast (mkToast "Error generating invoice"
                       (default "Failed to generate invoice" error) destructive)])
        end
  end.

End InvoiceGenerator.

(** ** Settings *)

Module Settings.

Record State : Type := mkState {
  supabaseUrl : string;
  supabaseKey : string;
  isSaving : bool
}.

(** The local storage of the browser, as the settings page uses it. *)
Definition urlKey : string := "custom_supabase_url".
Definition keyKey : string := "custom_supabase_key".

(** The effect that loads the saved settings: [if (saved) set(saved)]. *)
Definition loadSaved (storage : gmap string string) (st : State) : State :=
  {| supabaseUrl := match storage !! urlKey with
                    | Some savedUrl => if bool_decide (savedUrl = "") then supabaseUrl st
                                       else savedUrl
                    | None => supabaseUrl st
                    end;
     supabaseKey := match storage !! keyKey with
                    | Some savedKey => if bool_decide (savedKey = "") then supabaseKey st
                                       else savedKey
                    | None => supabaseKey st
                    end;
     isSaving := isSaving st |}.

(** [handleSave]: [validURL] tells whether [new URL(text)] returns, and the
    storage takes the two items (its quota is not reached). The state after
    [finally], the storage and the toast. *)
Definition handleSave (validURL : string -> bool) (st : State) (storage : gmap string string)
    : State * gmap string string * Toast :=
  let done := {| supabaseUrl := supabaseUrl st; supabaseKey := supabaseKey st;
                 isSaving := false |} in
  if negb (bool_decide (supabaseUrl st = "")) && negb (bool_decide (supabaseKey st = "")) then
    if validURL (supabaseUrl st) then
      (done,
       <[keyKey := supabaseKey st]> (<[urlKey := supabaseUrl st]> storage),
       mkToast "Settings saved"
         "Custom Supabase configuration saved. Please refresh the page for changes to take effect."
         default_variant)
    else (done, storage, mkToast "Save failed" "Invalid Supabase URL format" destructive)
  else (done, storage, mkToast "Save failed" "Both URL and key are required" destructive).

Definition handleReset (st : State) (storage : gmap string string)
    : State * gmap string string * Toast :=
  ({| supabaseUrl := ""; supabaseKey := ""; isSaving := isSaving st |},
   delete keyKey (delete urlKey storage),
   mkToast "Settings reset"
     "Reverted to default Supabase configuration. Please refresh the page."
     default_variant).

(** [Boolean(localStorage.getItem('custom_supabase_url'))] *)
Definition isUsingCustomConfig (storage : gmap string string) : bool :=
  match storage !! urlKey with
  | Some url => negb (bool_decide (url = ""))
  | None => false
  end.

End Settings.

(** ** Observations used by the further statements *)

(** A date whose year, in UTC, has four digits. *)
Definition inFourDigitYears (d : Date) : Prop :=
  match d with
  | InvalidDate => False
  | TimeValue t => 0 <= YearFromDay (Day t) <= 9999
  end.

(** The month before a month (0 = January) of a year. *)
Definition previousMonth (year month : Z) : Z * Z :=
  if month =? 0 then (year - 1, 11) else (year, month - 1).

(** The value "YYYY-MM" of a month input, with the month counted from 1. *)
Definition monthValue (year month : Z) : string := pad4 year +:+ "-" +:+ pad2 month.

(** A text that holds nothing but white space. *)
Fixpoint isBlank (s : string) : bool :=
  match s with
  | EmptyString => true
  | String c s' => Ascii.is_space c && isBlank s'
  end.


(** A browser in a zone of constant offset and a store that accepts every
    call, for the examples of the invoice generator. *)
Definition sampleInvoiceEnv (tz : Z) (now : Z) : InvoiceGenerator.Env :=
  InvoiceGenerator.mkEnv (fun _ => tz) (fun _ => tz) (fun _ => now)
    (Resolved (Some "teacher-1"))
    (fun _ _ _ _ => Resolved (Supabase.mk
       (Some [InvoiceGenerator.mkScheduleRow "ls-1" "2025-08-05";
              InvoiceGenerator.mkScheduleRow "ls-2" "2025-08-12"]) None))
    (fun _ => Resolved (Supabase.mk
       (Some [InvoiceGenerator.mkAttendanceRow "ls-1" (Some true);
              InvoiceGenerator.mkAttendanceRow "ls-2" (Some false)]) None))
    (fun _ => Finite (50 # 1))
    (fun n _ => Finite (Z.of_nat n * 50 # 1))
    (fun _ => "50.00") (fun _ => "50")
    (Resolved (Some "INV-0001", None)) "ABC123"
    (fun _ => Resolved (SingleRow "inv-1"))
    (fun _ => Resolved None).

(** A store that accepts every call, for the examples of the class manager. *)
Definition sampleClassEnv (answer : option string) : ClassManager.Env :=
  ClassManager.mkEnv (Resolved (Some "teacher-1"))
    (fun _ => Resolved (Supabase.mk
       (Some [ClassManager.mkClass "c-1" "Maths" None None None;
              ClassManager.mkClass "c-2" "Physics" None None None]) None))
    (fun _ => Resolved (Supabase.mk
       (Some [ClassManager.mkScheduleRow "c-1" "s-01";
              ClassManager.mkScheduleRow "c-1" "s-02";
              ClassManager.mkScheduleRow "c-1" "s-01"]) None))
    (fun row => Resolved (SingleRow
       (ClassManager.mkClass "c-9" (ClassManager.insert_class_name row)
          (ClassManager.insert_subject row) (ClassManager.insert_hourly_rate row) None)))
    (fun _ => Resolved None)
    (fun _ _ => Resolved None)
    (fun _ _ => Resolved None)
    (fun text => if bool_decide (text = "60") then Finite (60 # 1) else NaN)
    (fun _ _ => answer)
    (fun _ => "50").

(** * Properties *)

(** ** The presence grid *)

Lemma keyFor_length (s d : string) :
  String.length (keyFor s d) = (String.length s + 1 + String.length d)%nat.
Proof.
  unfold keyFor. induction s as [|c s IH]; [reflexivity|].
  change (String.length (String c (s +:+ "-" +:+ d))
          = S (String.length s + 1 + String.length d)).
  cbn [String.length]. now rewrite IH.
Qed.

(** Keys do not collide on days of one length, as ISO days are. *)
Lemma keyFor_inj (s1 d1 s2 d2 : string) :
  String.length d1 = String.length d2 ->
  keyFor s1 d1 = keyFor s2 d2 -> s1 = s2 /\ d1 = d2.
Proof.
  intros Hlen. revert s2. induction s1 as [|c1 s1 IH]; intros [|c2 s2] Hk.
  - split; [reflexivity|]. unfold keyFor in Hk. now simplify_eq/=.
  - exfalso. apply (f_equal String.length) in Hk.
    rewrite !keyFor_length in Hk. cbn [String.length] in Hk. lia.
  - exfalso. apply (f_equal String.length) in Hk.
    rewrite !keyFor_length in Hk. cbn [String.length] in Hk. lia.
  - assert (c1 = c2 /\ keyFor s1 d1 = keyFor s2 d2) as [-> Hk'].
    { unfold keyFor in *.
      change (String c1 (s1 +:+ "-" +:+ d1) = String c2 (s2 +:+ "-" +:+ d2)) in Hk.
      now inversion Hk. }
    destruct (IH _ Hk') as [-> ->]. done.
Qed.

(** Without that, they do: the grid is keyed by the joined string. *)
Example keyFor_collision : keyFor "a-b" "c" = keyFor "a" "b-c".
Proof. reflexivity. Qed.

Lemma getAttendanceStatus_lookup (st : GridState) (s d : string) :
  getAttendanceStatus st s d = default false (attendanceData st !! keyFor s d).
Proof.
  unfold getAttendanceStatus. destruct (attendanceData st !! keyFor s d) as [b|]; simpl;
    [apply orb_false_r | reflexivity].
Qed.

Lemma toggleAttendance_get_same (st : GridState) (s d : string) :
  getAttendanceStatus (toggleAttendance s d st) s d = negb (getAttendanceStatus st s d).
Proof.
  rewrite !getAttendanceStatus_lookup. unfold toggleAttendance. simpl.
  rewrite lookup_insert_eq. now destruct (attendanceData st !! keyFor s d).
Qed.

Lemma toggleAttendance_lookup_other (st : GridState) (s d k : string) :
  k <> keyFor s d ->
  attendanceData (toggleAttendance s d st) !! k = attendanceData st !! k.
Proof. intros Hk. unfold toggleAttendance. simpl. now rewrite lookup_insert_ne. Qed.

(** Every key of the grid comes from a click. *)
Lemma toggles_keys (clicks : list (string * string)) (st : GridState) (k : string) :
  is_Some (attendanceData (toggles clicks st) !! k) ->
  is_Some (attendanceData st !! k) \/ exists c, c ∈ clicks /\ k = keyFor c.1 c.2.
Proof.
  revert st. induction clicks as [|c clicks IH]; intros st Hk; [now left|].
  change (toggles (c :: clicks) st) with (toggles clicks (toggleAttendance c.1 c.2 st)) in Hk.
  destruct (IH _ Hk) as [Hst | (c' & Hin & ->)].
  - destruct (decide (k = keyFor c.1 c.2)) as [->|Hne].
    + right. exists c. split; [left | reflexivity].
    + left. now rewrite toggleAttendance_lookup_other in Hst.
  - right. exists c'. split; [now right | reflexivity].
Qed.

(** C6: toggling the same (student, date) pair twice gives back the presence
    value that [get] returned before, in every grid state and for every pair
    of strings; one toggle of a pair whose key is absent makes [get] return
    true. *)
Theorem toggle_twice_restores (st : GridState) (studentId isoDate : string) :
  getAttendanceStatus (toggleAttendance studentId isoDate
                         (toggleAttendance studentId isoDate st)) studentId isoDate
  = getAttendanceStatus st studentId isoDate
  /\ (attendanceData st !! keyFor studentId isoDate = None ->
      getAttendanceStatus st studentId isoDate = false
      /\ getAttendanceStatus (toggleAttendance studentId isoDate st) studentId isoDate = true).
Proof.
  split.
  - rewrite !toggleAttendance_get_same. apply negb_involutive.
  - intros Habsent. rewrite toggleAttendance_get_same, getAttendanceStatus_lookup, Habsent.
    done.
Qed.

Lemma toggle_twice_restores_witness :
  attendanceData (initialState ∅) !! keyFor "s-01" "2025-08-05" = None
  /\ getAttendanceStatus (toggleAttendance "s-01" "2025-08-05" (initialState ∅))
       "s-01" "2025-08-05" = true.
Proof.
  split; [reflexivity|].
  apply (proj2 (toggle_twice_restores (initialState ∅) "s-01" "2025-08-05")).
  reflexivity.
Defined.

(** C7: in the grid reached from the empty one by any clicks on ISO days, a
    (student, ISO day) pair that was never clicked reads false; and [get] is a
    total function into the booleans, so for any strings and any grid it
    answers true or false, with no exception and no third value. *)
Theorem get_untouched_is_false (storage : gmap string (list string))
    (clicks : list (string * string)) (studentId isoDate : string) :
  Forall (fun click => String.length click.2 = 10%nat) clicks ->
  String.length isoDate = 10%nat ->
  (studentId, isoDate) ∉ clicks ->
  getAttendanceStatus (toggles clicks (initialState storage)) studentId isoDate = false
  /\ forall (st : GridState) (s d : string),
       getAttendanceStatus st s d = true \/ getAttendanceStatus st s d = false.
Proof.
  intros Hiso Hlen Hnot. split.
  - rewrite getAttendanceStatus_lookup.
    destruct (attendanceData (toggles clicks (initialState storage)) !! keyFor studentId isoDate)
      as [b|] eqn:Hk; [exfalso | reflexivity].
    destruct (toggles_keys clicks (initialState storage) (keyFor studentId isoDate))
      as [[? Hinit] | (c & Hin & Hkey)].
    + rewrite Hk. eauto.
    + simpl in Hinit. now rewrite lookup_empty in Hinit.
    + rewrite Forall_forall in Hiso. specialize (Hiso c Hin).
      apply keyFor_inj in Hkey as [Hs Hd]; [|congruence].
      apply Hnot. destruct c as [a b']. simpl in *. now subst.
  - intros st s d. destruct (getAttendanceStatus st s d); auto.
Qed.

Lemma get_untouched_is_false_witness :
  getAttendanceStatus
    (toggles [("s-01", "2025-08-05"); ("s-02", "2025-08-12")] (initialState ∅))
    "s-01" "2025-08-12" = false.
Proof.
  apply (get_untouched_is_false ∅ [("s-01", "2025-08-05"); ("s-02", "2025-08-12")]
           "s-01" "2025-08-12").
  - repeat constructor.
  - reflexivity.
  - intros Hin. repeat (apply elem_of_cons in Hin as [Hin|Hin]; [discriminate|]).
    now apply elem_of_nil in Hin.
Defined.

(** ** The membership filter *)

Lemma studentsForThisClass_setEnrolled (p : Props) (st : GridState) (ids : gset string) :
  studentsForThisClass p (setEnrolledIds (Some ids) st)
  = filter (fun s => student_id s ∈ ids) (students p).
Proof. reflexivity. Qed.

(** C5: when the enrollment lookup succeeds, the students in view are the
    passed-in students whose id is in a lesson-schedule row of the class, in
    their order, possibly none; when it fails, they are all the passed-in
    students. *)
Theorem membership_filter_fail_open (env : Env) (p : Props) (st : GridState) :
  let res := enrolled_query env (class_id (selectedClass p)) in
  let shown := studentsForThisClass p (loadEnrolledIds env p st) in
  (Supabase.error res = None ->
     shown = filter (fun s => student_id s ∈ default [] (Supabase.data res)) (students p)
     /\ forall s, s ∈ shown <->
          s ∈ students p /\ exists row, row ∈ default [] (Supabase.data res) /\ row = student_id s)
  /\ (is_Some (Supabase.error res) -> shown = students p).
Proof.
  intros res shown. subst shown. unfold loadEnrolledIds. fold res. split.
  - intros ->. rewrite studentsForThisClass_setEnrolled.
    assert (Heq : filter (fun s => student_id s ∈ (list_to_set (default [] (Supabase.data res)) : gset string))
                    (students p)
                  = filter (fun s => student_id s ∈ default [] (Supabase.data res)) (students p)).
    { apply list_filter_iff. intros s. apply elem_of_list_to_set. }
    rewrite Heq. split; [reflexivity|].
    intros s. rewrite list_elem_of_filter. split.
    + intros [Hrow Hin]. eauto.
    + intros [Hin (row & Hrow & ->)]. eauto.
  - intros [e ->]. reflexivity.
Qed.

Lemma membership_filter_fail_open_witness :
  let alice := mkStudent "s-01" "Alice" None None None None in
  let bob := mkStudent "s-02" "Bob" None None None None in
  let p := mkProps (mkClass "c-1" "Maths") "Aug 2025" None [alice; bob] in
  let ok := mkEnv (fun _ => 0) (fun _ _ _ => Supabase.mk None None)
              (fun _ => Supabase.mk (Some ["s-02"; "s-09"; "s-02"]) None)
              (fun _ => SaveThrew None) in
  let ko := mkEnv (fun _ => 0) (fun _ _ _ => Supabase.mk None None)
              (fun _ => Supabase.mk None (Some "network")) (fun _ => SaveThrew None) in
  studentsForThisClass p (loadEnrolledIds ok p (initialState ∅)) = [bob]
  /\ studentsForThisClass p (loadEnrolledIds ko p (initialState ∅)) = [alice; bob].
Proof.
  intros alice bob p ok ko. split.
  - rewrite (proj1 (proj1 (membership_filter_fail_open ok p (initialState ∅)) eq_refl)).
    reflexivity.
  - apply (proj2 (membership_filter_fail_open ko p (initialState ∅))). simpl. eauto.
Defined.

(** ** Saving: validation *)

(** C4: a save with an empty class identifier, or with no student in view,
    shows one destructive toast and does nothing else: no network call is made
    and the state, the grid and the local cache included, is unchanged. *)
Theorem save_validation_fails_fast (env : Env) (p : Props) (st : GridState) :
  class_id (selectedClass p) = "" \/ studentsForThisClass p st = [] ->
  exists t,
    saveAttendance env p st = (st, [ShowToast t])
    /\ variant t = destructive
    /\ networkCalls (saveAttendance env p st).2 = []
    /\ attendanceData (saveAttendance env p st).1 = attendanceData st.
Proof.
  intros Hpre. unfold saveAttendance.
  destruct (decide (class_id (selectedClass p) = "")) as [Hc|Hc].
  - rewrite (bool_decide_eq_true_2 _ Hc). eexists. repeat split; reflexivity.
  - rewrite (bool_decide_eq_false_2 _ Hc).
    destruct Hpre as [?|Hs]; [done|]. rewrite Hs. simpl.
    eexists. repeat split; reflexivity.
Qed.

Lemma save_validation_fails_fast_witness :
  let alice := mkStudent "s-01" "Alice" None None None None in
  let env := mkEnv (fun _ => 0) (fun _ _ _ => Supabase.mk None None)
               (fun _ => Supabase.mk None None)
               (fun _ => Saved (AttendanceResponse.mk true 1 "Aug 2025")) in
  let noClass := mkProps (mkClass "" "") "Aug 2025" None [alice] in
  let noStudents := mkProps (mkClass "c-1" "Maths") "Aug 2025" None [] in
  networkCalls (saveAttendance env noClass (initialState ∅)).2 = []
  /\ networkCalls (saveAttendance env noStudents (initialState ∅)).2 = [].
Proof.
  intros alice env noClass noStudents. split.
  - destruct (save_validation_fails_fast env noClass (initialState ∅)) as (t & _ & _ & H & _);
      [left; reflexivity | exact H].
  - destruct (save_validation_fails_fast env noStudents (initialState ∅)) as (t & _ & _ & H & _);
      [right; reflexivity | exact H].
Defined.

(** ** Loading the students of a class *)

(** [loadStudentsForClass] never throws: its [catch] returns the empty list. *)
Lemma loadStudentsForClass_returns (env : AttendanceManager.Env) (classId : string) :
  exists log l, AttendanceManager.loadStudentsForClass env classId = (log, Returned l).
Proof.
  unfold AttendanceManager.loadStudentsForClass, act_catch.
  destruct (AttendanceManager.loadStudentsForClass_try env classId) as [log [l|e]];
    simpl; eauto.
Qed.

(** A failing remote call makes the [try] throw, or leaves nothing to load. *)
Lemma loadStudentsForClass_try_failure (env : AttendanceManager.Env) (classId : string) :
  authFailed (AttendanceManager.auth_getUser env)
  \/ queryFailed (AttendanceManager.schedules_query env classId)
  \/ (forall ids teacherId, queryFailed (AttendanceManager.students_query env ids teacherId)) ->
  (exists e, AttendanceManager.loadStudentsForClass_try env classId = ([], Thrown e))
  \/ AttendanceManager.loadStudentsForClass_try env classId = ([], Returned []).
Proof.
  intros Hfail. unfold AttendanceManager.loadStudentsForClass_try.
  destruct (AttendanceManager.auth_getUser env) as [[teacherId|]|m] eqn:Hauth; simpl; eauto.
  destruct (decide (teacherId = "")) as [Hempty|Hteacher].
  { rewrite (bool_decide_eq_true_2 _ Hempty). eauto. }
  rewrite (bool_decide_eq_false_2 _ Hteacher).
  destruct Hfail as [Ha | Hfail]; [done|].
  destruct (AttendanceManager.schedules_query env classId) as [schedules|m] eqn:Hsched;
    simpl; eauto.
  destruct (Supabase.error schedules) as [schedError|] eqn:Herr; simpl; eauto.
  destruct Hfail as [Hs | Hfail].
  { simpl in Hs. rewrite Herr in Hs. now destruct Hs. }
  case_bool_decide; simpl; eauto.
  specialize (Hfail (Set_values (default [] (Supabase.data schedules))) teacherId).
  destruct (AttendanceManager.students_query env _ teacherId) as [studentData|m]; simpl; eauto.
  simpl in Hfail. destruct Hfail as [e ->]. simpl. eauto.
Qed.

(** C9: [loadStudentsForClass] never propagates an error; when the
    authentication check, the schedule lookup or the student-details lookup
    fails it returns the empty list, so that [handleClassSelection] goes to
    the attendance view with no student and shows no toast. *)
Theorem loadStudentsForClass_swallows_failures
    (env : AttendanceManager.Env) (classData : Class) (month : string)
    (customDates : option (list Date)) (st : AttendanceManager.State) :
  authFailed (AttendanceManager.auth_getUser env)
  \/ queryFailed (AttendanceManager.schedules_query env (class_id classData))
  \/ (forall ids teacherId, queryFailed (AttendanceManager.students_query env ids teacherId)) ->
  (exists log, AttendanceManager.loadStudentsForClass env (class_id classData) = (log, Returned []))
  /\ let after := AttendanceManager.handleClassSelection env classData month customDates st in
     AttendanceManager.studentList after.1 = []
     /\ AttendanceManager.currentStep after.1 = AttendanceManager.attendance
     /\ AttendanceManager.isLoadingStudents after.1 = false
     /\ toastsOfManager after.2 = [].
Proof.
  intros Hfail.
  assert (Hload : exists log,
             AttendanceManager.loadStudentsForClass env (class_id classData) = (log, Returned [])
             /\ toastsOfManager log = []).
  { unfold AttendanceManager.loadStudentsForClass.
    destruct (loadStudentsForClass_try_failure env (class_id classData) Hfail)
      as [[e ->] | ->]; simpl; eauto. }
  destruct Hload as (log & Hload & Hlog). split; [eauto|].
  unfold AttendanceManager.handleClassSelection. rewrite Hload. simpl. auto.
Qed.

Lemma loadStudentsForClass_swallows_failures_witness :
  let env := AttendanceManager.mkEnv (Resolved (Some "teacher-1"))
               (fun _ => Resolved (Supabase.mk None (Some "permission denied")))
               (fun _ _ => Resolved (Supabase.mk (Some []) None)) in
  let st := AttendanceManager.mkState AttendanceManager.select None "" None [] false in
  toastsOfManager
    (AttendanceManager.handleClassSelection env (mkClass "c-1" "Maths") "Aug 2025" None st).2
  = [].
Proof.
  intros env st.
  apply (loadStudentsForClass_swallows_failures env (mkClass "c-1" "Maths") "Aug 2025"
           None st).
  right; left. simpl. eauto.
Defined.

(** ** Recording a payment *)

Lemma number_le_zero_not_nan (x : number) :
  PaymentTracker.isNaN x || PaymentTracker.number_le x (Finite 0) = false ->
  x <> NaN /\ PaymentTracker.number_le x (Finite 0) = false.
Proof. destruct x; simpl; intros H; split; congruence. Qed.

(** C10: for the selected invoice, an amount that is not a number or not
    positive aborts before any write. For a positive amount, every invoice
    status written is "paid" when the amount is at least the invoice total and
    "partial" otherwise, and every student payment status written is "paid" in
    the first case and "pending" otherwise; once the payment is recorded the
    invoice status is written, and once that is accepted the student status is
    written in the same run. *)
Theorem payment_status_follows_amount
    (env : PaymentTracker.Env) (st : PaymentTracker.State) (inv : PaymentTracker.Invoice) :
  PaymentTracker.selectedInvoice st = Some inv ->
  let amount := PaymentTracker.parseFloat env (PaymentTracker.paymentAmount st) in
  let covered := PaymentTracker.number_le (PaymentTracker.total_amount inv) amount in
  let events := (PaymentTracker.processPayment env st).2 in
  let row := PaymentTracker.mkPayment (PaymentTracker.id inv) (PaymentTracker.student_id inv)
               amount (PaymentTracker.paymentMethod st)
               ("PAY-" +:+ pretty (PaymentTracker.Date_now env))
               (PaymentTracker.paymentNotes st) in
  (PaymentTracker.isNaN amount || PaymentTracker.number_le amount (Finite 0) = true ->
     writesOf events = [])
  /\ (PaymentTracker.isNaN amount || PaymentTracker.number_le amount (Finite 0) = false ->
      (forall s, s ∈ invoiceStatusesWritten events ->
         s = if covered then "paid" else "partial")
      /\ (forall s, s ∈ studentStatusesWritten events ->
           s = if covered then "paid" else "pending")
      /\ (PaymentTracker.payments_insert env row = Resolved None ->
          invoiceStatusesWritten events = [if covered then "paid" else "partial"]
          /\ (PaymentTracker.invoices_update env (PaymentTracker.id inv)
                (if covered then "paid" else "partial") = Resolved None ->
              studentStatusesWritten events = [if covered then "paid" else "pending"]))).
Proof.
  intros Hsel amount covered events row.
  subst events. unfold PaymentTracker.processPayment. rewrite Hsel.
  unfold PaymentTracker.processPayment_try. fold amount. fold row. fold covered.
  split.
  - intros ->. reflexivity.
  - intros ->.
    destruct (PaymentTracker.payments_insert env row) as [[e1|]|m1]; simpl;
      try (repeat split; first [ intros s Hs; now apply elem_of_nil in Hs | discriminate ]).
    destruct (PaymentTracker.invoices_update env (PaymentTracker.id inv)
                (if covered then "paid" else "partial")) as [[e2|]|m2]; simpl;
      try (repeat split;
           first [ intros s Hs; apply list_elem_of_singleton in Hs; exact Hs
                 | intros s Hs; now apply elem_of_nil in Hs
                 | discriminate
                 | reflexivity ]).
    assert (Hb : bool_decide ((if covered then "paid" else "partial") = "paid") = covered)
      by now destruct covered.
    rewrite Hb.
    destruct (PaymentTracker.students_update env (PaymentTracker.student_id inv) _)
      as [[e3|]|m3]; simpl;
      repeat split;
        first [ intros s Hs; apply list_elem_of_singleton in Hs; exact Hs
              | reflexivity ].
Qed.

Lemma payment_status_follows_amount_witness :
  let env := PaymentTracker.mkEnv (fun _ => Finite (30 # 1)) (fun _ => "30.00") 1762041600000
               (fun _ => Resolved None) (fun _ _ => Resolved None)
               (fun _ _ => Resolved None) in
  let inv := PaymentTracker.mkInvoice "inv-1" "INV-001" "Alice" (Finite (50 # 1)) "sent"
               "2025-09-01" "2025-08-01" "s-01" in
  let st := PaymentTracker.mkState (Some inv) "30" "cash" "" false true in
  invoiceStatusesWritten (PaymentTracker.processPayment env st).2 = ["partial"]
  /\ studentStatusesWritten (PaymentTracker.processPayment env st).2 = ["pending"].
Proof.
  intros env inv st.
  destruct (payment_status_follows_amount env st inv eq_refl) as [_ Hpos].
  destruct (Hpos eq_refl) as (_ & _ & Hrecorded).
  destruct (Hrecorded eq_refl) as [Hinvoice Hstudent].
  split; [exact Hinvoice | exact (Hstudent eq_refl)].
Defined.

(** ** Calendar arithmetic *)

Ltac div_lia := Z.to_euclidean_division_equations; lia.

Lemma DayFromYear_succ (y : Z) : DayFromYear (y + 1) = DayFromYear y + DaysInYear y.
Proof.
  unfold DayFromYear, DaysInYear.
  assert (H4 : (y + 1 - 1969) / 4 = (y - 1969) / 4 + (if y mod 4 =? 0 then 1 else 0))
    by (destruct (Z.eqb_spec (y mod 4) 0); div_lia).
  assert (H100 : (y + 1 - 1901) / 100 = (y - 1901) / 100 + (if y mod 100 =? 0 then 1 else 0))
    by (destruct (Z.eqb_spec (y mod 100) 0); div_lia).
  assert (H400 : (y + 1 - 1601) / 400 = (y - 1601) / 400 + (if y mod 400 =? 0 then 1 else 0))
    by (destruct (Z.eqb_spec (y mod 400) 0); div_lia).
  assert (Ha : y mod 100 = 0 -> y mod 4 = 0) by div_lia.
  assert (Hb : y mod 400 = 0 -> y mod 100 = 0) by div_lia.
  rewrite H4, H100, H400.
  destruct (Z.eqb_spec (y mod 4) 0), (Z.eqb_spec (y mod 100) 0), (Z.eqb_spec (y mod 400) 0);
    cbn [negb]; lia.
Qed.

Lemma DaysInYear_cases (y : Z) :
  (DaysInYear y = 365 /\ InLeapYear y = 0) \/ (DaysInYear y = 366 /\ InLeapYear y = 1).
Proof.
  unfold InLeapYear, DaysInYear.
  destruct (negb (y mod 4 =? 0)), (negb (y mod 100 =? 0)), (negb (y mod 400 =? 0));
    simpl; auto.
Qed.

Lemma DayFromYear_mono (y y' : Z) : y <= y' -> DayFromYear y <= DayFromYear y'.
Proof. unfold DayFromYear. intros H. div_lia. Qed.

Lemma YearFromDay_spec (d : Z) :
  DayFromYear (YearFromDay d) <= d < DayFromYear (YearFromDay d + 1).
Proof.
  unfold YearFromDay. set (y0 := 1970 + 400 * d / 146097).
  assert (H1 : DayFromYear (y0 - 1) <= d) by (unfold DayFromYear, y0; div_lia).
  assert (H2 : d < DayFromYear (y0 + 2)) by (unfold DayFromYear, y0; div_lia).
  destruct (Z.ltb_spec d (DayFromYear y0)).
  - replace (y0 - 1 + 1) with y0 by lia. lia.
  - destruct (Z.leb_spec (DayFromYear (y0 + 1)) d).
    + replace (y0 + 1 + 1) with (y0 + 2) by lia. lia.
    + lia.
Qed.

(** The year of a day is the one whose days contain it. *)
Lemma YearFromDay_unique (y d : Z) :
  DayFromYear y <= d < DayFromYear (y + 1) -> YearFromDay d = y.
Proof.
  intros Hy. pose proof (YearFromDay_spec d) as Hs.
  destruct (Z.lt_trichotomy (YearFromDay d) y) as [Hlt | [Heq | Hgt]]; [|exact Heq|].
  - pose proof (DayFromYear_mono (YearFromDay d + 1) y). lia.
  - pose proof (DayFromYear_mono (y + 1) (YearFromDay d)). lia.
Qed.

Lemma month_cases (m : Z) :
  0 <= m <= 11 ->
  m = 0 \/ m = 1 \/ m = 2 \/ m = 3 \/ m = 4 \/ m = 5 \/ m = 6 \/ m = 7 \/ m = 8 \/ m = 9
  \/ m = 10 \/ m = 11.
Proof. lia. Qed.

Ltac each_month H :=
  apply month_cases in H;
  destruct H as [-> | [-> | [-> | [-> | [-> | [-> | [-> | [-> | [-> | [-> | [-> | ->]]]]]]]]]]].

(** A calendar day read back from its day number. *)
Lemma civil_of_MakeDay (y m d : Z) :
  0 <= m <= 11 -> 1 <= d <= DaysInMonth y m ->
  YearFromDay (MakeDay y m d) = y
  /\ MonthFromDay (MakeDay y m d) = m
  /\ DateFromDay (MakeDay y m d) = d.
Proof.
  intros Hm Hd.
  assert (Hday : MakeDay y m d = DayFromYear y + monthStart (InLeapYear y) m + d - 1).
  { unfold MakeDay. rewrite (Z.div_small m 12), (Z.mod_small m 12) by lia.
    now rewrite Z.add_0_r. }
  assert (Hyear : YearFromDay (MakeDay y m d) = y).
  { apply YearFromDay_unique. rewrite Hday, DayFromYear_succ.
    unfold DaysInMonth in Hd.
    destruct (DaysInYear_cases y) as [[-> Hl] | [-> Hl]]; rewrite Hl in *;
      each_month Hm; simpl in *; lia. }
  unfold DateFromDay, MonthFromDay, DayWithinYear. rewrite Hyear, Hday.
  split; [reflexivity|].
  unfold DaysInMonth in Hd.
  destruct (DaysInYear_cases y) as [[_ Hl] | [_ Hl]]; rewrite Hl in *;
    each_month Hm; simpl in Hd |- *;
    repeat match goal with
           | |- context [?a <? ?b] => destruct (Z.ltb_spec a b); try lia
           end;
    (split; [reflexivity | simpl; lia]).
Qed.

(** Day 0 of the following month is the last day of the month. *)
Lemma MakeDay_day_zero (y m : Z) :
  0 <= m <= 11 -> MakeDay y (m + 1) 0 = MakeDay y m (DaysInMonth y m).
Proof.
  intros Hm. unfold MakeDay, DaysInMonth.
  destruct (Z.eq_dec m 11) as [-> | Hne].
  - change ((11 + 1) / 12) with 1. change ((11 + 1) mod 12) with 0.
    change (11 / 12) with 0. change (11 mod 12) with 11.
    replace (y + 0) with y by lia. rewrite DayFromYear_succ.
    destruct (DaysInYear_cases y) as [[-> ->] | [-> ->]]; simpl; lia.
  - rewrite (Z.div_small m 12), (Z.mod_small m 12) by lia.
    rewrite (Z.div_small (m + 1) 12), (Z.mod_small (m + 1) 12) by lia.
    replace (y + 0) with y by lia. lia.
Qed.

Lemma DaysInMonth_pos (y m : Z) : 0 <= m <= 11 -> 28 <= DaysInMonth y m <= 31.
Proof.
  intros Hm. unfold DaysInMonth.
  destruct (DaysInYear_cases y) as [[_ ->] | [_ ->]]; each_month Hm; simpl; lia.
Qed.

Lemma last_day_of_month (y m : Z) :
  0 <= m <= 11 -> DateFromDay (MakeDay y (m + 1) 0) = DaysInMonth y m.
Proof.
  intros Hm. rewrite MakeDay_day_zero by exact Hm.
  pose proof (DaysInMonth_pos y m Hm).
  apply civil_of_MakeDay; lia.
Qed.

(** ** Formatting and parsing days *)

Lemma nat_of_digit (n : Z) : nat_of_ascii (digit n) = (48 + Z.to_nat (n mod 10))%nat.
Proof.
  unfold digit. apply nat_ascii_embedding.
  pose proof (Z.mod_pos_bound n 10). lia.
Qed.

Lemma digitValue_digit (n : Z) : digitValue (digit n) = Some (n mod 10).
Proof.
  unfold digitValue. rewrite nat_of_digit.
  pose proof (Z.mod_pos_bound n 10 ltac:(lia)) as Hb.
  destruct (Z.leb_spec 48 (Z.of_nat (48 + Z.to_nat (n mod 10)))); [|lia].
  destruct (Z.leb_spec (Z.of_nat (48 + Z.to_nat (n mod 10))) 57); [|lia].
  simpl. f_equal. lia.
Qed.

Lemma digitValue_range (c : ascii) (v : Z) : digitValue c = Some v -> 0 <= v <= 9.
Proof.
  unfold digitValue. intros Hc.
  destruct (Z.leb_spec 48 (Z.of_nat (nat_of_ascii c))); [|discriminate].
  destruct (Z.leb_spec (Z.of_nat (nat_of_ascii c)) 57); [|discriminate].
  simpl in Hc. injection Hc as <-. lia.
Qed.

Lemma digit_of_digitValue (c : ascii) (v n : Z) :
  digitValue c = Some v -> n mod 10 = v -> 0 <= v <= 9 /\ digit n = c.
Proof.
  unfold digitValue, digit. intros Hc Hn.
  destruct (Z.leb_spec 48 (Z.of_nat (nat_of_ascii c))); [|discriminate].
  destruct (Z.leb_spec (Z.of_nat (nat_of_ascii c)) 57); [|discriminate].
  simpl in Hc. injection Hc as <-. split; [lia|].
  rewrite Hn. replace (48 + Z.to_nat (Z.of_nat (nat_of_ascii c) - 48))%nat
    with (nat_of_ascii c) by lia.
  apply ascii_nat_embedding.
Qed.

Lemma digit_neq (n : Z) (c : ascii) :
  (nat_of_ascii c < 48 \/ 57 < nat_of_ascii c)%nat -> digit n <> c.
Proof.
  intros Hc Heq. apply (f_equal nat_of_ascii) in Heq. rewrite nat_of_digit in Heq.
  pose proof (Z.mod_pos_bound n 10 ltac:(lia)). lia.
Qed.

Lemma Number_of_pad4 (y : Z) : 0 <= y <= 9999 -> Number_of (pad4 y) = Some y.
Proof.
  intros Hy. unfold Number_of, pad4, pad3, pad2. cbn [digitsValue].
  rewrite !digitValue_digit. cbn [digitsValue]. f_equal. div_lia.
Qed.

Lemma split_space_pad4 (y : Z) : split_space (pad4 y) = [pad4 y].
Proof.
  unfold pad4, pad3, pad2. cbn [split_space].
  rewrite !bool_decide_eq_false_2
    by (apply digit_neq; change (nat_of_ascii " ") with 32%nat; lia).
  reflexivity.
Qed.

Lemma split_space_cons (c : ascii) (s : string) :
  c <> " "%char ->
  split_space (String c s)
  = match split_space s with
    | h :: t => String c h :: t
    | [] => [String c EmptyString]
    end.
Proof. intros Hc. cbn [split_space]. now rewrite bool_decide_eq_false_2. Qed.

Lemma parse_monthLabel (m y : Z) :
  0 <= m <= 11 -> 0 <= y <= 9999 ->
  exists rest, split_space (monthLabel m y) = monthName m :: pad4 y :: rest
               /\ monthIndex (monthName m) = Some m
               /\ Number_of (pad4 y) = Some y.
Proof.
  intros Hm Hy. exists []. split; [|split; [|now apply Number_of_pad4]].
  - pose proof (split_space_pad4 y) as Hs. unfold monthLabel.
    each_month Hm; cbv [monthName String.append];
      rewrite !split_space_cons by discriminate;
      cbn [split_space]; rewrite bool_decide_eq_true_2 by reflexivity;
      rewrite Hs; reflexivity.
  - each_month Hm; reflexivity.
Qed.

Lemma InLeapYear_isLeapYear (y : Z) : InLeapYear y = if isLeapYear y then 1 else 0.
Proof.
  unfold InLeapYear, DaysInYear, isLeapYear.
  assert (Ha : y mod 100 = 0 -> y mod 4 = 0) by div_lia.
  assert (Hb : y mod 400 = 0 -> y mod 100 = 0) by div_lia.
  destruct (Z.eqb_spec (y mod 4) 0), (Z.eqb_spec (y mod 100) 0), (Z.eqb_spec (y mod 400) 0);
    simpl; first [reflexivity | lia].
Qed.

(** The day-0 arithmetic agrees with the calendar. *)
Lemma DaysInMonth_calendar (y m : Z) : 0 <= m <= 11 -> DaysInMonth y m = calendarDays y m.
Proof.
  intros Hm. unfold DaysInMonth, calendarDays. rewrite InLeapYear_isLeapYear.
  destruct (isLeapYear y); each_month Hm; reflexivity.
Qed.

Lemma DayFromYear_bounds (y : Z) :
  0 <= y <= 9999 -> -719528 <= DayFromYear y /\ DayFromYear (y + 1) <= 2932897.
Proof.
  intros Hy. split.
  - change (-719528) with (DayFromYear 0). apply DayFromYear_mono. lia.
  - change 2932897 with (DayFromYear 10000). apply DayFromYear_mono. lia.
Qed.

(** The ISO key of UTC midnight of a calendar day of the years 0 to 9999 is
    that day. *)
Lemma isoKey_Date_utc (y m d : Z) :
  0 <= y <= 9999 -> 0 <= m <= 11 -> 1 <= d <= DaysInMonth y m ->
  isoKey (Date_utc y m d) = Some (isoDay y (m + 1) d).
Proof.
  intros Hy Hm Hd.
  destruct (civil_of_MakeDay y m d Hm Hd) as (Hyear & Hmonth & Hdate).
  pose proof (YearFromDay_spec (MakeDay y m d)) as Hspec. rewrite Hyear in Hspec.
  pose proof (DayFromYear_bounds y Hy) as Hb.
  unfold Date_utc, TimeClip.
  destruct (Z.leb_spec (Z.abs (MakeDay y m d * msPerDay)) 8640000000000000) as [_|Hbig];
    [|unfold msPerDay in Hbig; lia].
  unfold isoKey, toISOString, Day, TimeWithinDay.
  rewrite Z.div_mul, Z.mod_mul by (unfold msPerDay; lia).
  rewrite Hyear, Hmonth, Hdate.
  destruct (Z.leb_spec 0 y); [|lia]. destruct (Z.leb_spec y 9999); [|lia].
  reflexivity.
Qed.

Lemma isoDay_length (y m d : Z) : String.length (isoDay y m d) = 10%nat.
Proof. reflexivity. Qed.

Lemma mapM_fmap_each {A B C : Type} (f : B -> option C) (g : A -> B) (h : A -> C)
    (l : list A) :
  (forall x, x ∈ l -> f (g x) = Some (h x)) -> mapM f (g <$> l) = Some (h <$> l).
Proof.
  induction l as [|x l IH]; intros Hl; [reflexivity|].
  cbn. rewrite (Hl x) by left. cbn. rewrite IH; [reflexivity|].
  intros x' Hx'. apply Hl. now right.
Qed.

(** The full month of a label "<Mon> <YYYY>", by its ISO keys. *)
Lemma full_month_days (m y : Z) :
  0 <= m <= 11 -> 0 <= y <= 9999 ->
  mapM isoKey (getDaysInMonth (monthLabel m y))
  = Some ((fun d => isoDay y (m + 1) d) <$> seqZ 1 (calendarDays y m))
  /\ length (getDaysInMonth (monthLabel m y)) = Z.to_nat (calendarDays y m).
Proof.
  intros Hm Hy.
  destruct (parse_monthLabel m y Hm Hy) as (rest & Hsplit & Hindex & Hyear).
  unfold getDaysInMonth. rewrite Hsplit, Hyear, Hindex.
  rewrite last_day_of_month, DaysInMonth_calendar by exact Hm. split.
  - apply mapM_fmap_each. intros d Hd. apply elem_of_seqZ in Hd.
    apply isoKey_Date_utc; [exact Hy | exact Hm |].
    rewrite DaysInMonth_calendar by exact Hm. lia.
  - now rewrite length_fmap, length_seqZ.
Qed.

(** C8: for every label "<Mon> <YYYY>", the full-month fallback yields the
    calendar days of the month from the 1st to the last, in order: as many
    dates as the Gregorian calendar gives the month in that year (29 for the
    February of a leap year), whose ISO keys are the days YYYY-MM-01 onwards;
    it is what the resolver uses when there is neither an override nor a list
    of planned dates. *)
Theorem full_month_is_the_calendar_month (m y : Z) :
  0 <= m <= 11 -> 0 <= y <= 9999 ->
  mapM isoKey (getDaysInMonth (monthLabel m y))
  = Some ((fun d => isoDay y (m + 1) d) <$> seqZ 1 (calendarDays y m))
  /\ length (getDaysInMonth (monthLabel m y)) = Z.to_nat (calendarDays y m)
  /\ forall (p : Props) (st : GridState),
       selectedMonth p = monthLabel m y ->
       nonEmpty (customLessonDates p) = false -> nonEmpty (dbDatesIso st) = false ->
       days p st = getDaysInMonth (monthLabel m y).
Proof.
  intros Hm Hy. destruct (full_month_days m y Hm Hy) as [Hkeys Hlen].
  split; [exact Hkeys|]. split; [exact Hlen|].
  intros p st Hlabel Hcustom Hdb. unfold days. now rewrite Hcustom, Hdb, Hlabel.
Qed.

Lemma full_month_is_the_calendar_month_witness :
  mapM isoKey (getDaysInMonth "Feb 2024")
  = Some ["2024-02-01"; "2024-02-02"; "2024-02-03"; "2024-02-04"; "2024-02-05";
          "2024-02-06"; "2024-02-07"; "2024-02-08"; "2024-02-09"; "2024-02-10";
          "2024-02-11"; "2024-02-12"; "2024-02-13"; "2024-02-14"; "2024-02-15";
          "2024-02-16"; "2024-02-17"; "2024-02-18"; "2024-02-19"; "2024-02-20";
          "2024-02-21"; "2024-02-22"; "2024-02-23"; "2024-02-24"; "2024-02-25";
          "2024-02-26"; "2024-02-27"; "2024-02-28"; "2024-02-29"]
  /\ length (getDaysInMonth "Feb 2024") = 29%nat.
Proof.
  destruct (full_month_is_the_calendar_month 1 2024 ltac:(lia) ltac:(lia))
    as (Hkeys & Hlen & _).
  split; [exact Hkeys | exact Hlen].
Defined.

(** Reading an ISO day as a date and taking its ISO key gives the day back. *)
Lemma Date_parse_roundtrip (s : string) :
  Date_parse s <> InvalidDate -> isoKey (Date_parse s) = Some s.
Proof.
  unfold Date_parse, parseIsoDate. intros Hvalid.
  pose proof (string_of_list_ascii_of_string s) as Hs.
  destruct (list_ascii_of_string s)
    as [|y1 [|y2 [|y3 [|y4 [|s1 [|m1 [|m2 [|s2 [|d1 [|d2 [|? ?]]]]]]]]]]]; try done.
  case_bool_decide as Hsep; [|done]. destruct Hsep as [-> ->].
  destruct (digitValue y1) as [a|] eqn:Ha; [|done].
  destruct (digitValue y2) as [b|] eqn:Hb; [|done].
  destruct (digitValue y3) as [c|] eqn:Hc; [|done].
  destruct (digitValue y4) as [e|] eqn:He; [|done].
  destruct (digitValue m1) as [f|] eqn:Hf; [|done].
  destruct (digitValue m2) as [g|] eqn:Hg; [|done].
  destruct (digitValue d1) as [h|] eqn:Hh; [|done].
  destruct (digitValue d2) as [i|] eqn:Hi; [|done].
  cbn in Hvalid |- *.
  set (y := 1000 * a + 100 * b + 10 * c + e) in *.
  set (m := 10 * f + g) in *. set (d := 10 * h + i) in *.
  destruct (Z.leb_spec 1 m); [|done]. destruct (Z.leb_spec m 12); [|done].
  destruct (Z.leb_spec 1 d); [|done].
  destruct (Z.leb_spec d (DaysInMonth y (m - 1))); [|done].
  cbn [andb].
  pose proof (digitValue_range _ _ Ha). pose proof (digitValue_range _ _ Hb).
  pose proof (digitValue_range _ _ Hc). pose proof (digitValue_range _ _ He).
  pose proof (digitValue_range _ _ Hf). pose proof (digitValue_range _ _ Hg).
  pose proof (digitValue_range _ _ Hh). pose proof (digitValue_range _ _ Hi).
  rewrite isoKey_Date_utc by (subst y m d; lia).
  f_equal. rewrite <- Hs. replace (m - 1 + 1) with m by lia.
  unfold isoDay, pad4, pad3, pad2. cbn [string_of_list_ascii].
  rewrite (proj2 (digit_of_digitValue y1 a (y / 1000) Ha ltac:(subst y; div_lia))).
  rewrite (proj2 (digit_of_digitValue y2 b (y / 100) Hb ltac:(subst y; div_lia))).
  rewrite (proj2 (digit_of_digitValue y3 c (y / 10) Hc ltac:(subst y; div_lia))).
  rewrite (proj2 (digit_of_digitValue y4 e y He ltac:(subst y; div_lia))).
  rewrite (proj2 (digit_of_digitValue m1 f (m / 10) Hf ltac:(subst m; div_lia))).
  rewrite (proj2 (digit_of_digitValue m2 g m Hg ltac:(subst m; div_lia))).
  rewrite (proj2 (digit_of_digitValue d1 h (d / 10) Hh ltac:(subst d; div_lia))).
  rewrite (proj2 (digit_of_digitValue d2 i d Hi ltac:(subst d; div_lia))).
  reflexivity.
Qed.

(** ** Distinct values and sorting *)

Lemma Set_values_elem (xs : list string) (x : string) : x ∈ Set_values xs <-> x ∈ xs.
Proof.
  induction xs as [|y xs IH]; [reflexivity|].
  cbn [Set_values]. rewrite !elem_of_cons, list_elem_of_filter, IH.
  destruct (decide (x = y)); tauto.
Qed.

Lemma Set_values_NoDup (xs : list string) : NoDup (Set_values xs).
Proof.
  induction xs as [|y xs IH]; [constructor|].
  cbn [Set_values]. constructor.
  - rewrite list_elem_of_filter. tauto.
  - now apply NoDup_filter.
Qed.

Lemma Set_values_nil (xs : list string) : Set_values xs = [] <-> xs = [].
Proof. destruct xs; [tauto | split; discriminate]. Qed.

Lemma sort_insert_Permutation (x : string) (l : list string) : sort_insert x l ≡ₚ x :: l.
Proof.
  induction l as [|y l IH]; [reflexivity|].
  cbn [sort_insert]. destruct (String.leb x y); [reflexivity|].
  rewrite IH. apply perm_swap.
Qed.

Lemma Array_sort_Permutation (xs : list string) : Array_sort xs ≡ₚ xs.
Proof.
  induction xs as [|x xs IH]; [reflexivity|].
  unfold Array_sort in *. cbn [foldr]. now rewrite sort_insert_Permutation, IH.
Qed.

Lemma sort_insert_sorted (x : string) (l : list string) :
  StronglySorted String.le l -> StronglySorted String.le (sort_insert x l).
Proof.
  induction 1 as [|y l Hl IH Hy]; [repeat constructor|].
  cbn [sort_insert]. destruct (String.leb x y) eqn:Hxy.
  - constructor; [now constructor|].
    assert (Hle : String.le x y) by (unfold String.le; now rewrite Hxy).
    constructor; [exact Hle|].
    eapply Forall_impl; [exact Hy|]. intros z Hz. now transitivity y.
  - constructor; [exact IH|].
    rewrite sort_insert_Permutation. constructor; [|exact Hy].
    destruct (total String.le x y) as [Hle|Hle]; [|exact Hle].
    unfold String.le in Hle. now rewrite Hxy in Hle.
Qed.

Lemma Array_sort_sorted (xs : list string) : StronglySorted String.le (Array_sort xs).
Proof.
  induction xs as [|x xs IH]; [constructor|].
  unfold Array_sort in *. cbn [foldr]. now apply sort_insert_sorted.
Qed.

Lemma StronglySorted_strict (l : list string) :
  StronglySorted String.le l -> NoDup l -> StronglySorted (strict String.le) l.
Proof.
  induction 1 as [|x l Hl IH Hx]; intros Hnd; [constructor|].
  apply NoDup_cons in Hnd as [Hnotin Hnd]. constructor; [now apply IH|].
  rewrite Forall_forall in Hx |- *. intros y Hy. split; [now apply Hx|].
  intros Hyx. assert (x = y) by (apply (anti_symm String.le); auto). now subst.
Qed.

(** The dates kept from the rows of the lesson-schedule query: strictly
    increasing, hence without duplicates, and with the elements of the rows. *)
Lemma sorted_distinct_rows (rows : list string) :
  strictlyIncreasing (Array_sort (Set_values rows))
  /\ forall x, x ∈ Array_sort (Set_values rows) <-> x ∈ rows.
Proof.
  split.
  - apply StronglySorted_strict; [apply Array_sort_sorted|].
    rewrite Array_sort_Permutation. apply Set_values_NoDup.
  - intros x. now rewrite Array_sort_Permutation, Set_values_elem.
Qed.

Lemma Array_sort_nil (xs : list string) : Array_sort xs = [] <-> xs = [].
Proof.
  split; [|now intros ->]. intros H.
  apply Permutation_nil_r. rewrite <- H. symmetry. apply Array_sort_Permutation.
Qed.

Lemma strictlyIncreasing_NoDup (l : list string) : strictlyIncreasing l -> NoDup l.
Proof.
  induction 1 as [|x l Hl IH Hx]; constructor; [|exact IH].
  intros Hin. rewrite Forall_forall in Hx. destruct (Hx x Hin) as [Hle Hnle]. auto.
Qed.

(** ** The date resolver *)

Lemma days_tier (p : Props) (st : GridState) :
  days p st
  = if nonEmpty (customLessonDates p) then default [] (customLessonDates p)
    else if nonEmpty (dbDatesIso st) then Date_parse <$> default [] (dbDatesIso st)
    else getDaysInMonth (selectedMonth p).
Proof. reflexivity. Qed.

(** What the planned-dates effect leaves in the state when there is no
    override and the label parses. *)
Lemma loadPlannedDates_dbDatesIso (env : Env) (p : Props) (st : GridState)
    (range : MonthRange) :
  nonEmpty (customLessonDates p) = false ->
  parseMonthLabel (LocalTZA env) (selectedMonth p) = Some range ->
  let res := lesson_dates_query env (class_id (selectedClass p))
               (startISO range) (endISO range) in
  let rows := default [] (Supabase.data res) in
  dbDatesIso (loadPlannedDates env p st)
  = if bool_decide (Supabase.error res = None /\ rows <> [])
    then Some (Array_sort (Set_values rows))
    else localDates p st.
Proof.
  intros Hcustom Hrange res rows. unfold loadPlannedDates.
  rewrite Hcustom, Hrange. fold res.
  destruct (Supabase.error res) as [e|] eqn:Herr.
  - rewrite bool_decide_eq_false_2 by (intros [? _]; discriminate). reflexivity.
  - fold rows. destruct (decide (rows = [])) as [Hrows|Hrows].
    + rewrite (bool_decide_eq_false_2 (None = None /\ rows <> [])) by tauto.
      rewrite Hrows. reflexivity.
    + rewrite (bool_decide_eq_true_2 (None = None /\ rows <> [])) by tauto.
      rewrite bool_decide_eq_true_2; [reflexivity|].
      rewrite Array_sort_nil, Set_values_nil. exact Hrows.
Qed.

(** The tiers of the resolver, after the planned-dates effect. *)
Lemma resolver_tiers (env : Env) (p : Props) (st : GridState) (range : MonthRange) :
  parseMonthLabel (LocalTZA env) (selectedMonth p) = Some range ->
  nonEmpty (customLessonDates p) = false ->
  let res := lesson_dates_query env (class_id (selectedClass p))
               (startISO range) (endISO range) in
  let rows := default [] (Supabase.data res) in
  let resolved := days p (loadPlannedDates env p st) in
  (Supabase.error res = None -> rows <> [] ->
     resolved = Date_parse <$> Array_sort (Set_values rows))
  /\ (is_Some (Supabase.error res) \/ rows = [] ->
      resolved = if nonEmpty (localDates p st)
                 then Date_parse <$> default [] (localDates p st)
                 else getDaysInMonth (selectedMonth p)).
Proof.
  intros Hrange Hcustom res rows resolved. subst resolved.
  rewrite days_tier, Hcustom.
  rewrite (loadPlannedDates_dbDatesIso env p st range Hcustom Hrange).
  fold res. fold rows. split.
  - intros Herr Hrows. rewrite bool_decide_eq_true_2 by tauto.
    destruct (Array_sort (Set_values rows)) as [|x l] eqn:Hsort; [|reflexivity].
    exfalso. apply Hrows. now apply Set_values_nil, Array_sort_nil.
  - intros Hfail. rewrite bool_decide_eq_false_2; [reflexivity|].
    intros [Herr Hrows]. destruct Hfail as [[e He]|Hempty]; congruence.
Qed.

(** C1, as the code has it: the resolver selects one tier in strict priority
    order. A supplied, non-empty override list is used verbatim. Otherwise, if
    the lesson-schedule query succeeds with rows, their sorted,
    duplicate-removed set is used. Otherwise, if the local cache of the class
    and month holds a non-empty list, that list is used as stored. Otherwise
    every calendar day of the month is used. *)
Theorem resolver_priority_tiers (env : Env) (p : Props) (st : GridState)
    (range : MonthRange) :
  parseMonthLabel (LocalTZA env) (selectedMonth p) = Some range ->
  let res := lesson_dates_query env (class_id (selectedClass p))
               (startISO range) (endISO range) in
  let rows := default [] (Supabase.data res) in
  let resolved := days p (loadPlannedDates env p st) in
  (nonEmpty (customLessonDates p) = true -> resolved = default [] (customLessonDates p))
  /\ (nonEmpty (customLessonDates p) = false ->
      (Supabase.error res = None -> rows <> [] ->
         exists iso, resolved = Date_parse <$> iso
                     /\ strictlyIncreasing iso
                     /\ forall x, x ∈ iso <-> x ∈ rows)
      /\ (is_Some (Supabase.error res) \/ rows = [] ->
          nonEmpty (localDates p st) = true ->
          resolved = Date_parse <$> default [] (localDates p st))
      /\ (is_Some (Supabase.error res) \/ rows = [] ->
          nonEmpty (localDates p st) = false ->
          resolved = getDaysInMonth (selectedMonth p))).
Proof.
  intros Hrange res rows resolved. subst resolved. split.
  - intros Hcustom. rewrite days_tier. now rewrite Hcustom.
  - intros Hcustom.
    destruct (resolver_tiers env p st range Hrange Hcustom) as [Hdb Hother].
    fold res in Hdb, Hother. fold rows in Hdb, Hother. split; [|split].
    + intros Herr Hrows. exists (Array_sort (Set_values rows)).
      destruct (sorted_distinct_rows rows) as [Hsorted Helem]. auto.
    + intros Hfail Hlocal. rewrite (Hother Hfail). now rewrite Hlocal.
    + intros Hfail Hlocal. rewrite (Hother Hfail). now rewrite Hlocal.
Qed.

Lemma resolver_priority_tiers_witness :
  let env := mkEnv (fun _ => 0)
               (fun _ _ _ => Supabase.mk (Some ["2025-08-05"; "2025-08-12"; "2025-08-05"]) None)
               (fun _ => Supabase.mk (Some []) None) (fun _ => SaveThrew None) in
  let p := mkProps (mkClass "c-1" "Maths") "Aug 2025" None [] in
  exists iso,
    days p (loadPlannedDates env p (initialState ∅)) = Date_parse <$> iso
    /\ strictlyIncreasing iso
    /\ forall x, x ∈ iso <-> x ∈ ["2025-08-05"; "2025-08-12"; "2025-08-05"].
Proof.
  intros env p.
  destruct (resolver_priority_tiers env p (initialState ∅)
              (mkMonthRange (TimeValue 1754006400000) (TimeValue 1756598400000)
                 "2025-08-01" "2025-08-31") eq_refl) as [_ Htiers].
  destruct (Htiers eq_refl) as (Hdb & _ & _).
  apply Hdb; [reflexivity | discriminate].
Defined.

(** C1 as stated fails: with no override and no lesson-schedule row, a list
    left in the local cache is used, not the full month. *)
Lemma resolver_local_cache_counterexample :
  let env := mkEnv (fun _ => 0) (fun _ _ _ => Supabase.mk (Some []) None)
               (fun _ => Supabase.mk (Some []) None) (fun _ => SaveThrew None) in
  let p := mkProps (mkClass "c-1" "Maths") "Aug 2025" None [] in
  let st := initialState {[ "lesson_dates:c-1:Aug 2025" := ["2025-08-12"; "2025-08-05"] ]} in
  customLessonDates p = None
  /\ lesson_dates_query env "c-1" "2025-08-01" "2025-08-31" = Supabase.mk (Some []) None
  /\ days p (loadPlannedDates env p st) = [Date_parse "2025-08-12"; Date_parse "2025-08-05"]
  /\ plannedIsoDates p (loadPlannedDates env p st) = Some ["2025-08-12"; "2025-08-05"]
  /\ days p (loadPlannedDates env p st) <> getDaysInMonth "Aug 2025".
Proof.
  intros env p st. repeat split. intros Heq.
  apply (f_equal length) in Heq. vm_compute in Heq. discriminate.
Defined.

(** ** The order of the resolved dates *)

Lemma compare_Lt_strict (a b : string) : String.compare a b = Lt -> strict String.le a b.
Proof.
  intros Hlt. unfold strict, String.le, String.leb.
  rewrite (String.compare_antisym b a), Hlt. simpl. tauto.
Qed.

Lemma compare_same_head (c : ascii) (s s' : string) :
  String.compare (String c s) (String c s') = String.compare s s'.
Proof.
  cbn [String.compare].
  assert (Ascii.compare c c = Eq) as -> by (unfold Ascii.compare; apply N.compare_refl).
  reflexivity.
Qed.

Lemma compare_digit (a b : Z) : Ascii.compare (digit a) (digit b) = (a mod 10 ?= b mod 10).
Proof.
  unfold Ascii.compare. rewrite N2Nat.inj_compare.
  change (N.to_nat (N_of_ascii ?c)) with (nat_of_ascii c). rewrite !nat_of_digit.
  pose proof (Z.mod_pos_bound a 10 ltac:(lia)). pose proof (Z.mod_pos_bound b 10 ltac:(lia)).
  destruct (Z.compare_spec (a mod 10) (b mod 10)).
  - apply Nat.compare_eq_iff. lia.
  - apply Nat.compare_lt_iff. lia.
  - apply Nat.compare_gt_iff. lia.
Qed.

Lemma pad2_lt (d d' : Z) : 0 <= d < d' -> d' <= 99 -> String.compare (pad2 d) (pad2 d') = Lt.
Proof.
  intros Hd Hd'. unfold pad2. cbn [String.compare]. rewrite !compare_digit.
  destruct (Z.compare_spec ((d / 10) mod 10) ((d' / 10) mod 10)) as [Heq|Hlt|Hgt].
  - destruct (Z.compare_spec (d mod 10) (d' mod 10)); [div_lia | reflexivity | div_lia].
  - reflexivity.
  - div_lia.
Qed.

Lemma isoDay_lt (y m d d' : Z) :
  0 <= d < d' -> d' <= 99 -> strict String.le (isoDay y m d) (isoDay y m d').
Proof.
  intros Hd Hd'. apply compare_Lt_strict.
  cbv [isoDay pad4 pad3 pad2 String.append].
  rewrite !compare_same_head. exact (pad2_lt d d' Hd Hd').
Qed.

Lemma StronglySorted_fmap_seqZ {A : Type} (R : relation A) (f : Z -> A) (len start : Z) :
  (forall d d', start <= d < d' -> d' < start + len -> R (f d) (f d')) ->
  StronglySorted R (f <$> seqZ start len).
Proof.
  remember (Z.to_nat len) as n eqn:Hn. revert len start Hn.
  induction n as [|n IH]; intros len start Hn Hmono.
  - rewrite seqZ_nil by lia. constructor.
  - rewrite seqZ_cons by lia. cbn [fmap list_fmap]. constructor.
    + apply IH; [lia|]. intros d d' Hd Hd'. apply Hmono; lia.
    + apply Forall_forall. intros x Hx. apply list_elem_of_fmap in Hx as (d & -> & Hd).
      apply elem_of_seqZ in Hd. apply Hmono; lia.
Qed.

Lemma calendarDays_range (y m : Z) : 28 <= calendarDays y m <= 31.
Proof. unfold calendarDays. repeat case_match; lia. Qed.

(** C2, as the code has it: with no override, the ISO days the grid shows and
    saves are strictly increasing and duplicate-free when they are the ISO
    days answered by the lesson-schedule query, and when they are the full
    month of a label "<Mon> <YYYY>". An override list and a local-cache list
    are used in the order given and are not covered. *)
Theorem resolved_dates_strictly_increasing (env : Env) (p : Props) (st : GridState)
    (range : MonthRange) :
  parseMonthLabel (LocalTZA env) (selectedMonth p) = Some range ->
  nonEmpty (customLessonDates p) = false ->
  let res := lesson_dates_query env (class_id (selectedClass p))
               (startISO range) (endISO range) in
  let rows := default [] (Supabase.data res) in
  let planned := plannedIsoDates p (loadPlannedDates env p st) in
  (Supabase.error res = None -> rows <> [] ->
     Forall (fun s => Date_parse s <> InvalidDate) rows ->
     exists iso, planned = Some iso /\ strictlyIncreasing iso /\ NoDup iso)
  /\ (is_Some (Supabase.error res) \/ rows = [] ->
      nonEmpty (localDates p st) = false ->
      forall m y, 0 <= m <= 11 -> 0 <= y <= 9999 -> selectedMonth p = monthLabel m y ->
      exists iso, planned = Some iso /\ strictlyIncreasing iso /\ NoDup iso).
Proof.
  intros Hrange Hcustom res rows planned. subst planned. unfold plannedIsoDates.
  destruct (resolver_tiers env p st range Hrange Hcustom) as [Hdb Hother].
  fold res in Hdb, Hother. fold rows in Hdb, Hother. split.
  - intros Herr Hrows Hvalid. rewrite (Hdb Herr Hrows).
    destruct (sorted_distinct_rows rows) as [Hsorted Helem].
    exists (Array_sort (Set_values rows)).
    split; [|split; [exact Hsorted | now apply strictlyIncreasing_NoDup]].
    rewrite <- (list_fmap_id (Array_sort (Set_values rows))) at 2.
    apply mapM_fmap_each.
    intros x Hx. apply Date_parse_roundtrip.
    rewrite Forall_forall in Hvalid. now apply Hvalid, Helem.
  - intros Hfail Hlocal m y Hm Hy Hlabel.
    rewrite (Hother Hfail), Hlocal, Hlabel.
    destruct (full_month_days m y Hm Hy) as [-> _].
    eexists. split; [reflexivity|].
    assert (Hinc : strictlyIncreasing ((fun d => isoDay y (m + 1) d) <$> seqZ 1 (calendarDays y m))).
    { apply StronglySorted_fmap_seqZ. intros d d' Hd Hd'.
      pose proof (calendarDays_range y m). apply isoDay_lt; lia. }
    split; [exact Hinc | now apply strictlyIncreasing_NoDup].
Qed.

Lemma resolved_dates_strictly_increasing_witness :
  let env := mkEnv (fun _ => 0)
               (fun _ _ _ => Supabase.mk (Some ["2025-08-12"; "2025-08-05"; "2025-08-12"]) None)
               (fun _ => Supabase.mk (Some []) None) (fun _ => SaveThrew None) in
  let p := mkProps (mkClass "c-1" "Maths") "Aug 2025" None [] in
  exists iso,
    plannedIsoDates p (loadPlannedDates env p (initialState ∅)) = Some iso
    /\ strictlyIncreasing iso /\ NoDup iso.
Proof.
  intros env p.
  destruct (resolved_dates_strictly_increasing env p (initialState ∅)
              (mkMonthRange (TimeValue 1754006400000) (TimeValue 1756598400000)
                 "2025-08-01" "2025-08-31") eq_refl eq_refl) as [Hdb _].
  apply Hdb; [reflexivity | discriminate |].
  repeat constructor; intros H; vm_compute in H; discriminate H.
Defined.

(** C2 as stated fails: an override list is shown and saved in the order it
    was given, here 12 August before 5 August (UTC midnights). *)
Lemma override_order_counterexample :
  let env := mkEnv (fun _ => 0) (fun _ _ _ => Supabase.mk (Some []) None)
               (fun _ => Supabase.mk (Some []) None) (fun _ => SaveThrew None) in
  let p := mkProps (mkClass "c-1" "Maths") "Aug 2025"
             (Some [TimeValue 1754956800000; TimeValue 1754352000000]) [] in
  let st := loadPlannedDates env p (initialState ∅) in
  days p st = [TimeValue 1754956800000; TimeValue 1754352000000]
  /\ plannedIsoDates p st = Some ["2025-08-12"; "2025-08-05"]
  /\ ~ strictlyIncreasing ["2025-08-12"; "2025-08-05"].
Proof.
  intros env p st. split; [reflexivity|]. split; [reflexivity|].
  intros Hsorted. apply StronglySorted_inv in Hsorted as [_ Hall].
  apply Forall_inv in Hall. destruct Hall as [Hle _]. exact Hle.
Defined.

(** ** Saving: the payload *)

Lemma fillDays_foldl (st : GridState) (sid : string) (ds : list Date) (isos : list string)
    (rec : gmap string FieldValue) :
  mapM isoKey ds = Some isos ->
  fillDays st sid ds rec = Some (foldl (putDay st sid) rec isos).
Proof.
  revert isos rec. induction ds as [|d ds IH]; intros isos rec Hkeys.
  - cbn in Hkeys. injection Hkeys as <-. reflexivity.
  - cbn in Hkeys. cbn [fillDays].
    destruct (isoKey d) as [iso|]; [|discriminate]. cbn in Hkeys |- *.
    destruct (mapM isoKey ds) as [isos'|]; [|discriminate]. cbn in Hkeys.
    injection Hkeys as <-. exact (IH isos' (putDay st sid rec iso) eq_refl).
Qed.

Lemma foldl_putDay_lookup (st : GridState) (sid : string) (isos : list string)
    (rec : gmap string FieldValue) (k : string) :
  foldl (putDay st sid) rec isos !! k
  = if decide (k ∈ isos) then Some (FBool (getAttendanceStatus st sid k)) else rec !! k.
Proof.
  revert rec. induction isos as [|i isos IH]; intros rec.
  - cbn. now rewrite decide_False by apply not_elem_of_nil.
  - cbn [foldl]. rewrite IH. unfold putDay.
    destruct (decide (k ∈ isos)) as [Hin|Hnotin].
    + now rewrite decide_True by now right.
    + destruct (decide (k = i)) as [->|Hne].
      * rewrite lookup_insert_eq. now rewrite decide_True by left.
      * rewrite lookup_insert_ne by done.
        rewrite decide_False; [reflexivity|].
        intros Hin. apply elem_of_cons in Hin as [?|?]; done.
Qed.

(** The boolean fields of a filled record are its day keys. *)
Lemma foldl_putDay_booleans (st : GridState) (sid : string) (isos : list string)
    (rec : gmap string FieldValue) :
  (forall k v, rec !! k = Some v -> isBoolField v = false) ->
  dom (booleanFields (foldl (putDay st sid) rec isos)) = list_to_set isos.
Proof.
  intros Hrec. apply set_eq. intros k.
  rewrite elem_of_dom, elem_of_list_to_set. unfold booleanFields. split.
  - intros [v Hv]. apply map_lookup_filter_Some in Hv as [Hv Hb].
    rewrite foldl_putDay_lookup in Hv. destruct (decide (k ∈ isos)); [done|].
    simpl in Hb. apply Hrec in Hv. congruence.
  - intros Hin. exists (FBool (getAttendanceStatus st sid k)).
    apply map_lookup_filter_Some. split; [|reflexivity].
    rewrite foldl_putDay_lookup. now rewrite decide_True.
Qed.

(** An ISO key starts with a digit or a sign. *)
Lemma isoKey_head (d : Date) (s : string) :
  isoKey d = Some s ->
  exists c rest, s = String c rest
    /\ ((48 <= nat_of_ascii c <= 57)%nat \/ c = "+"%char \/ c = "-"%char).
Proof.
  destruct d as [|t]; [discriminate|]. unfold isoKey, toISOString. cbn [fmap option_fmap option_map].
  intros Hs. injection Hs as <-.
  destruct ((0 <=? YearFromDay (Day t)) && (YearFromDay (Day t) <=? 9999)).
  - eexists _, _. split; [reflexivity|]. left. rewrite nat_of_digit.
    pose proof (Z.mod_pos_bound (YearFromDay (Day t) / 1000) 10 ltac:(lia)). lia.
  - destruct (0 <=? YearFromDay (Day t)); eexists _, _; (split; [reflexivity|]); auto.
Qed.

Lemma isoKey_length (d : Date) (s : string) : isoKey d = Some s -> String.length s = 10%nat.
Proof.
  destruct d as [|t]; [discriminate|]. unfold isoKey, toISOString. cbn [fmap option_fmap option_map].
  intros Hs. injection Hs as <-.
  destruct ((0 <=? YearFromDay (Day t)) && (YearFromDay (Day t) <=? 9999)); reflexivity.
Qed.

Lemma isoKey_not_a_name (d : Date) (s : string) :
  isoKey d = Some s -> s <> "student_id" /\ s <> "student_name".
Proof.
  intros Hs. apply isoKey_head in Hs as (c & rest & -> & Hc).
  split; intros Heq; injection Heq as -> _;
    destruct Hc as [Hc | [Hc | Hc]]; first [discriminate Hc | vm_compute in Hc; lia].
Qed.

Lemma recordBase_no_boolean (student : Student) (k : string) (v : FieldValue) :
  recordBase student !! k = Some v -> isBoolField v = false.
Proof.
  unfold recordBase. intros Hk.
  apply lookup_insert_Some in Hk as [[_ <-] | [_ Hk]]; [reflexivity|].
  apply lookup_insert_Some in Hk as [[_ <-] | [_ Hk]]; [reflexivity|].
  now rewrite lookup_empty in Hk.
Qed.

Lemma mapM_isoKey_elem (ds : list Date) (isos : list string) (iso : string) :
  mapM isoKey ds = Some isos -> iso ∈ isos -> exists d, isoKey d = Some iso.
Proof.
  intros Hkeys. apply mapM_Some_1 in Hkeys.
  induction Hkeys as [|d i ds isos Hd _ IH]; intros Hin.
  - now apply elem_of_nil in Hin.
  - apply elem_of_cons in Hin as [->|Hin]; eauto.
Qed.

Lemma buildRecord_filled (p : Props) (st : GridState) (isoDates : list string)
    (student : Student) :
  plannedIsoDates p st = Some isoDates ->
  buildRecord p st student
  = Some (foldl (putDay st (student_id student)) (recordBase student) isoDates).
Proof. intros Hplanned. unfold buildRecord. now apply fillDays_foldl. Qed.

(** What a filled record holds. *)
Lemma filled_record (p : Props) (st : GridState) (isoDates : list string)
    (student : Student) :
  plannedIsoDates p st = Some isoDates ->
  let rec := foldl (putDay st (student_id student)) (recordBase student) isoDates in
  rec !! "student_id" = Some (FString (student_id student))
  /\ rec !! "student_name" = Some (FString (student_name student))
  /\ (forall iso, iso ∈ isoDates ->
        rec !! iso = Some (FBool (getAttendanceStatus st (student_id student) iso)))
  /\ size (booleanFields rec) = size (list_to_set isoDates : gset string).
Proof.
  intros Hplanned rec. subst rec.
  assert (Hnames : ("student_id" ∉ isoDates) /\ ("student_name" ∉ isoDates)).
  { split; intros Hin;
      destruct (mapM_isoKey_elem _ _ _ Hplanned Hin) as [d Hd];
      apply isoKey_not_a_name in Hd; tauto. }
  destruct Hnames as [Hid Hname]. repeat split.
  - rewrite foldl_putDay_lookup, decide_False by exact Hid. reflexivity.
  - rewrite foldl_putDay_lookup, decide_False by exact Hname. reflexivity.
  - intros iso Hin. now rewrite foldl_putDay_lookup, decide_True.
  - rewrite <- size_dom, foldl_putDay_booleans; [reflexivity|].
    apply recordBase_no_boolean.
Qed.

(** C3, as the code has it: a save with a selected class and a student in
    view sends one record per such student, in order; each record keeps the
    student's id and name and holds a boolean under the ISO key of every
    resolved date, none omitted; the boolean fields of a record are as many as
    the distinct ISO keys of the resolved dates, so the records carry
    |students| x |resolved dates| boolean fields when those keys are pairwise
    distinct. *)
Theorem save_populates_every_date (env : Env) (p : Props) (st : GridState)
    (isoDates : list string) :
  class_id (selectedClass p) <> "" ->
  studentsForThisClass p st <> [] ->
  plannedIsoDates p st = Some isoDates ->
  exists payload,
    networkCalls (saveAttendance env p st).2 = [payload]
    /\ AttendanceData.lesson_dates payload = isoDates
    /\ Forall2 (fun student rec =>
                  rec !! "student_id" = Some (FString (student_id student))
                  /\ rec !! "student_name" = Some (FString (student_name student))
                  /\ (forall iso, iso ∈ isoDates ->
                        rec !! iso
                        = Some (FBool (getAttendanceStatus st (student_id student) iso)))
                  /\ size (booleanFields rec) = size (list_to_set isoDates : gset string))
               (studentsForThisClass p st) (AttendanceData.data payload)
    /\ countBooleanFields (AttendanceData.data payload)
       = (length (studentsForThisClass p st) * size (list_to_set isoDates : gset string))%nat
    /\ (NoDup isoDates ->
        countBooleanFields (AttendanceData.data payload)
        = (length (studentsForThisClass p st) * length (days p st))%nat).
Proof.
  intros Hclass Hstudents Hplanned.
  set (recordOf := fun student : Student =>
         foldl (putDay st (student_id student)) (recordBase student) isoDates).
  assert (Hrecords : mapM (buildRecord p st) (studentsForThisClass p st)
                     = Some (recordOf <$> studentsForThisClass p st)).
  { rewrite <- (list_fmap_id (studentsForThisClass p st)) at 1.
    apply mapM_fmap_each. intros s _. now apply buildRecord_filled. }
  assert (Hcount : countBooleanFields (recordOf <$> studentsForThisClass p st)
                   = (length (studentsForThisClass p st)
                      * size (list_to_set isoDates : gset string))%nat).
  { unfold countBooleanFields. rewrite <- list_fmap_compose.
    apply sum_list_fmap_same, Forall_forall. intros s _.
    apply (filled_record p st isoDates s Hplanned). }
  set (payload := AttendanceData.mk (class_id (selectedClass p)) (class_name (selectedClass p))
                    (selectedMonth p) isoDates (recordOf <$> studentsForThisClass p st)).
  exists payload. split; [|split; [reflexivity | split; [|split]]].
  - unfold saveAttendance.
    rewrite bool_decide_eq_false_2 by exact Hclass.
    rewrite bool_decide_eq_false_2
      by (destruct (studentsForThisClass p st); [done | discriminate]).
    rewrite Hrecords, Hplanned. fold payload.
    now destruct (attendance_save env payload).
  - apply Forall2_fmap_r, Forall_Forall2_diag, Forall_forall. intros s _.
    apply (filled_record p st isoDates s Hplanned).
  - exact Hcount.
  - intros Hnodup. cbn [AttendanceData.data payload]. rewrite Hcount.
    rewrite size_list_to_set by exact Hnodup.
    now rewrite (length_mapM _ _ _ Hplanned).
Qed.

Lemma save_populates_every_date_witness :
  let alice := mkStudent "s-01" "Alice" None None None None in
  let bob := mkStudent "s-02" "Bob" None None None None in
  let env := mkEnv (fun _ => 0) (fun _ _ _ => Supabase.mk (Some []) None)
               (fun _ => Supabase.mk (Some ["s-01"; "s-02"]) None)
               (fun _ => Saved (AttendanceResponse.mk true 4 "Aug 2025")) in
  let p := mkProps (mkClass "c-1" "Maths") "Aug 2025"
             (Some [TimeValue 1754352000000; TimeValue 1754956800000]) [alice; bob] in
  let st := toggleAttendance "s-01" "2025-08-05" (loadEnrolledIds env p (initialState ∅)) in
  exists payload,
    networkCalls (saveAttendance env p st).2 = [payload]
    /\ countBooleanFields (AttendanceData.data payload) = 4%nat.
Proof.
  intros alice bob env p st.
  destruct (save_populates_every_date env p st ["2025-08-05"; "2025-08-12"])
    as (payload & Hcall & _ & _ & _ & Hcount).
  - discriminate.
  - vm_compute. discriminate.
  - reflexivity.
  - exists payload. split; [exact Hcall|].
    apply Hcount. repeat constructor; intros Hin;
      repeat (apply elem_of_cons in Hin as [Hin|Hin]; [discriminate|]);
      now apply elem_of_nil in Hin.
Defined.

(** C3 as stated fails: an override list with the same day twice resolves to
    two dates, and the record of the one student holds one boolean field. *)
Lemma save_duplicate_day_counterexample :
  let alice := mkStudent "s-01" "Alice" None None None None in
  let env := mkEnv (fun _ => 0) (fun _ _ _ => Supabase.mk (Some []) None)
               (fun _ => Supabase.mk (Some ["s-01"]) None)
               (fun _ => Saved (AttendanceResponse.mk true 1 "Aug 2025")) in
  let p := mkProps (mkClass "c-1" "Maths") "Aug 2025"
             (Some [TimeValue 1754352000000; TimeValue 1754352000000]) [alice] in
  let st := loadEnrolledIds env p (loadPlannedDates env p (initialState ∅)) in
  studentsForThisClass p st = [alice]
  /\ days p st = [TimeValue 1754352000000; TimeValue 1754352000000]
  /\ (countBooleanFields <$> (AttendanceData.data <$> networkCalls (saveAttendance env p st).2))
     = [1%nat]
  /\ (length (studentsForThisClass p st) * length (days p st))%nat = 2%nat.
Proof.
  intros alice env p st. repeat split; vm_compute; reflexivity.
Defined.

(** * Further properties *)

(** ** The presence grid: clicks *)

(** X1: a click on one (student, day) pair leaves the value read for every
    other pair unchanged, days being of one length as ISO days are. *)
Theorem toggle_leaves_other_pairs (st : GridState) (s d s' d' : string) :
  String.length d = String.length d' ->
  (s, d) <> (s', d') ->
  getAttendanceStatus (toggleAttendance s d st) s' d' = getAttendanceStatus st s' d'.
Proof.
  intros Hlen Hne. rewrite !getAttendanceStatus_lookup.
  rewrite toggleAttendance_lookup_other; [reflexivity|].
  intros Hk. apply keyFor_inj in Hk as [-> ->]; [|now symmetry]. now apply Hne.
Qed.

Lemma toggle_leaves_other_pairs_witness :
  getAttendanceStatus (toggleAttendance "s-01" "2025-08-05" (initialState ∅))
    "s-01" "2025-08-12"
  = getAttendanceStatus (initialState ∅) "s-01" "2025-08-12".
Proof.
  apply (toggle_leaves_other_pairs (initialState ∅) "s-01" "2025-08-05" "s-01" "2025-08-12").
  - reflexivity.
  - discriminate.
Defined.

Lemma toggles_parity_from (clicks : list (string * string)) (st : GridState)
    (s d : string) :
  Forall (fun click => String.length click.2 = String.length d) clicks ->
  getAttendanceStatus (toggles clicks st) s d
  = xorb (getAttendanceStatus st s d)
         (Nat.odd (length (filter (fun click => click = (s, d)) clicks))).
Proof.
  revert st. induction clicks as [|c clicks IH]; intros st Hlen.
  - cbn. now rewrite xorb_false_r.
  - apply Forall_cons in Hlen as [Hc Hlen].
    change (toggles (c :: clicks) st) with (toggles clicks (toggleAttendance c.1 c.2 st)).
    rewrite IH by exact Hlen. rewrite filter_cons.
    destruct (decide (c = (s, d))) as [->|Hne].
    + cbn [fst snd length]. rewrite toggleAttendance_get_same, Nat.odd_succ.
      rewrite <- Nat.negb_odd.
      now destruct (getAttendanceStatus st s d), (Nat.odd _).
    + f_equal. rewrite !getAttendanceStatus_lookup.
      rewrite toggleAttendance_lookup_other; [reflexivity|].
      intros Hk. apply keyFor_inj in Hk as [Hs Hd]; [|symmetry; exact Hc].
      apply Hne. destruct c as [cs cd]. cbn in Hs, Hd. congruence.
Qed.

(** X2: in the grid reached from the empty one by clicks on ISO days, a pair
    reads present exactly when it was clicked an odd number of times, in
    whatever order the clicks came. *)
Theorem clicks_parity (storage : gmap string (list string))
    (clicks : list (string * string)) (s d : string) :
  Forall (fun click => String.length click.2 = 10%nat) clicks ->
  String.length d = 10%nat ->
  getAttendanceStatus (toggles clicks (initialState storage)) s d
  = Nat.odd (length (filter (fun click => click = (s, d)) clicks)).
Proof.
  intros Hclicks Hd. rewrite toggles_parity_from.
  - rewrite getAttendanceStatus_lookup. cbn. now rewrite lookup_empty.
  - eapply Forall_impl; [exact Hclicks|]. intros c Hc. cbn in Hc |- *. congruence.
Qed.

Lemma clicks_parity_witness :
  getAttendanceStatus
    (toggles [("s-01", "2025-08-05"); ("s-02", "2025-08-05"); ("s-01", "2025-08-05");
              ("s-01", "2025-08-05")] (initialState ∅)) "s-01" "2025-08-05"
  = true.
Proof.
  rewrite (clicks_parity ∅ [("s-01", "2025-08-05"); ("s-02", "2025-08-05");
                            ("s-01", "2025-08-05"); ("s-01", "2025-08-05")]
             "s-01" "2025-08-05").
  - reflexivity.
  - repeat constructor.
  - reflexivity.
Defined.

(** ** Days and their ISO keys *)

Lemma DayWithinYear_range (d : Z) :
  0 <= DayWithinYear d < 365 + InLeapYear (YearFromDay d).
Proof.
  pose proof (YearFromDay_spec d) as Hy. rewrite DayFromYear_succ in Hy.
  unfold DayWithinYear.
  destruct (DaysInYear_cases (YearFromDay d)) as [[Hdays ->] | [Hdays ->]]; lia.
Qed.

Lemma MonthFromDay_range (d : Z) : 0 <= MonthFromDay d <= 11.
Proof.
  unfold MonthFromDay.
  repeat match goal with
         | |- context [if ?a <? ?b then _ else _] => destruct (a <? b)
         end; lia.
Qed.

Lemma DayWithinYear_month (d : Z) :
  monthStart (InLeapYear (YearFromDay d)) (MonthFromDay d) <= DayWithinYear d
  /\ DayWithinYear d < monthStart (InLeapYear (YearFromDay d)) (MonthFromDay d + 1).
Proof.
  pose proof (DayWithinYear_range d) as Hr. unfold MonthFromDay.
  set (leap := InLeapYear (YearFromDay d)) in *. set (diy := DayWithinYear d) in *.
  repeat match goal with
         | |- context [if ?a <? ?b then _ else _] => destruct (Z.ltb_spec a b)
         end; simpl in *; lia.
Qed.

(** Every day number is a calendar day: its month and date are in range and
    [MakeDay] gives the day number back. *)
Lemma civil_of_day (d : Z) :
  0 <= MonthFromDay d <= 11
  /\ 1 <= DateFromDay d <= DaysInMonth (YearFromDay d) (MonthFromDay d)
  /\ MakeDay (YearFromDay d) (MonthFromDay d) (DateFromDay d) = d.
Proof.
  pose proof (MonthFromDay_range d) as Hm. pose proof (DayWithinYear_month d) as Hd.
  split; [exact Hm|]. unfold DateFromDay, DaysInMonth, MakeDay.
  rewrite (Z.div_small (MonthFromDay d) 12), (Z.mod_small (MonthFromDay d) 12) by lia.
  replace (YearFromDay d + 0) with (YearFromDay d) by lia.
  unfold DayWithinYear in *. lia.
Qed.

Lemma isoKey_TimeValue (t : Z) :
  0 <= YearFromDay (Day t) <= 9999 ->
  isoKey (TimeValue t)
  = Some (isoDay (YearFromDay (Day t)) (MonthFromDay (Day t) + 1) (DateFromDay (Day t))).
Proof.
  intros Hy. unfold isoKey, toISOString.
  destruct (Z.leb_spec 0 (YearFromDay (Day t))); [|lia].
  destruct (Z.leb_spec (YearFromDay (Day t)) 9999); [|lia].
  reflexivity.
Qed.

Lemma parseIsoDate_isoDay (y m d : Z) :
  0 <= y <= 9999 -> 0 <= m <= 99 -> 0 <= d <= 99 ->
  parseIsoDate (isoDay y m d) = Some (y, m, d).
Proof.
  intros Hy Hm Hd. unfold parseIsoDate.
  cbv [isoDay pad4 pad3 pad2 String.append]. cbn [list_ascii_of_string].
  rewrite bool_decide_eq_true_2 by (split; reflexivity).
  rewrite !digitValue_digit. cbn [mbind option_bind].
  do 2 f_equal; [f_equal|]; div_lia.
Qed.

(** An ISO key of a date of the years 0 to 9999 reads back as UTC midnight of
    the same day, whose ISO key it is. *)
Lemma isoKey_parse_back (t : Z) (s : string) :
  0 <= YearFromDay (Day t) <= 9999 ->
  isoKey (TimeValue t) = Some s ->
  Date_parse s = TimeValue (Day t * msPerDay) /\ isoKey (Date_parse s) = Some s.
Proof.
  intros Hy Hs. rewrite isoKey_TimeValue in Hs by exact Hy. injection Hs as <-.
  destruct (civil_of_day (Day t)) as (Hm & Hd & Hback).
  set (y := YearFromDay (Day t)) in *. set (m := MonthFromDay (Day t)) in *.
  set (d := DateFromDay (Day t)) in *.
  pose proof (DaysInMonth_pos y m Hm) as Hdim.
  assert (Hparse : Date_parse (isoDay y (m + 1) d) = Date_utc y m d).
  { unfold Date_parse. rewrite parseIsoDate_isoDay by lia.
    replace (m + 1 - 1) with m by lia.
    destruct (Z.leb_spec 1 (m + 1)); [|lia]. destruct (Z.leb_spec (m + 1) 12); [|lia].
    destruct (Z.leb_spec 1 d); [|lia]. destruct (Z.leb_spec d (DaysInMonth y m)); [|lia].
    reflexivity. }
  rewrite Hparse. split; [|now apply isoKey_Date_utc].
  unfold Date_utc, TimeClip. rewrite Hback.
  pose proof (YearFromDay_spec (Day t)) as Hspec. fold y in Hspec.
  pose proof (DayFromYear_bounds y Hy) as Hb.
  destruct (Z.leb_spec (Z.abs (Day t * msPerDay)) 8640000000000000) as [_|Hbig];
    [reflexivity | unfold msPerDay in Hbig; lia].
Qed.

(** ** Saving: outcomes and the local cache *)


(** The result of a save that passes the validation. *)
Lemma saveAttendance_valid (env : Env) (p : Props) (st : GridState)
    (isoDates : list string) :
  class_id (selectedClass p) <> "" ->
  studentsForThisClass p st <> [] ->
  plannedIsoDates p st = Some isoDates ->
  exists payload,
    AttendanceData.lesson_dates payload = isoDates
    /\ saveAttendance env p st
       = match attendance_save env payload with
         | Saved res =>
             (setIsSaving false
                (localStorage_setItem (cacheKey p) isoDates (setIsSaving true st)),
              [CallAttendanceSave payload;
               ShowToast (mkToast "Attendance saved"
                 ("Updated " +:+ pretty (AttendanceResponse.updated res) +:+ " entries for "
                  +:+ AttendanceResponse.month res +:+ ".") default_variant)])
         | SaveThrew message =>
             (setIsSaving false (setIsSaving true st),
              [CallAttendanceSave payload;
               ShowToast (mkToast "Save failed"
                 (default "Failed to save attendance." message) destructive)])
         end.
Proof.
  intros Hclass Hstudents Hplanned.
  set (recordOf := fun student : Student =>
         foldl (putDay st (student_id student)) (recordBase student) isoDates).
  assert (Hrecords : mapM (buildRecord p st) (studentsForThisClass p st)
                     = Some (recordOf <$> studentsForThisClass p st)).
  { rewrite <- (list_fmap_id (studentsForThisClass p st)) at 1.
    apply mapM_fmap_each. intros s _. now apply buildRecord_filled. }
  eexists (AttendanceData.mk _ _ _ isoDates _). split; [reflexivity|].
  unfold saveAttendance.
  rewrite bool_decide_eq_false_2 by exact Hclass.
  rewrite bool_decide_eq_false_2
    by (destruct (studentsForThisClass p st); [done | discriminate]).
  rewrite Hrecords, Hplanned. reflexivity.
Qed.

(** X3: a save that passes the validation makes exactly one network call and
    never changes the grid; it ends with the busy flag down. When the store
    accepts it, the resolved ISO days are written to the local cache under the
    key of the class and month, and only there; when the call throws, the
    local cache is left as it was and one destructive toast carries the
    message of the error. *)
Theorem save_outcomes (env : Env) (p : Props) (st : GridState) (isoDates : list string) :
  class_id (selectedClass p) <> "" ->
  studentsForThisClass p st <> [] ->
  plannedIsoDates p st = Some isoDates ->
  let after := (saveAttendance env p st).1 in
  let effects := (saveAttendance env p st).2 in
  exists payload,
    networkCalls effects = [payload]
    /\ attendanceData after = attendanceData st
    /\ isSaving after = false
    /\ match attendance_save env payload with
       | Saved res =>
           localStorage after = <[cacheKey p := isoDates]> (localStorage st)
           /\ Forall (fun t => variant t = default_variant) (toastsShown effects)
       | SaveThrew message =>
           localStorage after = localStorage st
           /\ toastsShown effects
              = [mkToast "Save failed" (default "Failed to save attendance." message)
                   destructive]
       end.
Proof.
  intros Hclass Hstudents Hplanned after effects. subst after effects.
  destruct (saveAttendance_valid env p st isoDates Hclass Hstudents Hplanned)
    as (payload & _ & ->).
  exists payload.
  destruct (attendance_save env payload) as [res|message]; cbn;
    repeat split; repeat constructor.
Qed.

Lemma save_outcomes_witness :
  let alice := mkStudent "s-01" "Alice" None None None None in
  let env := mkEnv (fun _ => 0) (fun _ _ _ => Supabase.mk (Some []) None)
               (fun _ => Supabase.mk (Some ["s-01"]) None)
               (fun _ => SaveThrew (Some "offline")) in
  let p := mkProps (mkClass "c-1" "Maths") "Aug 2025"
             (Some [TimeValue 1754352000000]) [alice] in
  let st := initialState ∅ in
  exists payload,
    networkCalls (saveAttendance env p st).2 = [payload]
    /\ toastsShown (saveAttendance env p st).2 = [mkToast "Save failed" "offline" destructive].
Proof.
  intros alice env p st.
  destruct (save_outcomes env p st ["2025-08-05"]) as (payload & Hcall & _ & _ & Hout).
  - discriminate.
  - discriminate.
  - reflexivity.
  - exists payload. split; [exact Hcall|]. cbn in Hout. exact (proj2 Hout).
Defined.

(** X4: the dates of a successful save survive in the local cache. On a later
    visit of the same class and month with no override, when the
    lesson-schedule query fails or answers no row, the grid resolves to the
    very ISO days that were saved, provided they are days of four-digit
    years. *)
Theorem saved_dates_survive_reload (env : Env) (p : Props) (st : GridState)
    (isoDates : list string) (env' : Env) (p' : Props) (st' : GridState)
    (range : MonthRange) :
  class_id (selectedClass p) <> "" ->
  studentsForThisClass p st <> [] ->
  plannedIsoDates p st = Some isoDates ->
  isoDates <> [] ->
  Forall inFourDigitYears (days p st) ->
  (forall payload, exists res, attendance_save env payload = Saved res) ->
  localStorage st' = localStorage (saveAttendance env p st).1 ->
  class_id (selectedClass p') = class_id (selectedClass p) ->
  selectedMonth p' = selectedMonth p ->
  nonEmpty (customLessonDates p') = false ->
  parseMonthLabel (LocalTZA env') (selectedMonth p') = Some range ->
  (let res := lesson_dates_query env' (class_id (selectedClass p'))
                (startISO range) (endISO range) in
   is_Some (Supabase.error res) \/ default [] (Supabase.data res) = []) ->
  plannedIsoDates p' (loadPlannedDates env' p' st') = Some isoDates.
Proof.
  intros Hclass Hstudents Hplanned Hne Hyears Hsaved Hstore Hsame Hmonth Hcustom Hrange Hfail.
  assert (Hcache : localDates p' st' = Some isoDates).
  { unfold localDates. rewrite Hstore.
    assert (cacheKey p' = cacheKey p) as -> by (unfold cacheKey; now rewrite Hsame, Hmonth).
    destruct (saveAttendance_valid env p st isoDates Hclass Hstudents Hplanned)
      as (payload & _ & ->).
    destruct (Hsaved payload) as [res ->]. cbn. apply lookup_insert_eq. }
  unfold plannedIsoDates.
  rewrite (proj2 (resolver_tiers env' p' st' range Hrange Hcustom) Hfail), Hcache.
  destruct isoDates as [|i isoDates]; [done|]. cbn [nonEmpty default].
  rewrite <- (list_fmap_id (i :: isoDates)) at 2. apply mapM_fmap_each.
  intros x Hx. unfold plannedIsoDates in Hplanned. apply mapM_Some_1 in Hplanned.
  assert (Hfrom : exists d, inFourDigitYears d /\ isoKey d = Some x).
  { clear -Hplanned Hyears Hx. induction Hplanned as [|d k ds ks Hd _ IH].
    - now apply elem_of_nil in Hx.
    - apply Forall_cons in Hyears as [Hy Hyears].
      apply elem_of_cons in Hx as [->|Hx]; eauto. }
  destruct Hfrom as ([|t] & Hy & Hd); [done|].
  now apply (isoKey_parse_back t x Hy Hd).
Qed.

Lemma saved_dates_survive_reload_witness :
  let alice := mkStudent "s-01" "Alice" None None None None in
  let env := mkEnv (fun _ => 0) (fun _ _ _ => Supabase.mk (Some []) None)
               (fun _ => Supabase.mk (Some ["s-01"]) None)
               (fun _ => Saved (AttendanceResponse.mk true 2 "Aug 2025")) in
  let p := mkProps (mkClass "c-1" "Maths") "Aug 2025"
             (Some [TimeValue 1754956800000; TimeValue 1754352000000]) [alice] in
  let offline := mkEnv (fun _ => 0) (fun _ _ _ => Supabase.mk None (Some "offline"))
                   (fun _ => Supabase.mk None (Some "offline")) (fun _ => SaveThrew None) in
  let p' := mkProps (mkClass "c-1" "Maths") "Aug 2025" None [alice] in
  let st' := initialState (localStorage (saveAttendance env p (initialState ∅)).1) in
  plannedIsoDates p' (loadPlannedDates offline p' st') = Some ["2025-08-12"; "2025-08-05"].
Proof.
  intros alice env p offline p' st'.
  apply (saved_dates_survive_reload env p (initialState ∅) ["2025-08-12"; "2025-08-05"]
           offline p' st'
           (mkMonthRange (TimeValue 1754006400000) (TimeValue 1756598400000)
              "2025-08-01" "2025-08-31")).
  - discriminate.
  - discriminate.
  - reflexivity.
  - discriminate.
  - repeat constructor; vm_compute; intuition discriminate.
  - intros payload. eexists. reflexivity.
  - reflexivity.
  - reflexivity.
  - reflexivity.
  - reflexivity.
  - reflexivity.
  - left. cbn. eauto.
Defined.

(** ** Month ranges and the time zone *)

Lemma MakeDay_date (y m d d' : Z) : MakeDay y m d' = MakeDay y m d + (d' - d).
Proof. unfold MakeDay. lia. Qed.

Lemma MakeDay_before_first (y m : Z) :
  0 <= m <= 11 ->
  MakeDay y m 1 - 1
  = MakeDay (previousMonth y m).1 (previousMonth y m).2
      (DaysInMonth (previousMonth y m).1 (previousMonth y m).2).
Proof.
  intros Hm. unfold previousMonth. destruct (Z.eqb_spec m 0) as [->|Hne]; cbn [fst snd].
  - unfold MakeDay, DaysInMonth.
    change (0 / 12) with 0. change (0 mod 12) with 0.
    change (11 / 12) with 0. change (11 mod 12) with 11.
    replace (y + 0) with (y - 1 + 1) by lia. rewrite DayFromYear_succ.
    replace (y - 1 + 0) with (y - 1) by lia.
    destruct (DaysInYear_cases (y - 1)) as [[-> ->] | [-> ->]]; simpl; lia.
  - rewrite <- (MakeDay_day_zero y (m - 1)) by lia.
    replace (m - 1 + 1) with m by lia. rewrite (MakeDay_date y m 1 0). lia.
Qed.

Lemma previousMonth_range (y m : Z) :
  0 <= m <= 11 -> 100 <= y <= 9999 ->
  0 <= (previousMonth y m).2 <= 11 /\ 99 <= (previousMonth y m).1 <= 9999.
Proof.
  intros Hm Hy. unfold previousMonth. destruct (Z.eqb_spec m 0); cbn [fst snd]; lia.
Qed.

Lemma MakeDay_bounds (y m d : Z) :
  0 <= y <= 9999 -> 0 <= m <= 11 -> 1 <= d <= DaysInMonth y m ->
  -719528 <= MakeDay y m d <= 2932896.
Proof.
  intros Hy Hm Hd. destruct (civil_of_MakeDay y m d Hm Hd) as (Hyear & _ & _).
  pose proof (YearFromDay_spec (MakeDay y m d)) as Hspec. rewrite Hyear in Hspec.
  pose proof (DayFromYear_bounds y Hy). lia.
Qed.

(** The ISO key of a time of a given calendar day. *)
Lemma isoKey_on_day (t y m d : Z) :
  Day t = MakeDay y m d ->
  0 <= y <= 9999 -> 0 <= m <= 11 -> 1 <= d <= DaysInMonth y m ->
  isoKey (TimeValue t) = Some (isoDay y (m + 1) d).
Proof.
  intros Hday Hy Hm Hd.
  destruct (civil_of_MakeDay y m d Hm Hd) as (Hyear & Hmonth & Hdate).
  rewrite isoKey_TimeValue; rewrite Hday, ?Hyear, ?Hmonth, ?Hdate; [reflexivity | exact Hy].
Qed.

(** Local midnight of a calendar day, in a zone of constant offset: in UTC it
    is a time of the same day at or west of UTC, and of the day before east
    of it. *)
Lemma Date_local_constant (tz y m d : Z) :
  100 <= y <= 9999 -> 0 <= m <= 11 -> 1 <= d <= DaysInMonth y m ->
  - msPerDay < tz <= msPerDay ->
  exists t,
    Date_local (fun _ => tz) y m d = TimeValue t
    /\ Day t = MakeDay y m d - (if 0 <? tz then 1 else 0).
Proof.
  intros Hy Hm Hd Htz. pose proof (MakeDay_bounds y m d ltac:(lia) Hm Hd) as Hb.
  unfold Date_local, MakeFullYear, TimeClip.
  destruct (Z.leb_spec y 99); [lia|]. rewrite andb_false_r.
  unfold msPerDay in *.
  destruct (Z.leb_spec (Z.abs (MakeDay y m d * 86400000 - tz)) 8640000000000000); [|lia].
  eexists. split; [reflexivity|]. unfold Day, msPerDay.
  destruct (Z.ltb_spec 0 tz); div_lia.
Qed.

Lemma Date_local_day_zero (tz : Z -> Z) (y m : Z) :
  0 <= m <= 11 -> Date_local tz y (m + 1) 0 = Date_local tz y m (DaysInMonth (MakeFullYear y) m).
Proof. intros Hm. unfold Date_local. now rewrite MakeDay_day_zero. Qed.

Lemma MakeFullYear_id (y : Z) : 100 <= y -> MakeFullYear y = y.
Proof.
  intros Hy. unfold MakeFullYear. destruct (Z.leb_spec y 99); [lia|]. now rewrite andb_false_r.
Qed.

(** The ISO keys of the local midnights of the first and of the last day of a
    month, in a zone of constant offset. *)
Lemma month_ends_constant (tz y m : Z) :
  100 <= y <= 9999 -> 0 <= m <= 11 -> - msPerDay < tz <= msPerDay ->
  isoKey (Date_local (fun _ => tz) y m 1)
  = Some (if 0 <? tz
          then isoDay (previousMonth y m).1 ((previousMonth y m).2 + 1)
                 (calendarDays (previousMonth y m).1 (previousMonth y m).2)
          else isoDay y (m + 1) 1)
  /\ isoKey (Date_local (fun _ => tz) y (m + 1) 0)
     = Some (isoDay y (m + 1) (calendarDays y m - (if 0 <? tz then 1 else 0))).
Proof.
  intros Hy Hm Htz. pose proof (DaysInMonth_pos y m Hm) as Hpos.
  pose proof (calendarDays_range y m) as Hcal.
  split.
  - destruct (Date_local_constant tz y m 1 Hy Hm ltac:(lia) Htz) as (t & -> & Hday).
    destruct (Z.ltb_spec 0 tz).
    + rewrite MakeDay_before_first in Hday by exact Hm.
      destruct (previousMonth_range y m Hm Hy) as [Hpm Hpy].
      pose proof (DaysInMonth_pos (previousMonth y m).1 (previousMonth y m).2 Hpm).
      rewrite (isoKey_on_day t _ _ _ Hday) by lia.
      now rewrite DaysInMonth_calendar.
    + rewrite Z.sub_0_r in Hday. now rewrite (isoKey_on_day t _ _ _ Hday) by lia.
  - rewrite Date_local_day_zero, MakeFullYear_id by lia.
    destruct (Date_local_constant tz y m (DaysInMonth y m) Hy Hm ltac:(lia) Htz)
      as (t & -> & Hday).
    rewrite <- DaysInMonth_calendar by exact Hm.
    destruct (Z.ltb_spec 0 tz).
    + replace (MakeDay y m (DaysInMonth y m) - 1) with (MakeDay y m (DaysInMonth y m - 1))
        in Hday by (rewrite (MakeDay_date y m (DaysInMonth y m) (DaysInMonth y m - 1)); lia).
      now rewrite (isoKey_on_day t _ _ _ Hday) by lia.
    + rewrite !Z.sub_0_r in *. now rewrite (isoKey_on_day t _ _ _ Hday) by lia.
Qed.

(** X5: in a zone of constant offset at or west of UTC, [parseMonthLabel]
    gives the first and the last calendar day of the month of a label
    "<Mon> <YYYY>", leap years included. *)
Theorem parseMonthLabel_calendar_month (tz m y : Z) :
  - msPerDay < tz <= 0 -> 0 <= m <= 11 -> 100 <= y <= 9999 ->
  exists range,
    parseMonthLabel (fun _ => tz) (monthLabel m y) = Some range
    /\ startISO range = isoDay y (m + 1) 1
    /\ endISO range = isoDay y (m + 1) (calendarDays y m).
Proof.
  intros Htz Hm Hy.
  destruct (parse_monthLabel m y Hm ltac:(lia)) as (rest & Hsplit & Hindex & Hyear).
  destruct (month_ends_constant tz y m Hy Hm ltac:(lia)) as [Hstart Hend].
  destruct (Z.ltb_spec 0 tz); [lia|]. rewrite Z.sub_0_r in Hend.
  unfold parseMonthLabel. rewrite Hsplit, Hyear, Hindex. cbn [mbind option_bind].
  rewrite Hstart, Hend. cbn [mbind option_bind]. eexists.
  split; [reflexivity|]. cbn [startISO endISO]. split; reflexivity.
Qed.

Lemma parseMonthLabel_calendar_month_witness :
  exists range,
    parseMonthLabel (fun _ => - (5 * 3600000)) "Feb 2024" = Some range
    /\ startISO range = "2024-02-01"
    /\ endISO range = "2024-02-29".
Proof.
  change "Feb 2024" with (monthLabel 1 2024).
  change "2024-02-01" with (isoDay 2024 (1 + 1) 1).
  change "2024-02-29" with (isoDay 2024 (1 + 1) (calendarDays 2024 1)).
  apply (parseMonthLabel_calendar_month (- (5 * 3600000)) 1 2024);
    unfold msPerDay; lia.
Defined.

(** X6: in a zone of constant offset east of UTC, both ends of the range of
    [parseMonthLabel] fall one day early: it starts on the last day of the
    month before and ends on the day before the last day of the month, so
    the last day of the month is outside the range of the lesson-schedule
    query. *)
Theorem parseMonthLabel_east_of_utc (tz m y : Z) :
  0 < tz <= msPerDay -> 0 <= m <= 11 -> 100 <= y <= 9999 ->
  exists range,
    parseMonthLabel (fun _ => tz) (monthLabel m y) = Some range
    /\ startISO range
       = isoDay (previousMonth y m).1 ((previousMonth y m).2 + 1)
           (calendarDays (previousMonth y m).1 (previousMonth y m).2)
    /\ endISO range = isoDay y (m + 1) (calendarDays y m - 1)
    /\ strict String.le (endISO range) (isoDay y (m + 1) (calendarDays y m)).
Proof.
  intros Htz Hm Hy.
  destruct (parse_monthLabel m y Hm ltac:(lia)) as (rest & Hsplit & Hindex & Hyear).
  destruct (month_ends_constant tz y m Hy Hm ltac:(unfold msPerDay in *; lia))
    as [Hstart Hend].
  destruct (Z.ltb_spec 0 tz); [|lia].
  unfold parseMonthLabel. rewrite Hsplit, Hyear, Hindex. cbn [mbind option_bind].
  rewrite Hstart, Hend. cbn [mbind option_bind]. eexists.
  split; [reflexivity|]. cbn [startISO endISO].
  split; [reflexivity|]. split; [reflexivity|].
  pose proof (calendarDays_range y m). apply isoDay_lt; lia.
Qed.

Lemma parseMonthLabel_east_of_utc_witness :
  exists range,
    parseMonthLabel (fun _ => 8 * 3600000) "Aug 2025" = Some range
    /\ startISO range = "2025-07-31"
    /\ endISO range = "2025-08-30".
Proof.
  change "Aug 2025" with (monthLabel 7 2025).
  change "2025-07-31"
    with (isoDay (previousMonth 2025 7).1 ((previousMonth 2025 7).2 + 1)
            (calendarDays (previousMonth 2025 7).1 (previousMonth 2025 7).2)).
  change "2025-08-30" with (isoDay 2025 (7 + 1) (calendarDays 2025 7 - 1)).
  destruct (parseMonthLabel_east_of_utc (8 * 3600000) 7 2025) as (range & Hrange & Hstart & Hend & _);
    [unfold msPerDay; lia | lia | lia |].
  exists range. split; [exact Hrange|]. split; [exact Hstart | exact Hend].
Defined.

(** ** InvoiceGenerator: the month range *)

Lemma Date_parse_isoDay (y m d : Z) :
  0 <= y <= 9999 -> 0 <= m <= 11 -> 1 <= d <= DaysInMonth y m ->
  Date_parse (isoDay y (m + 1) d) = TimeValue (MakeDay y m d * msPerDay).
Proof.
  intros Hy Hm Hd. pose proof (DaysInMonth_pos y m Hm) as Hdim.
  pose proof (MakeDay_bounds y m d Hy Hm Hd) as Hb.
  unfold Date_parse. rewrite parseIsoDate_isoDay by lia.
  replace (m + 1 - 1) with m by lia.
  destruct (Z.leb_spec 1 (m + 1)); [|lia]. destruct (Z.leb_spec (m + 1) 12); [|lia].
  destruct (Z.leb_spec 1 d); [|lia]. destruct (Z.leb_spec d (DaysInMonth y m)); [|lia].
  cbn [andb]. unfold Date_utc, TimeClip, msPerDay.
  destruct (Z.leb_spec (Z.abs (MakeDay y m d * 86400000)) 8640000000000000); [reflexivity|lia].
Qed.

Lemma Date_local_ext (f g : Z -> Z) (y m d : Z) :
  (forall t, f t = g t) -> Date_local f y m d = Date_local g y m d.
Proof. intros Hfg. unfold Date_local. now rewrite Hfg. Qed.

Lemma monthValue_first (y m : Z) : monthValue y m +:+ "-01" = isoDay y m 1.
Proof. reflexivity. Qed.

Lemma monthRange_of_start (env : InvoiceGenerator.Env) (month : string) (t : Z)
    (startISO endISO : string) :
  Date_parse (month +:+ "-01") = TimeValue t ->
  isoKey (TimeValue t) = Some startISO ->
  isoKey (Date_local (InvoiceGenerator.tzaLocal env)
            (YearFromDay (Day (t + InvoiceGenerator.tza env t)))
            (MonthFromDay (Day (t + InvoiceGenerator.tza env t)) + 1) 0) = Some endISO ->
  InvoiceGenerator.monthRange env month = Some (startISO, endISO).
Proof.
  intros Hparse Hstart Hend. unfold InvoiceGenerator.monthRange.
  rewrite Hparse. unfold getFullYear, getMonth, LocalDay. rewrite Hstart, Hend. reflexivity.
Qed.

(** The range of the attendance query of a month "YYYY-MM", in a zone of
    constant offset: where the range ends depends on the side of UTC. *)
Lemma monthRange_constant (env : InvoiceGenerator.Env) (tz y m : Z) :
  (forall t, InvoiceGenerator.tza env t = tz) ->
  (forall t, InvoiceGenerator.tzaLocal env t = tz) ->
  - msPerDay < tz < msPerDay -> 0 <= m <= 11 -> 101 <= y <= 9999 ->
  InvoiceGenerator.monthRange env (monthValue y (m + 1))
  = Some (isoDay y (m + 1) 1,
          if tz <? 0
          then isoDay (previousMonth y m).1 ((previousMonth y m).2 + 1)
                 (calendarDays (previousMonth y m).1 (previousMonth y m).2)
          else isoDay y (m + 1) (calendarDays y m - (if 0 <? tz then 1 else 0))).
Proof.
  intros Htza Hlocal Htz Hm Hy. pose proof (DaysInMonth_pos y m Hm) as Hdim.
  apply (monthRange_of_start env _ (MakeDay y m 1 * msPerDay)).
  - rewrite monthValue_first. apply Date_parse_isoDay; lia.
  - apply isoKey_on_day; [|lia..]. unfold Day. apply Z.div_mul. unfold msPerDay. lia.
  - rewrite Htza. rewrite (Date_local_ext _ (fun _ => tz)) by exact Hlocal.
    destruct (Z.ltb_spec tz 0) as [Hwest|Heast].
    + assert (Hday : Day (MakeDay y m 1 * msPerDay + tz) = MakeDay y m 1 - 1)
        by (unfold Day, msPerDay in *; div_lia).
      rewrite Hday, MakeDay_before_first by exact Hm.
      destruct (previousMonth_range y m Hm ltac:(lia)) as [Hpm Hpy].
      assert (Hy' : 100 <= (previousMonth y m).1 <= 9999).
      { unfold previousMonth. destruct (m =? 0); cbn [fst]; lia. }
      pose proof (DaysInMonth_pos (previousMonth y m).1 (previousMonth y m).2 Hpm) as Hdim'.
      destruct (civil_of_MakeDay (previousMonth y m).1 (previousMonth y m).2
                  (DaysInMonth (previousMonth y m).1 (previousMonth y m).2)
                  Hpm ltac:(lia)) as (-> & -> & _).
      destruct (month_ends_constant tz (previousMonth y m).1 (previousMonth y m).2
                  Hy' Hpm ltac:(lia)) as [_ ->].
      destruct (Z.ltb_spec 0 tz); [lia|]. now rewrite Z.sub_0_r.
    + assert (Hday : Day (MakeDay y m 1 * msPerDay + tz) = MakeDay y m 1)
        by (unfold Day, msPerDay in *; div_lia).
      rewrite Hday.
      destruct (civil_of_MakeDay y m 1 Hm ltac:(lia)) as (-> & -> & _).
      now destruct (month_ends_constant tz y m ltac:(lia) Hm ltac:(lia)) as [_ ->].
Qed.

Lemma pad4_compare_lt (a b : Z) (r r' : string) :
  0 <= a < b -> b <= 9999 ->
  String.compare (pad4 a +:+ r) (pad4 b +:+ r') = Lt.
Proof.
  intros Ha Hb. cbv [pad4 pad3 pad2 String.append]. cbn [String.compare].
  rewrite !compare_digit.
  destruct (Z.compare_spec ((a / 1000) mod 10) ((b / 1000) mod 10)); [|reflexivity|div_lia].
  destruct (Z.compare_spec ((a / 100) mod 10) ((b / 100) mod 10)); [|reflexivity|div_lia].
  destruct (Z.compare_spec ((a / 10) mod 10) ((b / 10) mod 10)); [|reflexivity|div_lia].
  destruct (Z.compare_spec (a mod 10) (b mod 10)); [div_lia|reflexivity|div_lia].
Qed.

Lemma pad2_compare_lt (a b : Z) (r r' : string) :
  0 <= a < b -> b <= 99 ->
  String.compare (pad2 a +:+ r) (pad2 b +:+ r') = Lt.
Proof.
  intros Ha Hb. cbv [pad2 String.append]. cbn [String.compare].
  rewrite !compare_digit.
  destruct (Z.compare_spec ((a / 10) mod 10) ((b / 10) mod 10)); [|reflexivity|div_lia].
  destruct (Z.compare_spec (a mod 10) (b mod 10)); [div_lia|reflexivity|div_lia].
Qed.

(** The last day of the month before comes before the first day of a month,
    as ISO days. *)
Lemma previous_month_before (y m d d' : Z) :
  0 <= m <= 11 -> 1 <= y <= 9999 ->
  strict String.le (isoDay (previousMonth y m).1 ((previousMonth y m).2 + 1) d)
    (isoDay y (m + 1) d').
Proof.
  intros Hm Hy. apply compare_Lt_strict. unfold previousMonth, isoDay.
  destruct (Z.eqb_spec m 0) as [->|Hne]; cbn [fst snd].
  - apply pad4_compare_lt; lia.
  - cbv [pad4 pad3 String.append].
    change (String.compare
              (String (digit (y / 1000)) (String (digit (y / 100))
                (String (digit (y / 10)) (String (digit y) (String "-"
                  (pad2 (m - 1 + 1) +:+ "-" +:+ pad2 d))))))
              (String (digit (y / 1000)) (String (digit (y / 100))
                (String (digit (y / 10)) (String (digit y) (String "-"
                  (pad2 (m + 1) +:+ "-" +:+ pad2 d')))))) = Lt).
    rewrite !compare_same_head. apply pad2_compare_lt; lia.
Qed.

(** X7: in UTC, the attendance of a month "YYYY-MM" is asked for the range
    from the first to the last calendar day of that month, leap years
    included. *)
Theorem invoice_month_range_utc (env : InvoiceGenerator.Env) (y m : Z) :
  (forall t, InvoiceGenerator.tza env t = 0) ->
  (forall t, InvoiceGenerator.tzaLocal env t = 0) ->
  0 <= m <= 11 -> 101 <= y <= 9999 ->
  InvoiceGenerator.monthRange env (monthValue y (m + 1))
  = Some (isoDay y (m + 1) 1, isoDay y (m + 1) (calendarDays y m)).
Proof.
  intros Htza Hlocal Hm Hy.
  rewrite (monthRange_constant env 0 y m Htza Hlocal ltac:(unfold msPerDay; lia) Hm Hy).
  cbn. now rewrite Z.sub_0_r.
Qed.

(** X8: off UTC the range of the attendance query is wrong. East of UTC it
    ends on the day before the last day of the month, which is left out. West
    of UTC it ends on the last day of the month before, that is before it
    starts, so that no lesson is in the range. *)
Theorem invoice_month_range_off_utc (env : InvoiceGenerator.Env) (tz y m : Z) :
  (forall t, InvoiceGenerator.tza env t = tz) ->
  (forall t, InvoiceGenerator.tzaLocal env t = tz) ->
  - msPerDay < tz < msPerDay -> tz <> 0 -> 0 <= m <= 11 -> 101 <= y <= 9999 ->
  exists endISO,
    InvoiceGenerator.monthRange env (monthValue y (m + 1))
    = Some (isoDay y (m + 1) 1, endISO)
    /\ (0 < tz -> endISO = isoDay y (m + 1) (calendarDays y m - 1))
    /\ (tz < 0 ->
        endISO = isoDay (previousMonth y m).1 ((previousMonth y m).2 + 1)
                   (calendarDays (previousMonth y m).1 (previousMonth y m).2)
        /\ strict String.le endISO (isoDay y (m + 1) 1)).
Proof.
  intros Htza Hlocal Htz Hne Hm Hy.
  rewrite (monthRange_constant env tz y m Htza Hlocal Htz Hm Hy).
  eexists. split; [reflexivity|].
  destruct (Z.ltb_spec tz 0), (Z.ltb_spec 0 tz); try lia.
  - split; [lia|]. intros _. split; [reflexivity|]. apply previous_month_before; lia.
  - split; [reflexivity|]. lia.
Qed.

Lemma invoice_month_range_utc_witness :
  InvoiceGenerator.monthRange (sampleInvoiceEnv 0 1762041600000) "2024-02"
  = Some ("2024-02-01", "2024-02-29").
Proof.
  change "2024-02" with (monthValue 2024 (1 + 1)).
  change "2024-02-01" with (isoDay 2024 (1 + 1) 1).
  change "2024-02-29" with (isoDay 2024 (1 + 1) (calendarDays 2024 1)).
  apply invoice_month_range_utc; first [reflexivity | lia].
Defined.

Lemma invoice_month_range_off_utc_witness :
  exists endISO,
    InvoiceGenerator.monthRange (sampleInvoiceEnv (- (5 * 3600000)) 1762041600000) "2025-08"
    = Some ("2025-08-01", endISO)
    /\ endISO = "2025-07-31".
Proof.
  change "2025-08" with (monthValue 2025 (7 + 1)).
  change "2025-08-01" with (isoDay 2025 (7 + 1) 1).
  change "2025-07-31"
    with (isoDay (previousMonth 2025 7).1 ((previousMonth 2025 7).2 + 1)
            (calendarDays (previousMonth 2025 7).1 (previousMonth 2025 7).2)).
  destruct (invoice_month_range_off_utc (sampleInvoiceEnv (- (5 * 3600000)) 1762041600000)
              (- (5 * 3600000)) 2025 7) as (endISO & Hrange & _ & Hwest);
    [reflexivity | reflexivity | unfold msPerDay; lia | lia | lia | lia |].
  exists endISO. split; [exact Hrange|]. apply Hwest. lia.
Defined.

(** ** InvoiceGenerator: the attendance summary *)

(** X9: when the month range is valid and the schedule query succeeds, the
    summary counts the schedule rows as total sessions and the attendance
    rows marked attended as attended sessions; with no schedule row the
    summary is 0 of 0 and the attendance records are not queried. *)
Theorem attendance_summary_counts (env : InvoiceGenerator.Env) (st : InvoiceGenerator.State)
    (startISO endISO : string) (schedules : Supabase.Response InvoiceGenerator.ScheduleRow) :
  InvoiceGenerator.monthRange env (InvoiceGenerator.selectedMonth st)
  = Some (startISO, endISO) ->
  InvoiceGenerator.schedules_query env (InvoiceGenerator.selectedClass st)
    (InvoiceGenerator.selectedStudent st) startISO endISO = Resolved schedules ->
  Supabase.error schedules = None ->
  let rows := default [] (Supabase.data schedules) in
  let ids := InvoiceGenerator.schedule_id <$> rows in
  let query := InvoiceGenerator.QuerySchedules (InvoiceGenerator.selectedClass st)
                 (InvoiceGenerator.selectedStudent st) startISO endISO in
  (rows = [] ->
     InvoiceGenerator.loadAttendanceData env st
     = (InvoiceGenerator.setAttendanceData
          (Some (InvoiceGenerator.mkAttendanceData (InvoiceGenerator.selectedStudent st) 0 0))
          st,
        [query]))
  /\ (rows <> [] ->
      forall attendance,
        InvoiceGenerator.attendance_query env ids = Resolved attendance ->
        Supabase.error attendance = None ->
        let marked := filter (fun a => InvoiceGenerator.attended a = Some true)
                        (default [] (Supabase.data attendance)) in
        InvoiceGenerator.loadAttendanceData env st
        = (InvoiceGenerator.setAttendanceData
             (Some (InvoiceGenerator.mkAttendanceData (InvoiceGenerator.selectedStudent st)
                      (length marked) (length rows)))
             st,
           [query; InvoiceGenerator.QueryAttendance ids])
        /\ (length marked <= length (default [] (Supabase.data attendance)))%nat).
Proof.
  intros Hrange Hquery Herr rows ids query.
  unfold InvoiceGenerator.loadAttendanceData, InvoiceGenerator.loadAttendanceData_try.
  rewrite Hrange. cbn. rewrite Hquery. cbn. rewrite Herr. fold rows. split.
  - intros ->. reflexivity.
  - intros Hrows attendance Hatt Herr2.
    rewrite length_fmap.
    rewrite bool_decide_eq_false_2 by (destruct rows; [done | discriminate]).
    cbn. fold ids. rewrite Hatt. cbn. rewrite Herr2. cbn. split.
    + do 4 f_equal. f_equal. apply list_filter_iff.
      intros a. unfold InvoiceGenerator.truthy.
      destruct (InvoiceGenerator.attended a) as [[]|]; cbn; split; congruence.
    + apply length_filter.
Qed.

Lemma attendance_summary_counts_witness :
  let env := sampleInvoiceEnv 0 1762041600000 in
  let st := InvoiceGenerator.mkState [] "c-1" "s-01" "2025-08" "50" None false in
  InvoiceGenerator.attendanceData (InvoiceGenerator.loadAttendanceData env st).1
  = Some (InvoiceGenerator.mkAttendanceData "s-01" 1 2).
Proof.
  intros env st.
  destruct (attendance_summary_counts env st "2025-08-01" "2025-08-31"
              (Supabase.mk
                 (Some [InvoiceGenerator.mkScheduleRow "ls-1" "2025-08-05";
                        InvoiceGenerator.mkScheduleRow "ls-2" "2025-08-12"]) None))
    as [_ Hrows]; [reflexivity | reflexivity | reflexivity |].
  destruct (Hrows ltac:(discriminate)
              (Supabase.mk
                 (Some [InvoiceGenerator.mkAttendanceRow "ls-1" (Some true);
                        InvoiceGenerator.mkAttendanceRow "ls-2" (Some false)]) None)
              eq_refl eq_refl) as [-> _].
  reflexivity.
Defined.



(** ** InvoiceGenerator: generating an invoice *)

(** X11: with a summary, a selection and an authenticated teacher, the
    invoice is inserted for the selected student with the status "pending"
    and the product of the attended sessions and the rate as total. Its line
    item is inserted only once the store answers the new invoice, whose id it
    carries, with the attended sessions as quantity. When the line item is
    refused the invoice stays written and the selection is kept; on success
    the student and the summary are cleared and the class, month and rate are
    kept. The busy flag is down at the end. *)
Theorem generateInvoice_writes (env : InvoiceGenerator.Env) (st : InvoiceGenerator.State)
    (summary : InvoiceGenerator.AttendanceData) (teacherId todayISO dueISO : string) :
  InvoiceGenerator.attendanceData st = Some summary ->
  InvoiceGenerator.selectedClass st <> "" ->
  InvoiceGenerator.selectedStudent st <> "" ->
  InvoiceGenerator.selectedMonth st <> "" ->
  InvoiceGenerator.auth_getUser env = Resolved (Some teacherId) ->
  teacherId <> "" ->
  isoKey (TimeValue (InvoiceGenerator.clock env 0)) = Some todayISO ->
  isoKey (InvoiceGenerator.dueDate env) = Some dueISO ->
  let rate := InvoiceGenerator.parseFloat env
                (if bool_decide (InvoiceGenerator.hourlyRate st = "") then "0"
                 else InvoiceGenerator.hourlyRate st) in
  let total := InvoiceGenerator.times env (InvoiceGenerator.attended_sessions summary) rate in
  let after := (InvoiceGenerator.generateInvoice env st).1 in
  let writes := filter (fun e => InvoiceGenerator.isWrite e = true)
                  (InvoiceGenerator.generateInvoice env st).2 in
  exists row,
    InvoiceGenerator.insert_student_id row = InvoiceGenerator.selectedStudent st
    /\ InvoiceGenerator.insert_teacher_id row = teacherId
    /\ InvoiceGenerator.insert_status row = "pending"
    /\ InvoiceGenerator.insert_total_amount row = total
    /\ InvoiceGenerator.insert_invoice_date row = todayISO
    /\ InvoiceGenerator.insert_due_date row = dueISO
    /\ InvoiceGenerator.isGenerating after = false
    /\ InvoiceGenerator.selectedClass after = InvoiceGenerator.selectedClass st
    /\ InvoiceGenerator.selectedMonth after = InvoiceGenerator.selectedMonth st
    /\ InvoiceGenerator.hourlyRate after = InvoiceGenerator.hourlyRate st
    /\ match InvoiceGenerator.invoices_insert env row with
       | Resolved (SingleRow invoiceId) =>
           let item := InvoiceGenerator.mkLineItem invoiceId
                         ("Tutoring sessions for " +:+ InvoiceGenerator.selectedMonth st)
                         (InvoiceGenerator.attended_sessions summary) rate total in
           writes = [InvoiceGenerator.InsertInvoice row; InvoiceGenerator.InsertLineItem item]
           /\ match InvoiceGenerator.line_items_insert env item with
              | Resolved None =>
                  InvoiceGenerator.selectedStudent after = ""
                  /\ InvoiceGenerator.attendanceData after = None
              | _ =>
                  InvoiceGenerator.selectedStudent after = InvoiceGenerator.selectedStudent st
                  /\ InvoiceGenerator.attendanceData after = Some summary
              end
       | _ =>
           writes = [InvoiceGenerator.InsertInvoice row]
           /\ InvoiceGenerator.selectedStudent after = InvoiceGenerator.selectedStudent st
           /\ InvoiceGenerator.attendanceData after = Some summary
       end.
Proof.
  intros Hsummary Hclass Hstudent Hmonth Hauth Hteacher Htoday Hdue rate total after writes.
  subst after writes. unfold InvoiceGenerator.generateInvoice. rewrite Hsummary.
  rewrite bool_decide_eq_false_2 by tauto.
  unfold InvoiceGenerator.generateInvoice_try. rewrite Hauth. cbn [act_await act_bind].
  rewrite (bool_decide_eq_false_2 _ Hteacher), Htoday, Hdue.
  fold rate. fold total.
  set (row := InvoiceGenerator.mkInvoiceInsert (InvoiceGenerator.selectedStudent st)
                teacherId (InvoiceGenerator.invoiceNumber env) total dueISO todayISO "pending"
                ("Invoice for " +:+ InvoiceGenerator.selectedMonth st +:+ " — "
                 +:+ pretty (InvoiceGenerator.attended_sessions summary) +:+ "/"
                 +:+ pretty (InvoiceGenerator.total_sessions summary)
                 +:+ " sessions attended")).
  exists row. do 6 (split; [reflexivity|]).
  cbn [act_emit act_bind app].
  destruct (InvoiceGenerator.invoices_insert env row) as [[invoiceId|e]|m];
    cbn [act_await act_bind act_throw app];
    [| cbn; rewrite ?Hsummary; repeat split; reflexivity..].
  set (item := InvoiceGenerator.mkLineItem invoiceId
                 ("Tutoring sessions for " +:+ InvoiceGenerator.selectedMonth st)
                 (InvoiceGenerator.attended_sessions summary) rate total).
  destruct (InvoiceGenerator.line_items_insert env item) as [[e|]|m];
    cbn; rewrite ?Hsummary; repeat split; reflexivity.
Qed.

Lemma generateInvoice_writes_witness :
  let env := sampleInvoiceEnv 0 1762041600000 in
  let summary := InvoiceGenerator.mkAttendanceData "s-01" 3 4 in
  let st := InvoiceGenerator.mkState [] "c-1" "s-01" "2025-10" "50" (Some summary) false in
  exists row,
    InvoiceGenerator.insert_status row = "pending"
    /\ InvoiceGenerator.insert_invoice_date row = "2025-11-02"
    /\ InvoiceGenerator.insert_due_date row = "2025-12-02".
Proof.
  intros env summary st.
  destruct (generateInvoice_writes env st summary "teacher-1" "2025-11-02" "2025-12-02")
    as (row & _ & _ & Hstatus & _ & Htoday & Hdue & _);
    [reflexivity | discriminate | discriminate | discriminate | reflexivity | discriminate
    | reflexivity | reflexivity |].
  exists row. repeat split; assumption.
Defined.

(** X12: in a zone of constant offset the due date is the instant thirty
    days after the reading of the clock, whatever the lengths of the months
    in between. *)
Theorem due_date_thirty_days (env : InvoiceGenerator.Env) (tz : Z) :
  (forall t, InvoiceGenerator.tza env t = tz) ->
  (forall t, InvoiceGenerator.tzaLocal env t = tz) ->
  InvoiceGenerator.dueDate env = TimeClip (InvoiceGenerator.clock env 1 + 30 * msPerDay).
Proof.
  intros Htza Hlocal. unfold InvoiceGenerator.dueDate, getDate, setDate, LocalDay.
  rewrite Htza, Hlocal. set (t := InvoiceGenerator.clock env 1).
  destruct (civil_of_day (Day (t + tz))) as (_ & _ & Hback).
  rewrite (MakeDay_date _ _ (DateFromDay (Day (t + tz)))), Hback.
  f_equal. unfold Day, TimeWithinDay, msPerDay. div_lia.
Qed.

Lemma due_date_thirty_days_witness :
  isoKey (InvoiceGenerator.dueDate (sampleInvoiceEnv (2 * 3600000) 1769817600000))
  = Some "2026-03-02".
Proof.
  rewrite (due_date_thirty_days (sampleInvoiceEnv (2 * 3600000) 1769817600000) (2 * 3600000));
    reflexivity.
Defined.

(** ** ClassManager: loading the classes *)







(** X14: loading the classes never writes to the store and always ends with
    the loading flag down. Either no toast is shown, or the class list is
    left as it was and the one toast, shown last, is the destructive
    "Error loading classes". *)
Theorem loadClasses_failure_keeps_classes (env : ClassManager.Env) (st : ClassManager.State) :
  let after := (ClassManager.loadClasses env st).1 in
  let events := (ClassManager.loadClasses env st).2 in
  let toasts := filter (fun e => ClassManager.isStoreCall e = false) events in
  ClassManager.isLoading after = false
  /\ filter (fun e => ClassManager.isWrite e = true) events = []
  /\ (toasts = []
      \/ ClassManager.classes after = ClassManager.classes st
         /\ exists description,
              toasts = [ClassManager.ShowToast
                          (mkToast "Error loading classes" description destructive)]
              /\ last events = Some (ClassManager.ShowToast
                                       (mkToast "Error loading classes" description destructive))).
Proof.
  cbv zeta. unfold ClassManager.loadClasses, ClassManager.loadClasses_try.
  destruct (ClassManager.auth_getUser env) as [[teacherId|]|m]; cbn [act_await act_bind];
    [case_bool_decide as Hteacher; cbn [act_emit act_bind app];
     [|destruct (ClassManager.classes_query env teacherId) as [[data [error|]]|m];
       cbn [act_await act_bind Supabase.error Supabase.data app];
       [| case_bool_decide as Hids; cbn [act_emit act_bind act_ret app];
          [|destruct (ClassManager.schedules_query env _) as [[rows [error|]]|m]] |]] | |];
    cbn; (split; [reflexivity|]); (split; [reflexivity|]);
    first [left; reflexivity | right; split; [reflexivity|]; eexists; split; reflexivity].
Qed.

(** ** ClassManager: adding and deleting a class *)

Lemma trimStart_blank (s : string) : trimStart s = "" <-> isBlank s = true.
Proof.
  induction s as [|c s IH]; cbn; [tauto|].
  destruct (Ascii.is_space c); cbn; [exact IH|].
  split; discriminate.
Qed.

Lemma isBlank_trimStart (s : string) : isBlank (trimStart s) = isBlank s.
Proof.
  induction s as [|c s IH]; cbn; [reflexivity|].
  destruct (Ascii.is_space c) eqn:Hc; cbn; [exact IH|].
  rewrite Hc. reflexivity.
Qed.

Lemma isBlank_rev_app (s1 s2 : string) :
  isBlank (String.rev_app s1 s2) = isBlank s1 && isBlank s2.
Proof.
  revert s2. induction s1 as [|c s1 IH]; intros s2; cbn; [reflexivity|].
  rewrite IH. cbn. destruct (Ascii.is_space c), (isBlank s1); reflexivity.
Qed.

Lemma rev_app_empty (s1 s2 : string) : String.rev_app s1 s2 = "" -> s1 = "" /\ s2 = "".
Proof.
  revert s2. induction s1 as [|c s1 IH]; intros s2; cbn; [tauto|].
  intros Hrev. destruct (IH _ Hrev) as [_ Hcons]. discriminate.
Qed.

Lemma trimEnd_blank (s : string) : trimEnd s = "" <-> isBlank s = true.
Proof.
  unfold trimEnd, String.rev. split.
  - intros Hrev. apply rev_app_empty in Hrev as [Hstart _].
    apply trimStart_blank in Hstart. rewrite isBlank_rev_app in Hstart.
    apply andb_true_iff in Hstart as [Hs _]. exact Hs.
  - intros Hs. assert (trimStart (String.rev_app s "") = "") as ->; [|reflexivity].
    apply trimStart_blank. rewrite isBlank_rev_app, Hs. reflexivity.
Qed.

(** [trim] answers the empty text on the blank texts, and on them only. *)
Lemma trim_blank (s : string) : trim s = "" <-> isBlank s = true.
Proof.
  unfold trim. rewrite trimEnd_blank, isBlank_trimStart. reflexivity.
Qed.

Lemma trim_not_blank (s : string) : trim s <> "" <-> isBlank s = false.
Proof.
  rewrite trim_blank. destruct (isBlank s); split; congruence.
Qed.

(** X15: a class whose name is blank (empty, or white space only) is
    refused before the session is read and before the store is called: the
    state is unchanged and the one toast is the destructive
    "Class name required". *)
Theorem addClass_blank_name_refused (env : ClassManager.Env) (st : ClassManager.State) :
  isBlank (ClassManager.form_class_name (ClassManager.newClass st)) = true ->
  ClassManager.addClass env st
  = (st, [ClassManager.ShowToast
            (mkToast "Class name required" "Please enter a class name" destructive)]).
Proof.
  intros Hblank. unfold ClassManager.addClass.
  rewrite bool_decide_eq_true_2 by (apply trim_blank; exact Hblank). reflexivity.
Qed.

Lemma addClass_blank_name_refused_witness :
  let st := ClassManager.mkState [] true (ClassManager.mkNewClass "   " "Algebra" "60") false in
  (ClassManager.addClass (sampleClassEnv None) st).1 = st.
Proof.
  intros st. rewrite (addClass_blank_name_refused (sampleClassEnv None) st); reflexivity.
Defined.



Lemma filter_other_ids (classId : string) (l : list ClassManager.Class) :
  classId ∉ (ClassManager.id <$> l) ->
  filter (fun c => ClassManager.id c ≠ classId) l = l.
Proof.
  induction l as [|c l IH]; [reflexivity|]. cbn [fmap list_fmap].
  rewrite not_elem_of_cons. intros [Hhead Htail].
  rewrite filter_cons, decide_True by congruence. rewrite IH by exact Htail. reflexivity.
Qed.

(** X17: deleting a class calls the store once, for that id. When the store
    accepts, the classes of that id leave the list and the others stay, in
    their order; when it refuses, or the call is rejected, the state is as it
    was and the one toast is destructive. *)
Theorem deleteClass_outcomes (env : ClassManager.Env) (classId className : string)
    (st : ClassManager.State) :
  let after := (ClassManager.deleteClass env classId className st).1 in
  let events := (ClassManager.deleteClass env classId className st).2 in
  filter (fun e => ClassManager.isStoreCall e = true) events = [ClassManager.DeleteClass classId]
  /\ match ClassManager.classes_delete env classId with
     | Resolved None =>
         (classId ∉ (ClassManager.id <$> ClassManager.classes after))
         /\ ClassManager.id <$> ClassManager.classes after
            = filter (fun i => i ≠ classId) (ClassManager.id <$> ClassManager.classes st)
         /\ (forall c, c ∈ ClassManager.classes after
                       <-> c ∈ ClassManager.classes st /\ ClassManager.id c ≠ classId)
         /\ last events = Some (ClassManager.ShowToast
                                  (mkToast "Class deleted" (className +:+ " has been deleted")
                                     default_variant))
     | _ =>
         after = st
         /\ exists description,
              last events = Some (ClassManager.ShowToast
                                    (mkToast "Error deleting class" description destructive))
     end.
Proof.
  cbv zeta. unfold ClassManager.deleteClass.
  destruct (ClassManager.classes_delete env classId) as [[error|]|m]; cbn [fst snd].
  - split; [reflexivity|]. split; [reflexivity|]. eexists. reflexivity.
  - split; [reflexivity|]. cbn [ClassManager.classes ClassManager.setClasses].
    split; [|split; [|split]].
    + rewrite list_elem_of_fmap. intros (c & Hid & Hin).
      apply list_elem_of_filter in Hin as [Hne _]. congruence.
    + induction (ClassManager.classes st) as [|c l IH]; [reflexivity|].
      cbn [fmap list_fmap]. rewrite !filter_cons.
      destruct (decide (ClassManager.id c ≠ classId)); cbn [fmap list_fmap];
        rewrite IH; reflexivity.
    + intros c. rewrite list_elem_of_filter. tauto.
    + reflexivity.
  - split; [reflexivity|]. split; [reflexivity|]. eexists. reflexivity.
Qed.

(** X18: adding a class and then deleting the class that the store answered
    gives back the class list of before, when that list holds no class of the
    new id and both calls are accepted. *)
Theorem add_then_delete_restores (env : ClassManager.Env) (st : ClassManager.State)
    (teacherId className : string) (data : ClassManager.Class) :
  isBlank (ClassManager.form_class_name (ClassManager.newClass st)) = false ->
  ClassManager.auth_getUser env = Resolved (Some teacherId) ->
  teacherId <> "" ->
  (forall row, ClassManager.insert_teacher_id row = teacherId ->
               ClassManager.classes_insert env row = Resolved (SingleRow data)) ->
  ClassManager.id data ∉ (ClassManager.id <$> ClassManager.classes st) ->
  ClassManager.classes_delete env (ClassManager.id data) = Resolved None ->
  ClassManager.classes
    (ClassManager.deleteClass env (ClassManager.id data) className
       (ClassManager.addClass env st).1).1
  = ClassManager.classes st.
Proof.
  intros Hname Hauth Hteacher Hinsert Hfresh Hdelete.
  apply trim_not_blank in Hname.
  unfold ClassManager.addClass. rewrite (bool_decide_eq_false_2 _ Hname).
  unfold ClassManager.addClass_try. rewrite Hauth. cbn [act_await act_bind].
  rewrite (bool_decide_eq_false_2 _ Hteacher). cbn [act_emit act_bind app].
  rewrite Hinsert by reflexivity. cbn [act_await act_bind act_emit act_ret app fst].
  unfold ClassManager.deleteClass. rewrite Hdelete.
  cbn [fst ClassManager.classes ClassManager.setClasses].
  rewrite filter_cons, decide_False by (cbn; intros Hne; apply Hne; reflexivity).
  apply filter_other_ids. exact Hfresh.
Qed.

Lemma add_then_delete_restores_witness :
  let st := ClassManager.mkState [ClassManager.mkClass "c-1" "Maths" None None (Some 2%nat)]
              true (ClassManager.mkNewClass "Algebra" "" "") false in
  let env :=
    ClassManager.mkEnv (Resolved (Some "teacher-1"))
      (fun _ => Resolved (Supabase.mk (Some []) None))
      (fun _ => Resolved (Supabase.mk (Some []) None))
      (fun _ => Resolved (SingleRow (ClassManager.mkClass "c-9" "Algebra" None None None)))
      (fun _ => Resolved None) (fun _ _ => Resolved None) (fun _ _ => Resolved None)
      (fun _ => NaN) (fun _ _ => None) (fun _ => "") in
  ClassManager.classes
    (ClassManager.deleteClass env "c-9" "Algebra" (ClassManager.addClass env st).1).1
  = [ClassManager.mkClass "c-1" "Maths" None None (Some 2%nat)].
Proof.
  intros st env.
  apply (add_then_delete_restores env st "teacher-1" "Algebra"
           (ClassManager.mkClass "c-9" "Algebra" None None None));
    [reflexivity | reflexivity | discriminate | reflexivity | | reflexivity].
  cbn. rewrite list_elem_of_singleton. discriminate.
Defined.

(** ** ClassManager: the actions menu *)





(** ** Settings *)

Lemma settings_keys_differ : Settings.urlKey <> Settings.keyKey.
Proof. discriminate. Qed.

(** X21: a configuration saved with a URL that parses and a key, both not
    empty, is the one that the page loads when it is opened again, whatever
    its fields are then; the page then reports a custom configuration, and
    the other items of the storage are as they were. *)
Theorem settings_save_then_load (validURL : string -> bool) (st opened : Settings.State)
    (storage : gmap string string) :
  Settings.supabaseUrl st <> "" ->
  Settings.supabaseKey st <> "" ->
  validURL (Settings.supabaseUrl st) = true ->
  let saved := (Settings.handleSave validURL st storage).1.2 in
  Settings.supabaseUrl (Settings.loadSaved saved opened) = Settings.supabaseUrl st
  /\ Settings.supabaseKey (Settings.loadSaved saved opened) = Settings.supabaseKey st
  /\ Settings.isUsingCustomConfig saved = true
  /\ (forall k, k <> Settings.urlKey -> k <> Settings.keyKey -> saved !! k = storage !! k).
Proof.
  intros Hurl Hkey Hvalid saved. subst saved. unfold Settings.handleSave.
  rewrite (bool_decide_eq_false_2 _ Hurl), (bool_decide_eq_false_2 _ Hkey), Hvalid.
  cbn [negb andb fst snd].
  unfold Settings.loadSaved, Settings.isUsingCustomConfig.
  rewrite lookup_insert_eq, lookup_insert_ne by (apply not_eq_sym, settings_keys_differ).
  rewrite lookup_insert_eq.
  rewrite (bool_decide_eq_false_2 _ Hurl), (bool_decide_eq_false_2 _ Hkey).
  split; [reflexivity|]. split; [reflexivity|]. split; [reflexivity|].
  intros k Hk1 Hk2. rewrite !lookup_insert_ne by congruence. reflexivity.
Qed.

Lemma settings_save_then_load_witness :
  let st := Settings.mkState "https://example.supabase.co" "anon-key" false in
  Settings.supabaseUrl
    (Settings.loadSaved (Settings.handleSave (fun _ => true) st ∅).1.2
       (Settings.mkState "" "" false))
  = "https://example.supabase.co".
Proof.
  intros st.
  destruct (settings_save_then_load (fun _ => true) st (Settings.mkState "" "" false) ∅)
    as [Hurl _]; [discriminate | discriminate | reflexivity |].
  exact Hurl.
Defined.

(** X22: a save writes both items or none. When it writes, the URL and the
    key stored are not empty and the URL parses, and the toast is not
    destructive; when it does not, the storage is as it was and the toast is
    the destructive "Save failed". The fields are kept and the busy flag is
    down in both cases. *)
Theorem settings_save_both_or_none (validURL : string -> bool) (st : Settings.State)
    (storage : gmap string string) :
  let after := (Settings.handleSave validURL st storage).1.1 in
  let saved := (Settings.handleSave validURL st storage).1.2 in
  let shown := (Settings.handleSave validURL st storage).2 in
  Settings.isSaving after = false
  /\ Settings.supabaseUrl after = Settings.supabaseUrl st
  /\ Settings.supabaseKey after = Settings.supabaseKey st
  /\ (saved = storage /\ title shown = "Save failed" /\ variant shown = destructive
      \/ saved !! Settings.urlKey = Some (Settings.supabaseUrl st)
         /\ saved !! Settings.keyKey = Some (Settings.supabaseKey st)
         /\ Settings.supabaseUrl st <> "" /\ Settings.supabaseKey st <> ""
         /\ validURL (Settings.supabaseUrl st) = true
         /\ variant shown = default_variant).
Proof.
  cbv zeta. unfold Settings.handleSave.
  case_bool_decide as Hurl; cbn [negb andb];
    [|case_bool_decide as Hkey; cbn [negb andb];
      [|destruct (validURL (Settings.supabaseUrl st)) eqn:Hvalid]];
    cbn [fst snd Settings.isSaving Settings.supabaseUrl Settings.supabaseKey];
    (split; [reflexivity|]); (split; [reflexivity|]); (split; [reflexivity|]);
    try (left; repeat split; reflexivity).
  right. rewrite lookup_insert_eq, lookup_insert_ne by (apply not_eq_sym, settings_keys_differ).
  rewrite lookup_insert_eq. repeat split; auto.
Qed.

(** X23: a reset removes both items and empties both fields: whatever was
    stored, the page no longer reports a custom configuration, opening it
    again loads nothing, and the other items of the storage are as they
    were. *)
Theorem settings_reset_clears (st opened : Settings.State) (storage : gmap string string) :
  let after := (Settings.handleReset st storage).1.1 in
  let cleared := (Settings.handleReset st storage).1.2 in
  Settings.supabaseUrl after = "" /\ Settings.supabaseKey after = ""
  /\ cleared !! Settings.urlKey = None /\ cleared !! Settings.keyKey = None
  /\ Settings.isUsingCustomConfig cleared = false
  /\ Settings.loadSaved cleared opened = opened
  /\ (forall k, k <> Settings.urlKey -> k <> Settings.keyKey -> cleared !! k = storage !! k).
Proof.
  cbv zeta. unfold Settings.handleReset. cbn [fst snd Settings.supabaseUrl Settings.supabaseKey].
  assert (delete Settings.keyKey (delete Settings.urlKey storage) !! Settings.urlKey = None)
    as Hurl.
  { rewrite lookup_delete_ne by (apply not_eq_sym, settings_keys_differ).
    apply lookup_delete_eq. }
  assert (delete Settings.keyKey (delete Settings.urlKey storage) !! Settings.keyKey = None)
    as Hkey by apply lookup_delete_eq.
  split; [reflexivity|]. split; [reflexivity|]. split; [exact Hurl|]. split; [exact Hkey|].
  unfold Settings.isUsingCustomConfig, Settings.loadSaved. rewrite Hurl, Hkey.
  split; [reflexivity|]. split; [destruct opened; reflexivity|].
  intros k Hk1 Hk2. rewrite !lookup_delete_ne by congruence. reflexivity.
Qed.

(** ** PaymentTracker: the writes of a payment *)



(** X25: a payment dialog opens on its invoice with the total of the invoice
    as amount. When that total is a positive number that is read back from
    its text, recording the payment as prefilled sends a payment of the
    total, and every status written to the invoice and to the student is
    "paid". *)
Theorem prefilled_amount_marks_paid (env : PaymentTracker.Env) (toString : number -> string)
    (invoice : PaymentTracker.Invoice) (st : PaymentTracker.State) (total : Q) :
  PaymentTracker.total_amount invoice = Finite total ->
  (0 < total)%Q ->
  PaymentTracker.parseFloat env (toString (Finite total)) = Finite total ->
  let opened := onOpenChange toString invoice true st in
  let events := (PaymentTracker.processPayment env opened).2 in
  PaymentTracker.selectedInvoice opened = Some invoice
  /\ PaymentTracker.isDialogOpen opened = true
  /\ (exists payment,
        head (writesOf events) = Some (PaymentTracker.InsertPayment payment)
        /\ PaymentTracker.amount payment = PaymentTracker.total_amount invoice
        /\ PaymentTracker.invoice_id payment = PaymentTracker.id invoice
        /\ PaymentTracker.payment_student_id payment = PaymentTracker.student_id invoice)
  /\ (forall s, s ∈ invoiceStatusesWritten events -> s = "paid")
  /\ (forall s, s ∈ studentStatusesWritten events -> s = "paid").
Proof.
  intros Htotal Hpositive Hread. cbv zeta.
  split; [reflexivity|]. split; [reflexivity|].
  unfold PaymentTracker.processPayment, onOpenChange.
  cbn [PaymentTracker.selectedInvoice]. unfold PaymentTracker.processPayment_try.
  cbn [PaymentTracker.paymentAmount PaymentTracker.paymentMethod PaymentTracker.paymentNotes].
  rewrite Htotal, Hread.
  assert (Qle_bool total 0 = false) as Hle.
  { apply not_true_is_false. rewrite Qle_bool_iff. apply Qlt_not_le. exact Hpositive. }
  assert (Qle_bool total total = true) as Hcovered by (apply Qle_bool_iff, Qle_refl).
  cbn [PaymentTracker.isNaN PaymentTracker.number_le orb]. rewrite Hle, Hcovered.
  cbn [act_emit act_bind app].
  set (row := PaymentTracker.mkPayment _ _ _ _ _ _).
  assert (forall s : string, s ∈ @nil string -> s = "paid") as Hnone
    by (intros s Hs; apply elem_of_nil in Hs; contradiction).
  assert (forall s : string, s ∈ ["paid"] -> s = "paid") as Hone
    by (intros s Hs; apply list_elem_of_singleton in Hs; exact Hs).
  destruct (PaymentTracker.payments_insert env row) as [[e1|]|m1];
    cbn [act_await act_bind act_throw act_emit app];
    [| destruct (PaymentTracker.invoices_update env (PaymentTracker.id invoice) "paid")
         as [[e2|]|m2];
       cbn [act_await act_bind act_throw act_emit app];
       [| destruct (PaymentTracker.students_update env (PaymentTracker.student_id invoice) _)
            as [[e3|]|m3] |] |];
    cbn; (split; [exists row; repeat split; reflexivity|]); split; assumption.
Qed.

Lemma prefilled_amount_marks_paid_witness :
  let inv := PaymentTracker.mkInvoice "inv-1" "INV-0001" "Ada" (Finite (120 # 1)) "pending"
               "2025-09-01" "2025-08-01" "s-01" in
  let env := PaymentTracker.mkEnv (fun _ => Finite (120 # 1)) (fun _ => "120.00") 0
               (fun _ => Resolved None) (fun _ _ => Resolved None)
               (fun _ _ => Resolved None) in
  let st := PaymentTracker.mkState None "" "cash" "" false false in
  exists payment,
    head (writesOf (PaymentTracker.processPayment env
                      (onOpenChange (fun _ => "120") inv true st)).2)
    = Some (PaymentTracker.InsertPayment payment)
    /\ PaymentTracker.amount payment = Finite (120 # 1).
Proof.
  intros inv env st.
  destruct (prefilled_amount_marks_paid env (fun _ => "120") inv st (120 # 1))
    as (_ & _ & (payment & Hhead & Hamount & _) & _);
    [reflexivity | reflexivity | reflexivity |].
  exists payment. split; [exact Hhead | exact Hamount].
Defined.

(** X26: whatever the session and the two queries answer, selecting a class
    ends on the attendance step with the class, the month and the custom
    dates that were given, with the loading flag down and without a toast:
    the failure toast of the handler is never shown. Going back from there
    gives the state of the selection step, with nothing selected. *)
Theorem handleClassSelection_always_attendance (env : AttendanceManager.Env)
    (classData : Class) (month : string) (customDates : option (list Date))
    (st : AttendanceManager.State) :
  let after := AttendanceManager.handleClassSelection env classData month customDates st in
  AttendanceManager.currentStep after.1 = AttendanceManager.attendance
  /\ AttendanceManager.isLoadingStudents after.1 = false
  /\ AttendanceManager.selectedClass after.1 = Some classData
  /\ AttendanceManager.selectedMonth after.1 = month
  /\ AttendanceManager.customLessonDates after.1 = customDates
  /\ toastsOfManager after.2 = []
  /\ handleBackToSelection after.1
     = AttendanceManager.mkState AttendanceManager.select None "" None [] false.
Proof.
  cbv zeta.
  unfold AttendanceManager.handleClassSelection, AttendanceManager.loadStudentsForClass,
    AttendanceManager.loadStudentsForClass_try, act_catch.
  destruct (AttendanceManager.auth_getUser env) as [[teacherId|]|m]; cbn [act_await act_bind];
    [case_bool_decide as Hteacher;
     [|destruct (AttendanceManager.schedules_query env (class_id classData))
         as [[rows [error|]]|m]; cbn [act_await act_bind Supabase.error app];
       [|case_bool_decide as Hids;
         [|destruct (AttendanceManager.students_query env _ teacherId)
             as [[students [error|]]|m]] |]] | |];
    cbn; repeat split; reflexivity.
Qed.

(** ** InvoiceGenerator: choosing a class *)

(** X27: choosing a class empties the chosen student, so that the effect on
    the selection clears the attendance summary without a query, and
    generating an invoice then does nothing. The rate of the form is kept, or
    it is the text of the rate of a class of the list with the chosen id. *)
Theorem selecting_class_clears_summary (env : InvoiceGenerator.Env) (value : string)
    (st : InvoiceGenerator.State) :
  let chosen := InvoiceGenerator.selectClass env value st in
  let settled := InvoiceGenerator.attendanceEffect env chosen in
  InvoiceGenerator.selectedClass chosen = value
  /\ InvoiceGenerator.selectedStudent chosen = ""
  /\ settled.2 = []
  /\ InvoiceGenerator.attendanceData settled.1 = None
  /\ InvoiceGenerator.generateInvoice env settled.1 = (settled.1, [])
  /\ (InvoiceGenerator.hourlyRate chosen = InvoiceGenerator.hourlyRate st
      \/ exists cls rate,
           cls ∈ InvoiceGenerator.classes st
           /\ InvoiceGenerator.id cls = value
           /\ InvoiceGenerator.hourly_rate cls = Some rate
           /\ InvoiceGenerator.hourlyRate chosen = InvoiceGenerator.numberToString env rate).
Proof.
  cbv zeta. unfold InvoiceGenerator.attendanceEffect.
  rewrite bool_decide_eq_true_2 by (right; left; reflexivity).
  split; [reflexivity|]. split; [reflexivity|]. split; [reflexivity|].
  split; [reflexivity|]. split; [reflexivity|].
  unfold InvoiceGenerator.selectClass. cbn [InvoiceGenerator.hourlyRate].
  destruct (find _ (InvoiceGenerator.classes st)) as [cls|] eqn:Hfind; [|left; reflexivity].
  destruct (InvoiceGenerator.hourly_rate cls) as [rate|] eqn:Hrate; [|left; reflexivity].
  right. exists cls, rate. apply find_some in Hfind as [Hin Hid].
  split; [apply list_elem_of_In; exact Hin|].
  split; [apply bool_decide_eq_true_1 in Hid; exact Hid|]. split; [exact Hrate|reflexivity].
Qed.

(** ** PaymentTracker: the actions of an invoice *)

(** X28: a status that a payment writes to an invoice never gets the
    destructive badge. The invoice then offers the receipt or the payment
    dialog, not both, and it offers the receipt exactly when the amount paid
    covers its total. *)
Theorem written_status_actions (env : PaymentTracker.Env) (st : PaymentTracker.State)
    (inv : PaymentTracker.Invoice) (s : string) :
  PaymentTracker.selectedInvoice st = Some inv ->
  s ∈ invoiceStatusesWritten (PaymentTracker.processPayment env st).2 ->
  getStatusVariant s <> "destructive"
  /\ offersPayment s = negb (offersReceipt s)
  /\ offersReceipt s
     = PaymentTracker.number_le (PaymentTracker.total_amount inv)
         (PaymentTracker.parseFloat env (PaymentTracker.paymentAmount st)).
Proof.
  intros Hsel. unfold PaymentTracker.processPayment. rewrite Hsel.
  unfold PaymentTracker.processPayment_try.
  set (amount := PaymentTracker.parseFloat env (PaymentTracker.paymentAmount st)).
  set (row := PaymentTracker.mkPayment _ _ _ _ _ _).
  set (covered := PaymentTracker.number_le (PaymentTracker.total_amount inv) amount).
  set (fields := PaymentTracker.mkStudentUpdate _ _ _).
  assert (s ∈ @nil string -> getStatusVariant s <> "destructive"
            /\ offersPayment s = negb (offersReceipt s) /\ offersReceipt s = covered) as Hnone
    by (intros Hs; apply elem_of_nil in Hs; contradiction).
  assert (s ∈ [if covered then "paid" else "partial"] ->
          getStatusVariant s <> "destructive"
          /\ offersPayment s = negb (offersReceipt s) /\ offersReceipt s = covered) as Hone.
  { intros Hs. apply list_elem_of_singleton in Hs. subst s.
    destruct covered; (split; [discriminate|]); split; reflexivity. }
  destruct (PaymentTracker.isNaN amount || PaymentTracker.number_le amount (Finite 0));
    [exact Hnone|].
  cbn [act_emit act_bind app].
  destruct (PaymentTracker.payments_insert env row) as [[e1|]|m1];
    cbn [act_await act_bind act_throw act_emit app]; [exact Hnone| |exact Hnone].
  destruct (PaymentTracker.invoices_update env (PaymentTracker.id inv) _) as [[e2|]|m2];
    cbn [act_await act_bind act_throw act_emit app]; [exact Hone| |exact Hone].
  destruct (PaymentTracker.students_update env (PaymentTracker.student_id inv) fields)
    as [[e3|]|m3]; exact Hone.
Qed.

Lemma written_status_actions_witness :
  let inv := PaymentTracker.mkInvoice "inv-1" "INV-0001" "Ada" (Finite (120 # 1)) "pending"
               "2025-09-01" "2025-08-01" "s-01" in
  let env := PaymentTracker.mkEnv (fun _ => Finite (60 # 1)) (fun _ => "60.00") 0
               (fun _ => Resolved None) (fun _ _ => Resolved None)
               (fun _ _ => Resolved None) in
  let st := PaymentTracker.mkState (Some inv) "60" "cash" "" false true in
  offersReceipt "partial" = false.
Proof.
  intros inv env st.
  destruct (written_status_actions env st inv "partial") as (_ & _ & Hreceipt);
    [reflexivity | apply list_elem_of_singleton; reflexivity | exact Hreceipt].
Defined.

(** ** AttendanceManager: attendance from the class manager *)

Lemma handleClassSelection_selection (env : AttendanceManager.Env) (classData : Class)
    (month : string) (customDates : option (list Date)) (st : AttendanceManager.State) :
  AttendanceManager.selectedMonth
    (AttendanceManager.handleClassSelection env classData month customDates st).1 = month
  /\ AttendanceManager.customLessonDates
       (AttendanceManager.handleClassSelection env classData month customDates st).1
     = customDates.
Proof.
  unfold AttendanceManager.handleClassSelection.
  destruct (AttendanceManager.loadStudentsForClass env (class_id classData)) as [log [l|error]];
    split; reflexivity.
Qed.

(** X29: taking attendance from the class manager selects the class with the
    label of the current local month and no custom dates. At or west of UTC,
    in a zone of constant offset and a year of four digits, the grid parses
    that label to the range from the first to the last day of the month that
    the clock is in. *)
Theorem take_attendance_selects_current_month (env : AttendanceManager.Env) (tz now : Z)
    (classData : Class) (st : AttendanceManager.State) :
  - msPerDay < tz <= 0 ->
  1000 <= YearFromDay (Day (now + tz)) <= 9999 ->
  let after := (handleTakeAttendanceFromClassManager env (fun _ => tz) now classData st).1 in
  let year := YearFromDay (Day (now + tz)) in
  let month := MonthFromDay (Day (now + tz)) in
  AttendanceManager.customLessonDates after = None
  /\ exists range,
       parseMonthLabel (fun _ => tz) (AttendanceManager.selectedMonth after) = Some range
       /\ startISO range = isoDay year (month + 1) 1
       /\ endISO range = isoDay year (month + 1) (calendarDays year month).
Proof.
  intros Htz Hy. cbv zeta.
  unfold handleTakeAttendanceFromClassManager, toLocaleMonthYear, LocalDay.
  set (year := YearFromDay (Day (now + tz))) in *.
  set (month := MonthFromDay (Day (now + tz))).
  assert (0 <= month <= 11) as Hm by apply MonthFromDay_range.
  destruct (handleClassSelection_selection env classData (monthLabel month year) None st)
    as [Hlabel Hdates].
  rewrite Hlabel, Hdates. clear Hlabel Hdates. clearbody year month.
  split; [reflexivity|].
  destruct (parse_monthLabel month year Hm ltac:(lia)) as (rest & Hsplit & Hindex & Hyear).
  destruct (month_ends_constant tz year month ltac:(lia) Hm ltac:(unfold msPerDay in *; lia))
    as [Hstart Hend].
  destruct (Z.ltb_spec 0 tz); [lia|]. rewrite Z.sub_0_r in Hend.
  unfold parseMonthLabel. rewrite Hsplit, Hyear, Hindex. cbn [mbind option_bind].
  rewrite Hstart, Hend. cbn [mbind option_bind]. eexists.
  split; [reflexivity|]. cbn [startISO endISO]. split; reflexivity.
Qed.

Lemma take_attendance_selects_current_month_witness :
  let env := AttendanceManager.mkEnv (Resolved (Some "teacher-1"))
               (fun _ => Resolved (Supabase.mk (Some []) None))
               (fun _ _ => Resolved (Supabase.mk (Some []) None)) in
  let st := AttendanceManager.mkState AttendanceManager.select None "" None [] false in
  AttendanceManager.customLessonDates
    (handleTakeAttendanceFromClassManager env (fun _ => - (5 * 3600000)) 1755000000000
       (mkClass "c-1" "Maths") st).1 = None.
Proof.
  intros env st.
  destruct (take_attendance_selects_current_month env (- (5 * 3600000)) 1755000000000
              (mkClass "c-1" "Maths") st) as [Hdates _];
    [unfold msPerDay; lia | vm_compute; split; discriminate | exact Hdates].
Defined.

(** ** InvoiceGenerator: the number of an invoice *)

Lemma invoiceNumber_not_empty (env : InvoiceGenerator.Env) :
  InvoiceGenerator.invoiceNumber env <> "".
Proof.
  unfold InvoiceGenerator.invoiceNumber.
  destruct (InvoiceGenerator.rpc_invoice_number env) as [[[invNum|] [error|]]|m];
    try discriminate.
  case_bool_decide as Hempty; [discriminate | exact Hempty].
Qed.

(** X30: every invoice that is inserted bears a number that is not empty:
    the one that the store answers when it answers one without an error, and
    otherwise, also when that call is rejected, a local one that begins with
    "INV-". *)
Theorem invoice_number_never_empty (env : InvoiceGenerator.Env) (st : InvoiceGenerator.State)
    (row : InvoiceGenerator.InvoiceInsert) :
  InvoiceGenerator.InsertInvoice row ∈ (InvoiceGenerator.generateInvoice env st).2 ->
  InvoiceGenerator.insert_invoice_number row <> ""
  /\ (forall invNum,
        InvoiceGenerator.rpc_invoice_number env = Resolved (Some invNum, None) ->
        invNum <> "" -> InvoiceGenerator.insert_invoice_number row = invNum)
  /\ ((forall invNum, invNum <> "" ->
         InvoiceGenerator.rpc_invoice_number env <> Resolved (Some invNum, None)) ->
      exists rest, InvoiceGenerator.insert_invoice_number row = "INV-" +:+ rest).
Proof.
  intros Hin.
  assert (InvoiceGenerator.insert_invoice_number row = InvoiceGenerator.invoiceNumber env)
    as ->.
  { revert Hin. unfold InvoiceGenerator.generateInvoice.
    destruct (InvoiceGenerator.attendanceData st) as [summary|];
      [|intros Hin; apply elem_of_nil in Hin; contradiction].
    case_bool_decide as Hselection;
      [intros Hin; apply elem_of_nil in Hin; contradiction|].
    unfold InvoiceGenerator.generateInvoice_try.
    destruct (InvoiceGenerator.auth_getUser env) as [[teacherId|]|m]; cbn [act_await act_bind];
      [case_bool_decide as Hteacher;
       [|destruct (isoKey (TimeValue (InvoiceGenerator.clock env 0))) as [todayISO|];
         [destruct (isoKey (InvoiceGenerator.dueDate env)) as [dueISO|];
          [cbn [act_emit act_bind app];
           destruct (InvoiceGenerator.invoices_insert env _) as [[invoiceId|e]|m];
           cbn [act_await act_bind act_throw act_emit app];
           [destruct (InvoiceGenerator.line_items_insert env _) as [[e|]|m]| |] |] |]] | |];
      cbn; intros Hin;
      repeat (apply elem_of_cons in Hin as [Hin|Hin];
              [first [discriminate Hin | injection Hin as ->; reflexivity]|]);
      apply elem_of_nil in Hin; contradiction. }
  split; [apply invoiceNumber_not_empty|]. split.
  - intros invNum Hrpc Hne. unfold InvoiceGenerator.invoiceNumber. rewrite Hrpc.
    rewrite (bool_decide_eq_false_2 _ Hne). reflexivity.
  - intros Hnone. unfold InvoiceGenerator.invoiceNumber.
    destruct (InvoiceGenerator.rpc_invoice_number env) as [[[invNum|] [error|]]|m] eqn:Hrpc;
      try (eexists; reflexivity).
    case_bool_decide as Hempty; [eexists; reflexivity|].
    exfalso. apply (Hnone invNum Hempty). reflexivity.
Qed.

Lemma invoice_number_never_empty_witness :
  let env := sampleInvoiceEnv 0 1762041600000 in
  let st := InvoiceGenerator.mkState [] "c-1" "s-01" "2025-10" "50"
              (Some (InvoiceGenerator.mkAttendanceData "s-01" 3 4)) false in
  exists row,
    InvoiceGenerator.InsertInvoice row ∈ (InvoiceGenerator.generateInvoice env st).2
    /\ InvoiceGenerator.insert_invoice_number row = "INV-0001".
Proof.
  intros env st.
  assert (exists row, InvoiceGenerator.InsertInvoice row
                      ∈ (InvoiceGenerator.generateInvoice env st).2) as [row Hin].
  { eexists. vm_compute. apply list_elem_of_further, list_elem_of_here. }
  exists row. split; [exact Hin|].
  destruct (invoice_number_never_empty env st row Hin) as (_ & Hstore & _).
  apply Hstore; [reflexivity | discriminate].
Defined.
